(** * env-sync: copying GitLab CI/CD variables between projects

    A shallow embedding of [main.go] and of the parts of the Go standard
    library it calls ([net/url], [unicode/utf8], [encoding/json],
    [strings]), followed by the properties of the tool.

    Go strings are byte sequences: they are modelled as [string], whose
    characters ([ascii]) are exactly the 256 byte values.  Go integers are
    modelled as [Z]. *)

From Stdlib Require Import ZArith List String Ascii Bool Lia ZifyBool.
From Stdlib Require Import DecimalString.
Import ListNotations.
Local Open Scope string_scope.
Local Open Scope Z_scope.

(** ** Bytes *)

Module Bytes.

Definition val (c : ascii) : Z := Z.of_N (N_of_ascii c).

(** Conversion [byte(x)] of an integer: the low eight bits. *)
Definition of_Z (z : Z) : ascii := ascii_of_N (Z.to_N (z mod 256)).

Definition between (lo hi c : ascii) : bool :=
  (val lo <=? val c) && (val c <=? val hi).

Definition eqb (a b : ascii) : bool := Ascii.eqb a b.

(** Membership of a byte in a string used as a set of bytes. *)
Fixpoint mem (c : ascii) (s : string) : bool :=
  match s with
  | EmptyString => false
  | String d s' => eqb c d || mem c s'
  end.

(** [s[i]] for a constant lookup table; every use stays in range. *)
Definition index (tbl : string) (i : Z) : ascii :=
  match String.get (Z.to_nat i) tbl with
  | Some c => c
  | None => "000"%char
  end.

(** All 256 byte values, for exhaustive checks. *)
Definition all : list ascii :=
  map (fun n => ascii_of_nat n) (seq 0 256).

Fixpoint skip (n : nat) (s : string) : string :=
  match n, s with
  | O, _ => s
  | S n', String _ s' => skip n' s'
  | S _, EmptyString => EmptyString
  end.

Fixpoint take (n : nat) (s : string) : string :=
  match n, s with
  | S n', String c s' => String c (take n' s')
  | _, _ => EmptyString
  end.

Definition len (s : string) : Z := Z.of_nat (String.length s).

End Bytes.

(** ** Go values shared by the library models and the program *)

(** Values of Go's [error] interface that the program can hold, by
    dynamic type.  Errors produced outside the program (by the network
    stack or the file system) carry the message given by the environment. *)
Inductive error : Type :=
| errorString (msg : string)                      (* built by fmt.Errorf *)
| url_Error (msg : string)                        (* http.Client.Do failed *)
| NewRequest_error (msg : string)                 (* http.NewRequest failed *)
| fs_PathError (msg : string)                     (* os.WriteFile failed *)
| io_EOF
| io_ErrUnexpectedEOF
| json_SyntaxError
| json_UnmarshalTypeError (value type_ : string).

(** A returned pair [(value, err)] of which exactly one part is set. *)
Inductive result (A : Type) : Type :=
| Ok (a : A)
| Err (e : error).

Arguments Ok {A} a.
Arguments Err {A} e.

(** A Go slice as the program observes it: [nil] or a sequence. *)
Inductive slice (A : Type) : Type :=
| nil_slice
| mk_slice (elems : list A).

Arguments nil_slice {A}.
Arguments mk_slice {A} elems.

Definition elems {A : Type} (s : slice A) : list A :=
  match s with
  | nil_slice => []
  | mk_slice l => l
  end.

(** [len(s)] *)
Definition len {A : Type} (s : slice A) : Z := Z.of_nat (List.length (elems s)).

Definition is_nil {A : Type} (s : slice A) : bool :=
  match s with
  | nil_slice => true
  | mk_slice _ => false
  end.

(** The unit of transfer ([type EnvVar struct] with its JSON tags
    [variable_type], [key], [value], [protected], [masked],
    [environment_scope]). *)
Record EnvVar : Type := mkEnvVar {
  VariableType : string;
  Key : string;
  Value : string;
  Protected : bool;
  Masked : bool;
  EnvironmentScope : string
}.

(** The zero value of [EnvVar]. *)
Definition EnvVar_zero : EnvVar := mkEnvVar "" "" "" false false "".

(** ** net/url: escaping of one path segment

    [url.PathEscape] is [escape(s, encodePathSegment)] and
    [url.PathUnescape] is [unescape(s, encodePathSegment)]; both library
    functions are given here for that one mode. *)

Module url.

Definition upperhex : string := "0123456789ABCDEF".

Definition isalnum (c : ascii) : bool :=
  Bytes.between "a" "z" c || Bytes.between "A" "Z" c || Bytes.between "0" "9" c.

(** [shouldEscape(c, encodePathSegment)]: letters, digits and the marks
    [-_.~] are kept; of the reserved characters, [/ ; , ?] are escaped
    and [$ & + : = @] are kept; every other byte is escaped. *)
Definition shouldEscape (c : ascii) : bool :=
  if isalnum c then false
  else if Bytes.mem c "-_.~" then false
  else if Bytes.mem c "$&+,/:;=?@" then Bytes.mem c "/;,?"
  else true.

(** The writing loop of [escape]: an escaped byte becomes [%XY] with
    upper-case hex digits.  (The counting pass that returns [s] itself
    when nothing needs escaping yields the same string.) *)
Fixpoint escape (s : string) : string :=
  match s with
  | EmptyString => EmptyString
  | String c s' =>
      if shouldEscape c then
        String "%" (String (Bytes.index upperhex (Z.shiftr (Bytes.val c) 4))
                   (String (Bytes.index upperhex (Z.land (Bytes.val c) 15))
                   (escape s')))
      else String c (escape s')
  end.

Definition PathEscape (s : string) : string := escape s.

Definition ishex (c : ascii) : bool :=
  Bytes.between "0" "9" c || Bytes.between "a" "f" c || Bytes.between "A" "F" c.




(** *** The path of a parsed URL

    [http.NewRequest] parses the URL string it is given with
    [url.Parse], which hands the part of the string that is the path to
    [setPath]; the request is sent to what [EscapedPath] then returns.
    The functions below are those of [net/url] in the mode [encodePath]
    ([unescape] behaves in that mode as in the mode of path segments). *)







End url.

(** ** unicode/utf8 and unicode/utf16

    Runes are integers ([rune] is [int32]; every value computed here lies
    in [0, 0x10FFFF]). *)

Module utf8.

Definition RuneError : Z := 0xFFFD.
Definition RuneSelf : Z := 0x80.
Definition MaxRune : Z := 0x10FFFF.
Definition UTFMax : Z := 4.

Definition surrogateMin : Z := 0xD800.
Definition surrogateMax : Z := 0xDFFF.

Definition tx : Z := 0x80.
Definition t2 : Z := 0xC0.
Definition t3 : Z := 0xE0.
Definition t4 : Z := 0xF0.

Definition maskx : Z := 0x3F.
Definition mask2 : Z := 0x1F.
Definition mask3 : Z := 0x0F.
Definition mask4 : Z := 0x07.

Definition rune1Max : Z := 0x7F.
Definition rune2Max : Z := 0x7FF.
Definition rune3Max : Z := 0xFFFF.

Definition locb : Z := 0x80.
Definition hicb : Z := 0xBF.

(** Entries of the [first] table: the low three bits are the length of
    the sequence, the high four bits index [acceptRanges]. *)
Definition xx : Z := 0xF1.
Definition as_ : Z := 0xF0.
Definition s1 : Z := 0x02.
Definition s2 : Z := 0x13.
Definition s3 : Z := 0x03.
Definition s4 : Z := 0x23.
Definition s5 : Z := 0x34.
Definition s6 : Z := 0x04.
Definition s7 : Z := 0x44.

(** The table [first], indexed by the first byte of a sequence. *)
Definition first (b : Z) : Z :=
  if b <? 0x80 then as_
  else if b <? 0xC2 then xx
  else if b <? 0xE0 then s1
  else if b =? 0xE0 then s2
  else if b <? 0xED then s3
  else if b =? 0xED then s4
  else if b <? 0xF0 then s3
  else if b =? 0xF0 then s5
  else if b <? 0xF4 then s6
  else if b =? 0xF4 then s7
  else xx.

(** The table [acceptRanges]: bounds [(lo, hi)] of the second byte. *)
Definition acceptRanges (i : Z) : Z * Z :=
  if i =? 0 then (locb, hicb)
  else if i =? 1 then (0xA0, hicb)
  else if i =? 2 then (locb, 0x9F)
  else if i =? 3 then (0x90, hicb)
  else if i =? 4 then (locb, 0x8F)
  else (0, 0).

(** [utf8.DecodeRuneInString] (and [utf8.DecodeRune], the same code on a
    byte slice): the first rune of [s] and its width in bytes; an invalid
    or short sequence gives [(RuneError, 1)], the empty string
    [(RuneError, 0)]. *)
Definition DecodeRuneInString (s : string) : Z * Z :=
  match s with
  | EmptyString => (RuneError, 0)
  | String c0 r0 =>
      let b0 := Bytes.val c0 in
      let x := first b0 in
      if as_ <=? x then
        (* mask := rune(x) << 31 >> 31 is all ones when x is odd *)
        let mask := if Z.testbit x 0 then (-1) else 0 in
        (Z.lor (Z.land b0 (Z.lnot mask)) (Z.land RuneError mask), 1)
      else
        let sz := Z.land x 7 in
        let '(lo, hi) := acceptRanges (Z.shiftr x 4) in
        if Bytes.len s <? sz then (RuneError, 1)
        else
          match r0 with
          | EmptyString => (RuneError, 1)
          | String c1 r1 =>
              let b1 := Bytes.val c1 in
              if (b1 <? lo) || (hi <? b1) then (RuneError, 1)
              else if sz <=? 2 then
                (Z.lor (Z.shiftl (Z.land b0 mask2) 6) (Z.land b1 maskx), 2)
              else
                match r1 with
                | EmptyString => (RuneError, 1)
                | String c2 r2 =>
                    let b2 := Bytes.val c2 in
                    if (b2 <? locb) || (hicb <? b2) then (RuneError, 1)
                    else if sz <=? 3 then
                      (Z.lor (Z.lor (Z.shiftl (Z.land b0 mask3) 12)
                                    (Z.shiftl (Z.land b1 maskx) 6))
                             (Z.land b2 maskx), 3)
                    else
                      match r2 with
                      | EmptyString => (RuneError, 1)
                      | String c3 _ =>
                          let b3 := Bytes.val c3 in
                          if (b3 <? locb) || (hicb <? b3) then (RuneError, 1)
                          else
                            (Z.lor (Z.lor (Z.lor (Z.shiftl (Z.land b0 mask4) 18)
                                                 (Z.shiftl (Z.land b1 maskx) 12))
                                          (Z.shiftl (Z.land b2 maskx) 6))
                                   (Z.land b3 maskx), 4)
                      end
                end
          end
  end.

(** The three- and four-byte forms written by [EncodeRune]. *)
Definition encode3 (r : Z) : string :=
  String (Bytes.of_Z (Z.lor t3 (Z.shiftr r 12)))
 (String (Bytes.of_Z (Z.lor tx (Z.land (Z.shiftr r 6) maskx)))
 (String (Bytes.of_Z (Z.lor tx (Z.land r maskx))) EmptyString)).

Definition encode4 (r : Z) : string :=
  String (Bytes.of_Z (Z.lor t4 (Z.shiftr r 18)))
 (String (Bytes.of_Z (Z.lor tx (Z.land (Z.shiftr r 12) maskx)))
 (String (Bytes.of_Z (Z.lor tx (Z.land (Z.shiftr r 6) maskx)))
 (String (Bytes.of_Z (Z.lor tx (Z.land r maskx))) EmptyString))).

(** [utf8.EncodeRune]: the bytes written for rune [r].  The switch is on
    [uint32(r)]; a value above [MaxRune] or in the surrogate range is
    written as [RuneError]. *)
Definition EncodeRune (r : Z) : string :=
  let i := r mod 2 ^ 32 in
  if i <=? rune1Max then String (Bytes.of_Z r) EmptyString
  else if i <=? rune2Max then
    String (Bytes.of_Z (Z.lor t2 (Z.shiftr r 6)))
   (String (Bytes.of_Z (Z.lor tx (Z.land r maskx))) EmptyString)
  else if (MaxRune <? i) || ((surrogateMin <=? i) && (i <=? surrogateMax)) then
    encode3 RuneError
  else if i <=? rune3Max then encode3 r
  else encode4 r.

(** [utf8.ValidString], stated through the decoder: no position of [s]
    decodes to an encoding error.  [fuel] bounds the number of runes. *)
Fixpoint valid_from (fuel : nat) (s : string) : bool :=
  match fuel with
  | O => match s with EmptyString => true | _ => false end
  | S fuel' =>
      match s with
      | EmptyString => true
      | String _ _ =>
          let '(r, size) := DecodeRuneInString s in
          if (r =? RuneError) && (size =? 1) then false
          else valid_from fuel' (Bytes.skip (Z.to_nat size) s)
      end
  end.

Definition ValidString (s : string) : bool := valid_from (String.length s) s.

End utf8.

Module utf16.

Definition surr1 : Z := 0xD800.
Definition surr2 : Z := 0xDC00.
Definition surr3 : Z := 0xE000.
Definition surrSelf : Z := 0x10000.
Definition replacementChar : Z := 0xFFFD.

Definition IsSurrogate (r : Z) : bool := (surr1 <=? r) && (r <? surr3).

(** [utf16.DecodeRune]: the code point of a surrogate pair, or U+FFFD when
    the two values are not a valid pair. *)
Definition DecodeRune (r1 r2 : Z) : Z :=
  if (surr1 <=? r1) && (r1 <? surr2) && (surr2 <=? r2) && (r2 <? surr3) then
    Z.lor (Z.shiftl (r1 - surr1) 10) (r2 - surr2) + surrSelf
  else replacementChar.

End utf16.

(** ** encoding/json: encoding *)

Module json.

Definition dquote : ascii := "034"%char.
Definition backslash : ascii := "\"%char.
Definition hex : string := "0123456789abcdef".

(** [htmlSafeSet]: the ASCII bytes written without escaping when HTML
    escaping is on (the default of [Marshal] and [MarshalIndent]). *)
Definition htmlSafeSet (c : ascii) : bool :=
  Bytes.between " " "127" c
  && negb (Bytes.mem c (String dquote (String backslash "&<>"))).

(** The escape written for an ASCII byte outside [htmlSafeSet].  The
    short forms of backspace and form feed are those of Go 1.22 and
    later; earlier versions write the six-byte form, which the decoder
    reads as the same byte. *)
Definition escape_ascii (c : ascii) : string :=
  if Bytes.eqb c backslash || Bytes.eqb c dquote then String backslash (String c "")
  else if Bytes.eqb c "008" then String backslash "b"
  else if Bytes.eqb c "012" then String backslash "f"
  else if Bytes.eqb c "010" then String backslash "n"
  else if Bytes.eqb c "013" then String backslash "r"
  else if Bytes.eqb c "009" then String backslash "t"
  else
    String backslash
      (String "u" (String "0" (String "0"
        (String (Bytes.index hex (Z.shiftr (Bytes.val c) 4))
        (String (Bytes.index hex (Z.land (Bytes.val c) 15)) ""))))).

(** The loop of [appendString] from position [i], on the suffix [src[i:]].
    Safe bytes and valid multi-byte runes are copied, invalid bytes become
    [\ufffd], U+2028 and U+2029 are escaped.  (The Go loop copies the
    pending run [src[start:i]] lazily; the bytes written are the same.)
    [fuel] bounds the number of iterations by the length of [src]. *)
Fixpoint appendString_from (fuel : nat) (src : string) : string :=
  match fuel, src with
  | _, EmptyString => EmptyString
  | O, String _ _ => EmptyString
  | S fuel', String c rest =>
      if Bytes.val c <? utf8.RuneSelf then
        if htmlSafeSet c then String c (appendString_from fuel' rest)
        else escape_ascii c ++ appendString_from fuel' rest
      else
        let '(r, size) := utf8.DecodeRuneInString (Bytes.take 4 src) in
        if (r =? utf8.RuneError) && (size =? 1) then
          String backslash "ufffd" ++ appendString_from fuel' rest
        else if (r =? 0x2028) || (r =? 0x2029) then
          String backslash "u202"
          ++ String (Bytes.index hex (Z.land r 15))
               (appendString_from fuel' (Bytes.skip (Z.to_nat size) src))
        else
          Bytes.take (Z.to_nat size) src
          ++ appendString_from fuel' (Bytes.skip (Z.to_nat size) src)
  end.

(** [appendString(dst, src, escapeHTML = true)]: the quoted JSON string. *)
Definition appendString (src : string) : string :=
  String dquote (appendString_from (String.length src) src ++ String dquote "").

(** Types with an encoder ([reflect]-driven in Go; one instance per type
    the program marshals). *)
Class Encoder (A : Type) : Type := encode : A -> string.

#[global] Instance string_Encoder : Encoder string := appendString.

#[global] Instance bool_Encoder : Encoder bool :=
  fun b => if b then "true" else "false".

(** The quoted field name followed by a colon, as the struct encoder
    writes it. *)
Definition field_name (name : string) : string :=
  String dquote (name ++ String dquote ":").

#[global] Instance EnvVar_Encoder : Encoder EnvVar := fun v =>
  "{" ++ field_name "variable_type" ++ encode (VariableType v)
  ++ "," ++ field_name "key" ++ encode (Key v)
  ++ "," ++ field_name "value" ++ encode (Value v)
  ++ "," ++ field_name "protected" ++ encode (Protected v)
  ++ "," ++ field_name "masked" ++ encode (Masked v)
  ++ "," ++ field_name "environment_scope" ++ encode (EnvironmentScope v)
  ++ "}".

Fixpoint encode_elems {A : Type} `{Encoder A} (l : list A) : string :=
  match l with
  | [] => ""
  | [x] => encode x
  | x :: l' => encode x ++ "," ++ encode_elems l'
  end.

(** A nil slice encodes as [null], any other as a JSON array. *)
#[global] Instance slice_Encoder {A : Type} `{Encoder A} : Encoder (slice A) :=
  fun s =>
    match s with
    | nil_slice => "null"
    | mk_slice l => "[" ++ encode_elems l ++ "]"
    end.

(** [json.Marshal]; the encoders above never fail. *)
Definition Marshal {A : Type} `{Encoder A} (v : A) : result string :=
  Ok (encode v).

Definition isSpace (c : ascii) : bool :=
  Bytes.eqb c " " || Bytes.eqb c "009" || Bytes.eqb c "013" || Bytes.eqb c "010".

(** [appendNewline] *)
Definition appendNewline (prefix indent : string) (depth : nat) : string :=
  String "010" (prefix ++ String.concat "" (repeat indent depth)).

(** [json.Indent] on a syntactically valid document.  Of the scanner
    state only what decides the output is kept: whether the position is
    inside a string literal ([instr], with [esc] after a backslash), the
    pending indent after an opening bracket and the depth. *)
Fixpoint Indent_from (prefix indent : string) (src : string)
    (instr esc needIndent : bool) (depth : nat) : string :=
  match src with
  | EmptyString => EmptyString
  | String c rest =>
      if instr then
        String c
          (Indent_from prefix indent rest
             (esc || negb (Bytes.eqb c dquote))
             (negb esc && Bytes.eqb c backslash) needIndent depth)
      else if isSpace c then
        Indent_from prefix indent rest false false needIndent depth
      else
        let closing := Bytes.eqb c "}" || Bytes.eqb c "]" in
        let opened := needIndent && negb closing in
        let depth1 := if opened then S depth else depth in
        let need1 := needIndent && closing in
        (if opened then appendNewline prefix indent depth1 else "")
        ++
        (if Bytes.eqb c "{" || Bytes.eqb c "[" then
           String c (Indent_from prefix indent rest false false true depth1)
         else if Bytes.eqb c "," then
           String c (appendNewline prefix indent depth1
                     ++ Indent_from prefix indent rest false false need1 depth1)
         else if Bytes.eqb c ":" then
           String c (String " "
                     (Indent_from prefix indent rest false false need1 depth1))
         else if closing then
           if need1 then
             String c (Indent_from prefix indent rest false false false depth1)
           else
             appendNewline prefix indent (Nat.pred depth1)
             ++ String c (Indent_from prefix indent rest false false false
                            (Nat.pred depth1))
         else
           String c (Indent_from prefix indent rest (Bytes.eqb c dquote) false
                       need1 depth1))
  end.

Definition Indent (src prefix indent : string) : string :=
  Indent_from prefix indent src false false false 0.

(** [json.MarshalIndent]: [Marshal] followed by [Indent]. *)
Definition MarshalIndent {A : Type} `{Encoder A} (v : A) (prefix indent : string)
  : result string :=
  match Marshal v with
  | Ok b => Ok (Indent b prefix indent)
  | Err e => Err e
  end.

(** ** encoding/json: decoding

    [Decoder.Decode] first reads one complete JSON value from the stream
    (the scanner checks its syntax), then stores it into the target.  The
    first phase is modelled by a parser that returns the value as a tree
    together with the unread rest of the input, the second by functions
    from trees to the program's types. *)

#[local] Set Warnings "-register-all".

Inductive value : Type :=
| Null
| Bool (b : bool)
| Number (lit : string)
| Str (s : string)
| Array (l : list value)
| Object (l : list (string * value)).

(** Outcome of scanning a prefix of the input. *)
Inductive scan (A : Type) : Type :=
| Done (a : A) (rest : string)
| Fail (e : error)
| OutOfFuel.

Arguments Done {A} a rest.
Arguments Fail {A} e.
Arguments OutOfFuel {A}.

Fixpoint skip_space (s : string) : string :=
  match s with
  | String c s' => if isSpace c then skip_space s' else s
  | EmptyString => s
  end.

Definition isdigit (c : ascii) : bool := Bytes.between "0" "9" c.

Definition ishex (c : ascii) : bool :=
  isdigit c || Bytes.between "a" "f" c || Bytes.between "A" "F" c.

(** *** String literals *)

(** Scanner states inside a string literal: [stateInString],
    [stateInStringEsc] and [stateInStringEscU] with the number of hex
    digits still expected. *)
Inductive string_state : Type :=
| InString
| InStringEsc
| InStringEscU (n : nat).

(** The scanner from just after the opening quote: the raw bytes of the
    literal up to the closing quote, and the input after it. *)
Fixpoint scan_string (st : string_state) (s : string) : scan string :=
  match s with
  | EmptyString => Fail io_ErrUnexpectedEOF
  | String c s' =>
      let keep st' :=
        match scan_string st' s' with
        | Done raw rest => Done (String c raw) rest
        | Fail e => Fail e
        | OutOfFuel => OutOfFuel
        end in
      match st with
      | InString =>
          if Bytes.eqb c dquote then Done EmptyString s'
          else if Bytes.eqb c backslash then keep InStringEsc
          else if Bytes.val c <? 32 then Fail json_SyntaxError
          else keep InString
      | InStringEsc =>
          if Bytes.mem c (String dquote (String backslash "/bfnrt"))
          then keep InString
          else if Bytes.eqb c "u" then keep (InStringEscU 4)
          else Fail json_SyntaxError
      | InStringEscU n =>
          if ishex c then
            match n with
            | S (S n') => keep (InStringEscU (S n'))
            | _ => keep InString
            end
          else Fail json_SyntaxError
      end
  end.

Definition hexval (c : ascii) : Z :=
  if isdigit c then Bytes.val c - Bytes.val "0"
  else if Bytes.between "a" "f" c then Bytes.val c - Bytes.val "a" + 10
  else Bytes.val c - Bytes.val "A" + 10.

(** [getu4]: the value of a leading [\uXXXX], or [-1]. *)
Definition getu4 (s : string) : Z :=
  match s with
  | String e (String u (String a (String b (String c (String d _))))) =>
      if Bytes.eqb e backslash && Bytes.eqb u "u"
         && ishex a && ishex b && ishex c && ishex d
      then ((hexval a * 16 + hexval b) * 16 + hexval c) * 16 + hexval d
      else (-1)
  | _ => (-1)
  end.

(** The loop of [unquoteBytes] on the raw bytes of a literal: escapes
    are replaced and every rune is re-encoded, which coerces invalid
    UTF-8 to U+FFFD.  [None] is the [ok = false] result, which the
    scanner rules out.  (Go first skips the longest prefix that needs no
    change; this loop copies that prefix byte for byte.) *)
Fixpoint unquote_from (fuel : nat) (s : string) : option string :=
  match s with
  | EmptyString => Some EmptyString
  | String c rest =>
      match fuel with
      | O => None
      | S fuel' =>
          let emit (out : string) (s' : string) :=
            option_map (append out) (unquote_from fuel' s') in
          if Bytes.eqb c backslash then
            match rest with
            | EmptyString => None
            | String e rest' =>
                if Bytes.mem e (String dquote (String backslash "/'"))
                then emit (String e "") rest'
                else if Bytes.eqb e "b" then emit (String "008" "") rest'
                else if Bytes.eqb e "f" then emit (String "012" "") rest'
                else if Bytes.eqb e "n" then emit (String "010" "") rest'
                else if Bytes.eqb e "r" then emit (String "013" "") rest'
                else if Bytes.eqb e "t" then emit (String "009" "") rest'
                else if Bytes.eqb e "u" then
                  let rr := getu4 s in
                  if rr <? 0 then None
                  else
                    let s6 := Bytes.skip 6 s in
                    if utf16.IsSurrogate rr then
                      let dec := utf16.DecodeRune rr (getu4 s6) in
                      if negb (dec =? utf16.replacementChar)
                      then emit (utf8.EncodeRune dec) (Bytes.skip 6 s6)
                      else emit (utf8.EncodeRune utf16.replacementChar) s6
                    else emit (utf8.EncodeRune rr) s6
                else None
            end
          else if Bytes.eqb c dquote || (Bytes.val c <? 32) then None
          else if Bytes.val c <? utf8.RuneSelf then emit (String c "") rest
          else
            let '(rr, size) := utf8.DecodeRuneInString s in
            emit (utf8.EncodeRune rr) (Bytes.skip (Z.to_nat size) s)
      end
  end.

Definition unquote (raw : string) : option string :=
  unquote_from (String.length raw) raw.

(** A string literal from just after its opening quote. *)
Definition parse_string (s : string) : scan string :=
  match scan_string InString s with
  | Done raw rest =>
      match unquote raw with
      | Some t => Done t rest
      | None => Fail json_SyntaxError
      end
  | Fail e => Fail e
  | OutOfFuel => OutOfFuel
  end.

(** *** Numbers and the literals [true], [false], [null] *)

(** Scanner states inside a number: [stateNeg], [state0], [state1],
    [stateDot], [stateDot0], [stateE], [stateESign], [stateE0]. *)
Inductive number_state : Type :=
| stateNeg | state0 | state1 | stateDot | stateDot0
| stateE | stateESign | stateE0.

Definition number_accepts (st : number_state) : bool :=
  match st with
  | state0 | state1 | stateDot0 | stateE0 => true
  | _ => false
  end.

(** The state after byte [c], or [None] when [c] cannot continue the
    number. *)
Definition number_step (st : number_state) (c : ascii) : option number_state :=
  match st with
  | stateNeg =>
      if Bytes.eqb c "0" then Some state0
      else if Bytes.between "1" "9" c then Some state1
      else None
  | state1 =>
      if isdigit c then Some state1
      else if Bytes.eqb c "." then Some stateDot
      else if Bytes.eqb c "e" || Bytes.eqb c "E" then Some stateE
      else None
  | state0 =>
      if Bytes.eqb c "." then Some stateDot
      else if Bytes.eqb c "e" || Bytes.eqb c "E" then Some stateE
      else None
  | stateDot => if isdigit c then Some stateDot0 else None
  | stateDot0 =>
      if isdigit c then Some stateDot0
      else if Bytes.eqb c "e" || Bytes.eqb c "E" then Some stateE
      else None
  | stateE =>
      if Bytes.eqb c "+" || Bytes.eqb c "-" then Some stateESign
      else if isdigit c then Some stateE0
      else None
  | stateESign => if isdigit c then Some stateE0 else None
  | stateE0 => if isdigit c then Some stateE0 else None
  end.

(** The rest of a number after its first byte, read in state [st]. *)
Fixpoint scan_number (st : number_state) (s : string) : scan string :=
  match s with
  | EmptyString =>
      if number_accepts st then Done EmptyString EmptyString
      else Fail io_ErrUnexpectedEOF
  | String c s' =>
      match number_step st c with
      | Some st' =>
          match scan_number st' s' with
          | Done lit rest => Done (String c lit) rest
          | Fail e => Fail e
          | OutOfFuel => OutOfFuel
          end
      | None =>
          if number_accepts st then Done EmptyString s
          else Fail json_SyntaxError
      end
  end.

(** The remaining bytes [word] of a literal name. *)
Fixpoint scan_word (word : string) (s : string) : scan unit :=
  match word with
  | EmptyString => Done tt s
  | String w word' =>
      match s with
      | EmptyString => Fail io_ErrUnexpectedEOF
      | String c s' =>
          if Bytes.eqb c w then scan_word word' s' else Fail json_SyntaxError
      end
  end.

(** *** Values *)

Definition scan_map {A B : Type} (f : A -> B) (r : scan A) : scan B :=
  match r with
  | Done a rest => Done (f a) rest
  | Fail e => Fail e
  | OutOfFuel => OutOfFuel
  end.

(** The scanner refuses more than [maxNestingDepth] open arrays and
    objects. *)
Definition maxNestingDepth : Z := 10000.

(** One value from the first non-space byte of [s] ([stateBeginValue]),
    inside [depth] open arrays and objects; [parse_elements] reads the
    elements of an array after the first element is known to exist,
    [parse_members] the members of an object from the opening quote of a
    key ([stateBeginString]).  Each call consumes one unit of [fuel]. *)
Fixpoint parse_value (fuel : nat) (depth : Z) (s : string) {struct fuel}
  : scan value :=
  match fuel with
  | O => OutOfFuel
  | S fuel' =>
      match skip_space s with
      | EmptyString => Fail io_ErrUnexpectedEOF
      | String c rest =>
          if Bytes.eqb c "{" then
            if maxNestingDepth <? depth + 1 then Fail json_SyntaxError
            else
              match skip_space rest with
              | EmptyString => Fail io_ErrUnexpectedEOF
              | String c' rest' =>
                  if Bytes.eqb c' "}" then Done (Object []) rest'
                  else scan_map Object
                         (parse_members fuel' (depth + 1) (String c' rest'))
              end
          else if Bytes.eqb c "[" then
            if maxNestingDepth <? depth + 1 then Fail json_SyntaxError
            else
              match skip_space rest with
              | EmptyString => Fail io_ErrUnexpectedEOF
              | String c' rest' =>
                  if Bytes.eqb c' "]" then Done (Array []) rest'
                  else scan_map Array
                         (parse_elements fuel' (depth + 1) (String c' rest'))
              end
          else if Bytes.eqb c dquote then scan_map Str (parse_string rest)
          else if Bytes.eqb c "-" then
            scan_map (fun lit => Number (String c lit)) (scan_number stateNeg rest)
          else if Bytes.eqb c "0" then
            scan_map (fun lit => Number (String c lit)) (scan_number state0 rest)
          else if Bytes.between "1" "9" c then
            scan_map (fun lit => Number (String c lit)) (scan_number state1 rest)
          else if Bytes.eqb c "t" then
            scan_map (fun _ => Bool true) (scan_word "rue" rest)
          else if Bytes.eqb c "f" then
            scan_map (fun _ => Bool false) (scan_word "alse" rest)
          else if Bytes.eqb c "n" then
            scan_map (fun _ => Null) (scan_word "ull" rest)
          else Fail json_SyntaxError
      end
  end

with parse_elements (fuel : nat) (depth : Z) (s : string) {struct fuel}
  : scan (list value) :=
  match fuel with
  | O => OutOfFuel
  | S fuel' =>
      match parse_value fuel' depth s with
      | Done v rest =>
          match skip_space rest with
          | EmptyString => Fail io_ErrUnexpectedEOF
          | String c rest' =>
              if Bytes.eqb c "," then
                scan_map (cons v) (parse_elements fuel' depth rest')
              else if Bytes.eqb c "]" then Done [v] rest'
              else Fail json_SyntaxError
          end
      | Fail e => Fail e
      | OutOfFuel => OutOfFuel
      end
  end

with parse_members (fuel : nat) (depth : Z) (s : string) {struct fuel}
  : scan (list (string * value)) :=
  match fuel with
  | O => OutOfFuel
  | S fuel' =>
      match skip_space s with
      | EmptyString => Fail io_ErrUnexpectedEOF
      | String q s1 =>
          if negb (Bytes.eqb q dquote) then Fail json_SyntaxError
          else
            match parse_string s1 with
            | Done key s2 =>
                match skip_space s2 with
                | EmptyString => Fail io_ErrUnexpectedEOF
                | String c s3 =>
                    if negb (Bytes.eqb c ":") then Fail json_SyntaxError
                    else
                      match parse_value fuel' depth s3 with
                      | Done v s4 =>
                          match skip_space s4 with
                          | EmptyString => Fail io_ErrUnexpectedEOF
                          | String c' s5 =>
                              if Bytes.eqb c' "," then
                                scan_map (cons (key, v))
                                  (parse_members fuel' depth s5)
                              else if Bytes.eqb c' "}" then Done [(key, v)] s5
                              else Fail json_SyntaxError
                          end
                      | Fail e => Fail e
                      | OutOfFuel => OutOfFuel
                      end
                end
            | Fail e => Fail e
            | OutOfFuel => OutOfFuel
            end
      end
  end.

(** Fuel that lets [parse_value] finish on any input of this length. *)
Definition fuel_for (s : string) : nat := 2 * String.length s + 1.

(** [Decoder.readValue] on a stream holding [body]: the first JSON value
    and what follows it.  An empty stream is [io.EOF].  Nothing after the
    value is examined: the scanner only notes a byte that cannot follow a
    top-level value, and the note is dropped with the scanner state. *)
Definition readValue (body : string) : scan value :=
  match skip_space body with
  | EmptyString => Fail io_EOF
  | String _ _ => parse_value (fuel_for body) 0 body
  end.

(** *** Storing a value into the program's types *)

(** The fields of [EnvVar], in declaration order, with their JSON names. *)
Inductive field : Type :=
| fVariableType | fKey | fValue | fProtected | fMasked | fEnvironmentScope.

Definition fields : list field :=
  [fVariableType; fKey; fValue; fProtected; fMasked; fEnvironmentScope].

Definition name_of (f : field) : string :=
  match f with
  | fVariableType => "variable_type"
  | fKey => "key"
  | fValue => "value"
  | fProtected => "protected"
  | fMasked => "masked"
  | fEnvironmentScope => "environment_scope"
  end.

(** [foldRune]: the smallest rune of the case-folding orbit of [r].  Only
    U+017F (long s) and U+212A (Kelvin sign) have an ASCII letter in their
    orbit; any other non-ASCII rune folds to a non-ASCII rune, and is left
    as it is here, which does not change any comparison with the ASCII
    field names. *)
Definition foldRune (r : Z) : Z :=
  if r =? 0x17F then 0x53
  else if r =? 0x212A then 0x4B
  else r.

(** [appendFoldedName]: ASCII letters in upper case, other runes folded. *)
Fixpoint foldName_from (fuel : nat) (s : string) : string :=
  match fuel, s with
  | _, EmptyString => EmptyString
  | O, String _ _ => EmptyString
  | S fuel', String c rest =>
      if Bytes.val c <? utf8.RuneSelf then
        String (if Bytes.between "a" "z" c
                then Bytes.of_Z (Bytes.val c - (Bytes.val "a" - Bytes.val "A"))
                else c)
               (foldName_from fuel' rest)
      else
        let '(r, n) := utf8.DecodeRuneInString s in
        utf8.EncodeRune (foldRune r)
        ++ foldName_from fuel' (Bytes.skip (Z.to_nat n) s)
  end.

Definition foldName (s : string) : string := foldName_from (String.length s) s.

(** The field a key selects: an exact match of the name first, then a
    match of the folded names. *)
Definition find_field (key : string) : option field :=
  match find (fun f => String.eqb (name_of f) key) fields with
  | Some f => Some f
  | None => find (fun f => String.eqb (foldName (name_of f)) (foldName key)) fields
  end.

(** [decodeState.saveError]: only the first error is kept. *)
Definition saveError (saved : option error) (e : error) : option error :=
  match saved with
  | Some _ => saved
  | None => Some e
  end.

(** The [Value] of an [UnmarshalTypeError] for a JSON value. *)
Definition describe (v : value) : string :=
  match v with
  | Null => "null"
  | Bool _ => "bool"
  | Number _ => "number"
  | Str _ => "string"
  | Array _ => "array"
  | Object _ => "object"
  end.

(** Storing into a [string] field: a JSON string is stored, [null]
    leaves the field as it is, anything else is a type error and leaves
    the field as it is. *)
Definition store_string (v : value) (old : string) (saved : option error)
  : string * option error :=
  match v with
  | Str s => (s, saved)
  | Null => (old, saved)
  | _ => (old, saveError saved (json_UnmarshalTypeError (describe v) "string"))
  end.

Definition store_bool (v : value) (old : bool) (saved : option error)
  : bool * option error :=
  match v with
  | Bool b => (b, saved)
  | Null => (old, saved)
  | _ => (old, saveError saved (json_UnmarshalTypeError (describe v) "bool"))
  end.

Definition store_field (f : field) (v : value) (x : EnvVar)
    (saved : option error) : EnvVar * option error :=
  match f with
  | fVariableType =>
      let '(s, e) := store_string v (VariableType x) saved in
      (mkEnvVar s (Key x) (Value x) (Protected x) (Masked x) (EnvironmentScope x), e)
  | fKey =>
      let '(s, e) := store_string v (Key x) saved in
      (mkEnvVar (VariableType x) s (Value x) (Protected x) (Masked x) (EnvironmentScope x), e)
  | fValue =>
      let '(s, e) := store_string v (Value x) saved in
      (mkEnvVar (VariableType x) (Key x) s (Protected x) (Masked x) (EnvironmentScope x), e)
  | fProtected =>
      let '(b, e) := store_bool v (Protected x) saved in
      (mkEnvVar (VariableType x) (Key x) (Value x) b (Masked x) (EnvironmentScope x), e)
  | fMasked =>
      let '(b, e) := store_bool v (Masked x) saved in
      (mkEnvVar (VariableType x) (Key x) (Value x) (Protected x) b (EnvironmentScope x), e)
  | fEnvironmentScope =>
      let '(s, e) := store_string v (EnvironmentScope x) saved in
      (mkEnvVar (VariableType x) (Key x) (Value x) (Protected x) (Masked x) s, e)
  end.

(** [decodeState.object] on a struct: members are stored in input order;
    a key that selects no field is skipped. *)
Fixpoint store_members (ms : list (string * value)) (x : EnvVar)
    (saved : option error) : EnvVar * option error :=
  match ms with
  | [] => (x, saved)
  | (key, v) :: ms' =>
      match find_field key with
      | Some f =>
          let '(x', saved') := store_field f v x saved in
          store_members ms' x' saved'
      | None => store_members ms' x saved
      end
  end.

(** Storing a value into an [EnvVar]. *)
Definition store_EnvVar (v : value) (x : EnvVar) (saved : option error)
  : EnvVar * option error :=
  match v with
  | Object ms => store_members ms x saved
  | Null => (x, saved)
  | _ => (x, saveError saved (json_UnmarshalTypeError (describe v) "main.EnvVar"))
  end.

(** [decodeState.array] on a slice of [EnvVar]: each element is stored
    into a fresh zero value. *)
Fixpoint store_elements (l : list value) (saved : option error)
  : list EnvVar * option error :=
  match l with
  | [] => ([], saved)
  | v :: l' =>
      let '(x, saved') := store_EnvVar v EnvVar_zero saved in
      let '(xs, saved'') := store_elements l' saved' in
      (x :: xs, saved'')
  end.

(** Storing a value into a [[]EnvVar] variable that holds [old]: an array
    replaces it, [null] sets it to nil, anything else is a type error. *)
Definition store_slice (v : value) (old : slice EnvVar) (saved : option error)
  : slice EnvVar * option error :=
  match v with
  | Array l => let '(xs, e) := store_elements l saved in (mk_slice xs, e)
  | Null => (nil_slice, saved)
  | _ => (old, saveError saved (json_UnmarshalTypeError (describe v) "[]main.EnvVar"))
  end.

(** Types that [Decode] and [Unmarshal] can fill. *)
Class Storer (A : Type) : Type :=
  store : value -> A -> option error -> A * option error.

#[global] Instance EnvVar_Storer : Storer EnvVar := store_EnvVar.
#[global] Instance slice_Storer : Storer (slice EnvVar) := store_slice.

(** [json.NewDecoder(r).Decode(&v)] on a stream holding [body], with [v]
    holding [old]: the new content of [v] and the returned error.  When
    reading the value fails, [v] is not touched. *)
Definition Decode {A : Type} `{Storer A} (body : string) (old : A)
  : A * option error :=
  match readValue body with
  | Done v _ => store v old None
  | Fail e => (old, Some e)
  | OutOfFuel => (old, Some json_SyntaxError)
  end.

Definition all_space (s : string) : bool :=
  match skip_space s with
  | EmptyString => true
  | String _ _ => false
  end.

(** [json.Valid(data)]: [data] is one value surrounded by spaces only. *)
Definition Valid (data : string) : bool :=
  match parse_value (fuel_for data) 0 data with
  | Done _ rest => all_space rest
  | _ => false
  end.

(** [json.Unmarshal(data, &v)]: [checkValid] requires [data] to be one
    value surrounded by spaces only. *)
Definition Unmarshal {A : Type} `{Storer A} (data : string) (old : A)
  : A * option error :=
  match parse_value (fuel_for data) 0 data with
  | Done v rest =>
      if all_space rest then store v old None else (old, Some json_SyntaxError)
  | Fail e => (old, Some (match e with io_ErrUnexpectedEOF => json_SyntaxError | _ => e end))
  | OutOfFuel => (old, Some json_SyntaxError)
  end.

End json.

(** ** fmt, strings and the integer type *)

Module fmt.

(** Operands of the formatting verbs that occur in the program's
    [Sprintf] and [Errorf] formats ([%s] with a string, [%d] with an
    integer). *)
Inductive operand : Type :=
| s_ (s : string)
| d_ (n : Z).

Definition render (a : operand) : string :=
  match a with
  | s_ s => s
  | d_ n => NilZero.string_of_int (Z.to_int n)
  end.

(** [fmt.Sprintf] for formats whose verbs are [%s] and [%d], each given
    an operand of its type. *)
Fixpoint Sprintf (format : string) (args : list operand) : string :=
  match format with
  | EmptyString => EmptyString
  | String c rest =>
      if Bytes.eqb c "%" then
        match rest, args with
        | String _ rest', a :: args' => render a ++ Sprintf rest' args'
        | _, _ => String c (Sprintf rest args)
        end
      else String c (Sprintf rest args)
  end.

(** [fmt.Errorf] *)
Definition Errorf (format : string) (args : list operand) : error :=
  errorString (Sprintf format args).

End fmt.

Module strings.

(** [strings.TrimRight]: [s] without its trailing bytes from [cutset]. *)
Fixpoint TrimRight (s cutset : string) : string :=
  match s with
  | EmptyString => EmptyString
  | String c s' =>
      match TrimRight s' cutset with
      | EmptyString => if Bytes.mem c cutset then EmptyString else String c EmptyString
      | t => String c t
      end
  end.

End strings.

Module int.

(** Go's [int] on a 64-bit platform: arithmetic wraps to
    [-2^63, 2^63). *)
Definition wrap (z : Z) : Z := (z + 2 ^ 63) mod 2 ^ 64 - 2 ^ 63.

(** [n++] *)
Definition incr (n : Z) : Z := wrap (n + 1).

End int.

(** ** net/http, os, time and log: the environment of a run *)

Module http.

Definition StatusOK : Z := 200.
Definition StatusCreated : Z := 201.
Definition StatusNotFound : Z := 404.

(** A request as the program builds it: the method, the URL string and
    the body that it gives to [http.NewRequest], and the headers that it
    sets.  [URL] is that string as the program wrote it; [http.NewRequest]
    parses it, and where the parsed URL has to be written in another way
    ([url.EscapedPath]) the client sends the request there.  That is the
    doing of [net/http] and part of [Do], which is given the request as
    the program built it.  Header names are kept as written in the
    source. *)
Record Request : Type := mkRequest {
  Method : string;
  URL : string;
  Header : list (string * string);
  ReqBody : option string
}.

(** A response: its status code and the bytes of its body.  The body is
    delivered whole: a connection that breaks is a failure of
    [http.Client.Do], not of a later read. *)
Record Response : Type := mkResponse {
  StatusCode : Z;
  Body : string
}.

(** [Header.Set].  The key is kept as the program writes it; Go files it
    under its canonical form, on which nothing below depends. *)
Definition Header_Set (key val : string) (req : Request) : Request :=
  mkRequest (Method req) (URL req)
    (filter (fun kv => negb (String.eqb (fst kv) key)) (Header req) ++ [(key, val)])
    (ReqBody req).

End http.

(** What the program does not decide: which URLs [http.NewRequest]
    accepts, how the network answers a request, whether a file can be
    written, and the clock.  The state of the outside world is threaded
    through the calls that touch it. *)
Record Env : Type := mkEnv {
  World : Type;
  NewRequest_check : string -> string -> option error;
  Do : http.Request -> World -> result http.Response * World;
  WriteFile : string -> string -> Z -> World -> option error * World;
  Now_RFC3339 : World -> string * World
}.

(** The environment of a run is passed implicitly. *)
Existing Class Env.

(** Operands of [log.Printf] and [log.Fatalf] calls, kept unformatted. *)
Inductive log_operand : Type :=
| log_s (s : string)
| log_d (n : Z)
| log_v (e : error).

(** The errors of [flag.Parse], by the message that the flag package
    prints for them: [bad flag syntax: %s], [flag provided but not
    defined: -%s], [invalid boolean value %q for -%s: %v] and [flag needs
    an argument: -%s]. *)
Inductive flag_error : Type :=
| bad_flag_syntax (arg : string)
| flag_not_defined (name : string)
| invalid_boolean_value (value name : string)
| flag_needs_argument (name : string).

(** The observable history of a run: the calls of the client's
    operations with their arguments and results, and the actions on the
    outside world, in the order in which they happen. *)
Inductive Event : Type :=
| Call_GetVariables (projectPath : string)
| Ret_GetVariables (variables : slice EnvVar) (err : option error)
| Call_CreateVariable (projectPath : string) (variable : EnvVar) (dryRun : bool)
| Ret_CreateVariable (err : option error)
| Call_writeDryRunOutput (filename sourceProject targetProject : string)
    (variables : slice EnvVar)
| Ret_writeDryRunOutput (err : option error)
| Sent (req : http.Request) (answer : result http.Response)
| Wrote (filename data : string) (perm : Z) (err : option error)
| Logged (format : string) (args : list log_operand)
| Printed (line : string)
| Usage
| Complained (e : flag_error).

Section Run.

Context (E : Env).

Record State : Type := mkState {
  world : World E;
  trace : list Event
}.

(** How a computation ends: it returns, or the process exits. *)
Inductive outcome (A : Type) : Type :=
| Returned (a : A)
| Exited (code : Z).

#[global] Arguments Returned {A} a.
#[global] Arguments Exited {A} code.

Definition M (A : Type) : Type := State -> outcome A * State.

Definition ret {A : Type} (a : A) : M A := fun st => (Returned a, st).

Definition bind {A B : Type} (m : M A) (k : A -> M B) : M B :=
  fun st =>
    match m st with
    | (Returned a, st') => k a st'
    | (Exited code, st') => (Exited code, st')
    end.

Definition emit (ev : Event) : M unit :=
  fun st => (Returned tt, mkState (world st) (trace st ++ [ev])).

(** [os.Exit] *)
Definition os_Exit {A : Type} (code : Z) : M A := fun st => (Exited code, st).

(** [c.httpClient.Do(req)] *)
Definition httpClient_Do (req : http.Request) : M (result http.Response) :=
  fun st =>
    let '(answer, w) := Do E req (world st) in
    (Returned answer, mkState w (trace st ++ [Sent req answer])).

(** [os.WriteFile] *)
Definition os_WriteFile (filename data : string) (perm : Z) : M (option error) :=
  fun st =>
    let '(err, w) := WriteFile E filename data perm (world st) in
    (Returned err, mkState w (trace st ++ [Wrote filename data perm err])).

(** [time.Now().Format(time.RFC3339)] *)
Definition time_Now_Format_RFC3339 : M string :=
  fun st =>
    let '(t, w) := Now_RFC3339 E (world st) in
    (Returned t, mkState w (trace st)).

Definition log_Printf (format : string) (args : list log_operand) : M unit :=
  emit (Logged format args).

(** [log.Fatalf]: the message is logged, then the process exits with
    status 1. *)
Definition log_Fatalf {A : Type} (format : string) (args : list log_operand) : M A :=
  bind (emit (Logged format args)) (fun _ => os_Exit 1).

Definition fmt_Println (line : string) : M unit := emit (Printed line).

Definition flag_Usage : M unit := emit Usage.

(** [http.NewRequest]: the URLs that [url.Parse] rejects are those of
    [NewRequest_check]; the request holds the arguments of the call.  The
    URL is kept as the string of the call, not as the [*url.URL] that
    [url.Parse] makes of it: which path that URL has, and how the path is
    written when the request is sent, is [url.setPath] and
    [url.EscapedPath]. *)
Definition http_NewRequest (method url : string) (body : option string)
  : result http.Request :=
  match NewRequest_check E method url with
  | Some err => Err err
  | None => Ok (http.mkRequest method url [] body)
  end.

End Run.

Arguments ret {E A} a.
Arguments bind {E A B} m k.
Arguments emit {E} ev.
Arguments os_Exit {E A} code.
Arguments log_Printf {E} format args.
Arguments log_Fatalf {E A} format args.
Arguments fmt_Println {E} line.
Arguments flag_Usage {E}.
Arguments world {E} s.
Arguments trace {E} s.

Declare Scope go_scope.
Delimit Scope go_scope with go.
Notation "x <- m ;; k" := (bind m (fun x => k))
  (at level 61, m at next level, right associativity) : go_scope.
Notation "m ;; k" := (bind m (fun _ => k))
  (at level 61, right associativity) : go_scope.

(** ** main.go *)

Section Program.

Context {E : Env}.

Local Open Scope go_scope.

Record GitLabClient : Type := mkGitLabClient {
  baseURL : string;
  token : string;
  httpClient_Timeout : Z            (* in seconds *)
}.

Definition NewGitLabClient (baseURL token : string) : GitLabClient :=
  mkGitLabClient baseURL token 10.

Definition makeRequest (c : GitLabClient) (method path : string)
    (body : option string) : result http.Request :=
  let url := fmt.Sprintf "%s/api/v4/%s" [fmt.s_ (baseURL c); fmt.s_ path] in
  match http_NewRequest E method url body with
  | Err err => Err err
  | Ok req =>
      Ok (http.Header_Set "Content-Type" "application/json"
            (http.Header_Set "PRIVATE-TOKEN" (token c) req))
  end.

(** The body of [GetVariables]; the result is the returned pair. *)
Definition GetVariables_body (c : GitLabClient) (projectPath : string)
  : M E (slice EnvVar * option error) :=
  let encodedPath := url.PathEscape projectPath in
  let path := fmt.Sprintf "projects/%s/variables" [fmt.s_ encodedPath] in
  match makeRequest c "GET" path None with
  | Err err => ret (nil_slice, Some err)
  | Ok req =>
      answer <- httpClient_Do E req ;;
      match answer with
      | Err err => ret (nil_slice, Some err)
      | Ok resp =>
          if http.StatusCode resp =? http.StatusNotFound then
            ret (nil_slice,
                 Some (fmt.Errorf "project not found: %s" [fmt.s_ projectPath]))
          else if negb (http.StatusCode resp =? http.StatusOK) then
            let bodyBytes := http.Body resp in
            ret (nil_slice,
                 Some (fmt.Errorf
                         "failed to get variables: status code %d, response: %s"
                         [fmt.d_ (http.StatusCode resp); fmt.s_ bodyBytes]))
          else
            let '(variables, err) := json.Decode (http.Body resp) nil_slice in
            match err with
            | Some err => ret (nil_slice, Some err)
            | None => ret (variables, None)
            end
      end
  end.

Definition GetVariables (c : GitLabClient) (projectPath : string)
  : M E (slice EnvVar * option error) :=
  emit (Call_GetVariables projectPath) ;;
  r <- GetVariables_body c projectPath ;;
  emit (Ret_GetVariables (fst r) (snd r)) ;;
  ret r.

Definition CreateVariable_body (c : GitLabClient) (projectPath : string)
    (variable : EnvVar) (dryRun : bool) : M E (option error) :=
  if dryRun then ret None
  else
    let encodedPath := url.PathEscape projectPath in
    match json.Marshal variable with
    | Err err => ret (Some err)
    | Ok data =>
        match makeRequest c "POST"
                (fmt.Sprintf "projects/%s/variables" [fmt.s_ encodedPath])
                (Some data) with
        | Err err => ret (Some err)
        | Ok req =>
            answer <- httpClient_Do E req ;;
            match answer with
            | Err err => ret (Some err)
            | Ok resp =>
                if negb (http.StatusCode resp =? http.StatusCreated) then
                  let bodyBytes := http.Body resp in
                  ret (Some (fmt.Errorf
                    "failed to create variable %s: status code %d, response: %s"
                    [fmt.s_ (Key variable); fmt.d_ (http.StatusCode resp);
                     fmt.s_ bodyBytes]))
                else ret None
            end
        end
    end.

Definition CreateVariable (c : GitLabClient) (projectPath : string)
    (variable : EnvVar) (dryRun : bool) : M E (option error) :=
  emit (Call_CreateVariable projectPath variable dryRun) ;;
  err <- CreateVariable_body c projectPath variable dryRun ;;
  emit (Ret_CreateVariable err) ;;
  ret err.

(** The anonymous struct [output] of [writeDryRunOutput], with the JSON
    names [timestamp], [source_project], [target_project], [variables]. *)
Record DryRunOutput : Type := mkDryRunOutput {
  Timestamp : string;
  SourceProject : string;
  TargetProject : string;
  Variables : slice EnvVar
}.

#[global] Instance DryRunOutput_Encoder : json.Encoder DryRunOutput := fun o =>
  "{" ++ json.field_name "timestamp" ++ json.encode (Timestamp o)
  ++ "," ++ json.field_name "source_project" ++ json.encode (SourceProject o)
  ++ "," ++ json.field_name "target_project" ++ json.encode (TargetProject o)
  ++ "," ++ json.field_name "variables" ++ json.encode (Variables o)
  ++ "}".

Definition writeDryRunOutput_body (filename sourceProject targetProject : string)
    (variables : slice EnvVar) : M E (option error) :=
  now <- time_Now_Format_RFC3339 E ;;
  let output := mkDryRunOutput now sourceProject targetProject variables in
  match json.MarshalIndent output "" "  " with
  | Err err => ret (Some err)
  | Ok data => os_WriteFile E filename data 420     (* 0644 *)
  end.

Definition writeDryRunOutput (filename sourceProject targetProject : string)
    (variables : slice EnvVar) : M E (option error) :=
  emit (Call_writeDryRunOutput filename sourceProject targetProject variables) ;;
  err <- writeDryRunOutput_body filename sourceProject targetProject variables ;;
  emit (Ret_writeDryRunOutput err) ;;
  ret err.

(** The values of the six flags that [main] defines: [gitlab-url],
    [token], [source], [target], [dry-run] and [output]. *)
Record Flags : Type := mkFlags {
  gitlabURL : string;
  token_flag : string;
  sourceProject : string;
  targetProject : string;
  dryRun : bool;
  outputFile : string
}.

Definition is_empty (s : string) : bool := String.eqb s "".

(** *** The command line

    [flag.String] and [flag.Bool] file the six flags, with their default
    values, in [flag.CommandLine]; [flag.Parse()] then reads
    [os.Args[1:]]. *)

(** The default values (lines 138-143). *)
Definition defaults : Flags := mkFlags "" "" "" "" false "env-sync-dry-run.json".

Inductive FlagName : Type :=
| flag_gitlab_url | flag_token | flag_source | flag_target | flag_dry_run
| flag_output.

(** [f.formal[name]] *)
Definition formal (name : string) : option FlagName :=
  if String.eqb name "gitlab-url" then Some flag_gitlab_url
  else if String.eqb name "token" then Some flag_token
  else if String.eqb name "source" then Some flag_source
  else if String.eqb name "target" then Some flag_target
  else if String.eqb name "dry-run" then Some flag_dry_run
  else if String.eqb name "output" then Some flag_output
  else None.

(** [IsBoolFlag]: only [dry-run] takes no argument. *)
Definition IsBoolFlag (n : FlagName) : bool :=
  match n with
  | flag_dry_run => true
  | _ => false
  end.

(** [strconv.ParseBool] *)
Definition ParseBool (s : string) : option bool :=
  if existsb (String.eqb s) ["1"; "t"; "T"; "TRUE"; "true"; "True"] then Some true
  else if existsb (String.eqb s) ["0"; "f"; "F"; "FALSE"; "false"; "False"]
  then Some false
  else None.

(** [stringValue.Set] on the variable of flag [n]. *)
Definition Set_string (n : FlagName) (value : string) (f : Flags) : Flags :=
  match n with
  | flag_gitlab_url =>
      mkFlags value (token_flag f) (sourceProject f) (targetProject f) (dryRun f)
        (outputFile f)
  | flag_token =>
      mkFlags (gitlabURL f) value (sourceProject f) (targetProject f) (dryRun f)
        (outputFile f)
  | flag_source =>
      mkFlags (gitlabURL f) (token_flag f) value (targetProject f) (dryRun f)
        (outputFile f)
  | flag_target =>
      mkFlags (gitlabURL f) (token_flag f) (sourceProject f) value (dryRun f)
        (outputFile f)
  | flag_output =>
      mkFlags (gitlabURL f) (token_flag f) (sourceProject f) (targetProject f)
        (dryRun f) value
  | flag_dry_run => f
  end.

(** [boolValue.Set], after [strconv.ParseBool]. *)
Definition Set_bool (n : FlagName) (value : bool) (f : Flags) : Flags :=
  match n with
  | flag_dry_run =>
      mkFlags (gitlabURL f) (token_flag f) (sourceProject f) (targetProject f) value
        (outputFile f)
  | _ => f
  end.

(** The name and the value of [name=value], cut at the first equals
    sign. *)
Fixpoint cut_equals (s : string) : string * option string :=
  match s with
  | EmptyString => (EmptyString, None)
  | String c s' =>
      if Bytes.eqb c "=" then (EmptyString, Some s')
      else let '(n, v) := cut_equals s' in (String c n, v)
  end.

(** The loop [for i := 1; i < len(name); i++] of [parseOne]: an equals
    sign cannot be first. *)
Definition split_name (name : string) : string * option string :=
  match name with
  | EmptyString => (EmptyString, None)
  | String c rest => let '(n, v) := cut_equals rest in (String c n, v)
  end.

(** How [FlagSet.Parse] ends: all flags are read, help was asked for
    ([ErrHelp]), or an argument is in error. *)
Inductive parsed : Type :=
| Parsed (f : Flags)
| Help
| Failed (e : flag_error).

(** [FlagSet.Parse]: [parseOne] on the arguments that are left, until
    it sees no flag or fails.  An argument that is shorter than two bytes
    or does not start with a minus sign ends the flags, and so does [--];
    what follows is not read. *)
Fixpoint flag_parse (args : list string) (f : Flags) : parsed :=
  match args with
  | [] => Parsed f
  | s :: rest =>
      match s with
      | String "-" (String c1 s2 as s1) =>
          if Bytes.eqb c1 "-" && is_empty s2 then Parsed f
          else
            let name := if Bytes.eqb c1 "-" then s2 else s1 in
            match name with
            | EmptyString => Failed (bad_flag_syntax s)
            | String n0 _ =>
                if Bytes.eqb n0 "-" || Bytes.eqb n0 "=" then Failed (bad_flag_syntax s)
                else
                  let '(name, value) := split_name name in
                  match formal name with
                  | None =>
                      if String.eqb name "help" || String.eqb name "h" then Help
                      else Failed (flag_not_defined name)
                  | Some n =>
                      if IsBoolFlag n then
                        match value with
                        | Some v =>
                            match ParseBool v with
                            | Some b => flag_parse rest (Set_bool n b f)
                            | None => Failed (invalid_boolean_value v name)
                            end
                        | None => flag_parse rest (Set_bool n true f)
                        end
                      else
                        match value with
                        | Some v => flag_parse rest (Set_string n v f)
                        | None =>
                            match rest with
                            | v :: rest' => flag_parse rest' (Set_string n v f)
                            | [] => Failed (flag_needs_argument name)
                            end
                        end
                  end
            end
      | _ => Parsed f
      end
  end.

(** [flag.Parse()] on [flag.CommandLine], whose error handling is
    [ExitOnError]: when help was asked for, the usage is printed and the
    process exits with status 0 (Go 1.15 and later); on an error, the
    message and the usage are printed and the process exits with
    status 2. *)
Definition flag_Parse (args : list string) : M E Flags :=
  match flag_parse args defaults with
  | Parsed f => ret f
  | Help => flag_Usage ;; os_Exit 0
  | Failed e => emit (Complained e) ;; flag_Usage ;; os_Exit 2
  end.


(** The loop [for _, v := range sourceVars] of [main]: the final value
    of [successCount]. *)
Fixpoint transfer (client : GitLabClient) (targetProject : string)
    (sourceVars : list EnvVar) (successCount : Z) : M E Z :=
  match sourceVars with
  | [] => ret successCount
  | v :: rest =>
      log_Printf "Transferring variable: %s" [log_s (Key v)] ;;
      err <- CreateVariable client targetProject v false ;;
      match err with
      | Some err =>
          log_Printf "Error transferring variable %s: %v" [log_s (Key v); log_v err] ;;
          transfer client targetProject rest successCount
      | None => transfer client targetProject rest (int.incr successCount)
      end
  end.

Definition newline : string := String "010" "".
Definition backslash : string := String json.backslash "".

(** [main] from line 148 on, the flags holding the values [f]. *)
Definition main_after_Parse (f : Flags) : M E unit :=
  (if is_empty (gitlabURL f) || is_empty (token_flag f)
      || is_empty (sourceProject f) || is_empty (targetProject f)
   then
     flag_Usage ;;
     fmt_Println (newline ++ "Example usage:") ;;
     fmt_Println ("  ./gitlab-env-sync " ++ backslash) ;;
     fmt_Println ("    --gitlab-url https://gitlab.com " ++ backslash) ;;
     fmt_Println ("    --token your-token " ++ backslash) ;;
     fmt_Println ("    --source group/project-a " ++ backslash) ;;
     fmt_Println "    --target group/project-b" ;;
     os_Exit 1
   else ret tt) ;;
  let gitlabURL := strings.TrimRight (gitlabURL f) "/" in
  let client := NewGitLabClient gitlabURL (token_flag f) in
  log_Printf "Fetching variables from source project: %s"
    [log_s (sourceProject f)] ;;
  r <- GetVariables client (sourceProject f) ;;
  let '(sourceVars, err) := r in
  match err with
  | Some err =>
      log_Fatalf "Error getting variables from source project: %v" [log_v err]
  | None => ret tt
  end ;;
  if dryRun f then
    log_Printf "Performing dry run, writing output to %s" [log_s (outputFile f)] ;;
    err <- writeDryRunOutput (outputFile f) (sourceProject f) (targetProject f)
             sourceVars ;;
    match err with
    | Some err => log_Fatalf "Error writing dry run output: %v" [log_v err]
    | None => ret tt
    end ;;
    log_Printf "Dry run completed. Found %d variables to transfer"
      [log_d (len sourceVars)]
  else
    log_Printf "Starting transfer of %d variables from %s to %s"
      [log_d (len sourceVars); log_s (sourceProject f); log_s (targetProject f)] ;;
    successCount <- transfer client (targetProject f) (elems sourceVars) 0 ;;
    log_Printf "Transfer completed. Successfully transferred %d/%d variables"
      [log_d successCount; log_d (len sourceVars)].

(** [main], started with the arguments [os.Args[1:]]. *)
Definition main (args : list string) : M E unit :=
  f <- flag_Parse args ;;
  main_after_Parse f.

(** A run of the program from the world [w], once [flag.Parse()] has
    returned with the flags holding [f]: the exit status of the process
    and the final state.  Returning from [main] is status 0. *)
Definition run (f : Flags) (w : World E) : Z * State E :=
  match main_after_Parse f (mkState E w []) with
  | (Returned _, st) => (0, st)
  | (Exited code, st) => (code, st)
  end.

(** The process started in the world [w] with the command line [args]:
    its exit status and the final state. *)
Definition exec (args : list string) (w : World E) : Z * State E :=
  match main args (mkState E w []) with
  | (Returned _, st) => (0, st)
  | (Exited code, st) => (code, st)
  end.

End Program.

(** ** Concrete environments and inputs, for evaluating the model *)

Module Examples.

(** A scripted network: the answers to successive requests are taken
    from a list; when the list is exhausted the connection fails.  Every
    URL is accepted, every file write succeeds and the clock is fixed. *)
Definition scripted : Env :=
  mkEnv (list (result http.Response))
    (fun _ _ => None)
    (fun _ w =>
       match w with
       | a :: w' => (a, w')
       | [] => (Err (url_Error "connection refused"), [])
       end)
    (fun _ _ _ w => (None, w))
    (fun w => ("2024-05-01T12:00:00Z", w)).

Definition q : string := String json.dquote "".

Definition var_a : EnvVar := mkEnvVar "env_var" "DB_HOST" "db.internal" false false "*".
Definition var_b : EnvVar := mkEnvVar "file" "CERT" "a<b>&c" true true "production".

(** The listing body holding [var_a] and [var_b]. *)
Definition listing : string := json.encode (mk_slice [var_a; var_b]).

Definition flags_live : Flags :=
  mkFlags "https://gitlab.example.com/" "secret" "group/app" "group/copy"
    false "env-sync-dry-run.json".

Definition flags_dry : Flags :=
  mkFlags "https://gitlab.example.com/" "secret" "group/app" "group/copy"
    true "env-sync-dry-run.json".

Definition ok (code : Z) (body : string) : result http.Response :=
  Ok (http.mkResponse code body).

(** A record whose value is the single byte 0xFF, which is not valid
    UTF-8. *)
Definition var_invalid : EnvVar :=
  mkEnvVar "env_var" "BLOB" (String "255" "") false false "*".

(** A body that starts with a JSON array and goes on with other bytes. *)
Definition trailing_body : string := "[]x".

Definition client : GitLabClient :=
  NewGitLabClient "https://gitlab.example.com" "secret".

End Examples.

(** ** Observations on the history of a run *)

Module Obs.

(** The calls of [CreateVariable], with their arguments. *)
Definition creation_calls (tr : list Event) : list (string * EnvVar * bool) :=
  flat_map (fun ev =>
    match ev with
    | Call_CreateVariable p v d => [(p, v, d)]
    | _ => []
    end) tr.

(** What the calls of [CreateVariable] returned. *)
Definition creation_results (tr : list Event) : list (option error) :=
  flat_map (fun ev =>
    match ev with
    | Ret_CreateVariable err => [err]
    | _ => []
    end) tr.

(** What the calls of [GetVariables] returned. *)
Definition listing_results (tr : list Event) : list (slice EnvVar * option error) :=
  flat_map (fun ev =>
    match ev with
    | Ret_GetVariables vs err => [(vs, err)]
    | _ => []
    end) tr.

(** The requests sent over the network. *)
Definition requests (tr : list Event) : list http.Request :=
  flat_map (fun ev =>
    match ev with
    | Sent req _ => [req]
    | _ => []
    end) tr.

(** The bodies of the POST requests. *)
Definition posted (tr : list Event) : list (option string) :=
  flat_map (fun req =>
    if String.eqb (http.Method req) "POST" then [http.ReqBody req] else [])
    (requests tr).

(** The attempts to write a file: name and content. *)
Definition files_written (tr : list Event) : list (string * string) :=
  flat_map (fun ev =>
    match ev with
    | Wrote name data _ _ => [(name, data)]
    | _ => []
    end) tr.

Definition succeeded (err : option error) : bool :=
  match err with
  | None => true
  | Some _ => false
  end.

Definition failed (err : option error) : bool := negb (succeeded err).

(** The number of results that are [nil]. *)
Definition count_success (errs : list (option error)) : nat :=
  List.length (filter succeeded errs).

(** The per-variable failure messages: key and error. *)
Definition failure_logs (tr : list Event) : list (string * error) :=
  flat_map (fun ev =>
    match ev with
    | Logged format [log_s key; log_v err] =>
        if String.eqb format "Error transferring variable %s: %v"
        then [(key, err)] else []
    | _ => []
    end) tr.

(** The final summaries: the two numbers of
    [Successfully transferred %d/%d variables]. *)
Definition summaries (tr : list Event) : list (Z * Z) :=
  flat_map (fun ev =>
    match ev with
    | Logged format [log_d x; log_d y] =>
        if String.eqb format
             "Transfer completed. Successfully transferred %d/%d variables"
        then [(x, y)] else []
    | _ => []
    end) tr.

(** The keys and errors of the variables whose creation failed. *)
Fixpoint failures (vars : list EnvVar) (errs : list (option error))
  : list (string * error) :=
  match vars, errs with
  | v :: vars', Some e :: errs' => (Key v, e) :: failures vars' errs'
  | _ :: vars', None :: errs' => failures vars' errs'
  | _, _ => []
  end.

(** What [main] prints when a required flag is missing. *)
Definition usage_and_example : list Event :=
  [Usage;
   Printed (newline ++ "Example usage:");
   Printed ("  ./gitlab-env-sync " ++ backslash);
   Printed ("    --gitlab-url https://gitlab.com " ++ backslash);
   Printed ("    --token your-token " ++ backslash);
   Printed ("    --source group/project-a " ++ backslash);
   Printed "    --target group/project-b"].

Definition missing_flag (f : Flags) : bool :=
  is_empty (gitlabURL f) || is_empty (token_flag f)
  || is_empty (sourceProject f) || is_empty (targetProject f).

End Obs.

(** ** The shape of a run

    Big-step descriptions of the histories that the operations and
    [main] produce. *)

Module Shape.

Section Shapes.

Context {E : Env}.

(** The URL of the variables collection of project [p]. *)
Definition endpoint (c : GitLabClient) (p : string) : string :=
  fmt.Sprintf "%s/api/v4/%s"
    [fmt.s_ (baseURL c);
     fmt.s_ (fmt.Sprintf "projects/%s/variables" [fmt.s_ (url.PathEscape p)])].

(** One call of [GetVariables c p] returning [r]. *)
Inductive listing (c : GitLabClient) (p : string)
  : slice EnvVar * option error -> list Event -> Prop :=
| listing_unsent e :
    NewRequest_check E "GET" (endpoint c p) = Some e ->
    listing c p (nil_slice, Some e)
      [Call_GetVariables p; Ret_GetVariables nil_slice (Some e)]
| listing_sent req answer r :
    NewRequest_check E "GET" (endpoint c p) = None ->
    http.Method req = "GET" ->
    http.URL req = endpoint c p ->
    (snd r <> None -> fst r = nil_slice) ->
    (snd r = None ->
     exists resp, answer = Ok resp /\ http.StatusCode resp = http.StatusOK
       /\ json.Decode (http.Body resp) nil_slice = (fst r, None)) ->
    listing c p r
      [Call_GetVariables p; Sent req answer; Ret_GetVariables (fst r) (snd r)].

(** One call of [CreateVariable c p v false] returning [err]. *)
Inductive creation (c : GitLabClient) (p : string) (v : EnvVar)
  : option error -> list Event -> Prop :=
| creation_unsent e :
    NewRequest_check E "POST" (endpoint c p) = Some e ->
    creation c p v (Some e)
      [Call_CreateVariable p v false; Ret_CreateVariable (Some e)]
| creation_sent req answer err :
    NewRequest_check E "POST" (endpoint c p) = None ->
    http.Method req = "POST" ->
    http.URL req = endpoint c p ->
    http.ReqBody req = Some (json.encode v) ->
    creation c p v err
      [Call_CreateVariable p v false; Sent req answer; Ret_CreateVariable err].

(** The loop of [main] over [vars], the calls returning [errs]. *)
Inductive transferred (c : GitLabClient) (p : string)
  : list EnvVar -> list (option error) -> list Event -> Prop :=
| transferred_nil : transferred c p [] [] []
| transferred_ok v vars errs evs_v evs :
    creation c p v None evs_v ->
    transferred c p vars errs evs ->
    transferred c p (v :: vars) (None :: errs)
      (Logged "Transferring variable: %s" [log_s (Key v)] :: evs_v ++ evs)
| transferred_failed v e vars errs evs_v evs :
    creation c p v (Some e) evs_v ->
    transferred c p vars errs evs ->
    transferred c p (v :: vars) (Some e :: errs)
      (Logged "Transferring variable: %s" [log_s (Key v)] :: evs_v
       ++ Logged "Error transferring variable %s: %v" [log_s (Key v); log_v e]
       :: evs).

(** The client that [main] builds from the flags. *)
Definition client_of (f : Flags) : GitLabClient :=
  NewGitLabClient (strings.TrimRight (gitlabURL f) "/") (token_flag f).

Definition fetching (f : Flags) : Event :=
  Logged "Fetching variables from source project: %s" [log_s (sourceProject f)].

(** The exit status and the history of a run of [main] with flags [f]. *)
Inductive ran (f : Flags) : Z -> list Event -> Prop :=
| ran_usage :
    Obs.missing_flag f = true ->
    ran f 1 Obs.usage_and_example
| ran_listing_failed vars e evs :
    Obs.missing_flag f = false ->
    listing (client_of f) (sourceProject f) (vars, Some e) evs ->
    ran f 1
      (fetching f :: evs
       ++ [Logged "Error getting variables from source project: %v" [log_v e]])
| ran_dry vars evs now data werr :
    Obs.missing_flag f = false ->
    dryRun f = true ->
    listing (client_of f) (sourceProject f) (vars, None) evs ->
    json.MarshalIndent
      (mkDryRunOutput now (sourceProject f) (targetProject f) vars) "" "  "
    = Ok data ->
    ran f (match werr with None => 0 | Some _ => 1 end)
      (fetching f :: evs
       ++ [Logged "Performing dry run, writing output to %s" [log_s (outputFile f)];
           Call_writeDryRunOutput (outputFile f) (sourceProject f)
             (targetProject f) vars;
           Wrote (outputFile f) data 420 werr;
           Ret_writeDryRunOutput werr;
           match werr with
           | None =>
               Logged "Dry run completed. Found %d variables to transfer"
                 [log_d (len vars)]
           | Some e => Logged "Error writing dry run output: %v" [log_v e]
           end])
| ran_live vars evs errs evs_t :
    Obs.missing_flag f = false ->
    dryRun f = false ->
    listing (client_of f) (sourceProject f) (vars, None) evs ->
    transferred (client_of f) (targetProject f) (elems vars) errs evs_t ->
    ran f 0
      (fetching f :: evs
       ++ Logged "Starting transfer of %d variables from %s to %s"
            [log_d (len vars); log_s (sourceProject f); log_s (targetProject f)]
       :: evs_t
       ++ [Logged "Transfer completed. Successfully transferred %d/%d variables"
             [log_d (Nat.iter (Obs.count_success errs) int.incr 0);
              log_d (len vars)]]).

End Shapes.

End Shape.

(** ** The listing operation as the specification words it

    Section 4.1 of the specification names four failures of "List
    variables": NotFound on HTTP 404 (the message identifies the project
    path), RequestFailed on any other non-200 status (the message
    includes the status code and the raw response body), TransportError
    on a network failure and DecodeError when the body cannot be decoded.
    [classify] follows these words; the theorems compare it with
    [GetVariables]. *)

Module Spec.

Inductive ListingOutcome : Type :=
| Listed (variables : slice EnvVar)
| NotFound (message : string)
| RequestFailed (message : string)
| TransportError (e : error)
| DecodeError (e : error).

Definition classify (projectPath : string) (answer : result http.Response)
  : ListingOutcome :=
  match answer with
  | Err e => TransportError e
  | Ok resp =>
      if http.StatusCode resp =? 404 then
        NotFound ("project not found: " ++ projectPath)
      else if negb (http.StatusCode resp =? 200) then
        RequestFailed
          ("failed to get variables: status code "
           ++ NilZero.string_of_int (Z.to_int (http.StatusCode resp))
           ++ ", response: " ++ http.Body resp)
      else
        match json.Decode (http.Body resp) nil_slice with
        | (variables, None) => Listed variables
        | (_, Some e) => DecodeError e
        end
  end.

(** The pair that the Go function returns for an outcome. *)
Definition returned (o : ListingOutcome) : slice EnvVar * option error :=
  match o with
  | Listed variables => (variables, None)
  | NotFound message | RequestFailed message => (nil_slice, Some (errorString message))
  | TransportError e | DecodeError e => (nil_slice, Some e)
  end.

(** The shape that [Decode] accepts for a [[]EnvVar]: [null], or an array
    whose elements are [null] or objects in which every member that
    selects a field holds [null] or a value of the field's type. *)
Definition is_string_field (f : json.field) : bool :=
  match f with
  | json.fProtected | json.fMasked => false
  | _ => true
  end.

Definition fits_field (f : json.field) (v : json.value) : bool :=
  match v with
  | json.Null => true
  | json.Str _ => is_string_field f
  | json.Bool _ => negb (is_string_field f)
  | _ => false
  end.

Definition fits_member (m : string * json.value) : bool :=
  match json.find_field (fst m) with
  | Some f => fits_field f (snd m)
  | None => true
  end.

Definition fits_EnvVar (v : json.value) : bool :=
  match v with
  | json.Null => true
  | json.Object ms => forallb fits_member ms
  | _ => false
  end.

Definition fits_slice (v : json.value) : bool :=
  match v with
  | json.Null => true
  | json.Array l => forallb fits_EnvVar l
  | _ => false
  end.

End Spec.

(** ** Exhaustive byte-level checks

    Boolean predicates over one byte; each is evaluated on all 256 byte
    values in the proofs below. *)

Module Checks.


(** Scanning a chunk of a string literal: the state reached, or [None]
    when the chunk holds an error or the closing quote. *)
Fixpoint scan_chunk (st : json.string_state) (chunk : string) : option json.string_state :=
  match chunk with
  | "" => Some st
  | String c chunk' =>
      match st with
      | json.InString =>
          if Bytes.eqb c json.dquote then None
          else if Bytes.eqb c json.backslash then scan_chunk json.InStringEsc chunk'
          else if Bytes.val c <? 32 then None
          else scan_chunk json.InString chunk'
      | json.InStringEsc =>
          if Bytes.mem c (String json.dquote (String json.backslash "/bfnrt"))
          then scan_chunk json.InString chunk'
          else if Bytes.eqb c "u" then scan_chunk (json.InStringEscU 4) chunk'
          else None
      | json.InStringEscU n =>
          if json.ishex c then
            match n with
            | S (S n') => scan_chunk (json.InStringEscU (S n')) chunk'
            | _ => scan_chunk json.InString chunk'
            end
          else None
      end
  end.

Definition escape_scans (c : ascii) : bool :=
  if Bytes.val c <? utf8.RuneSelf then
    if json.htmlSafeSet c then
      match scan_chunk json.InString (String c "") with
      | Some json.InString => true
      | _ => false
      end
    else
      match scan_chunk json.InString (json.escape_ascii c) with
      | Some json.InString => true
      | _ => false
      end
  else
    match scan_chunk json.InString (String c "") with
    | Some json.InString => true
    | _ => false
    end.

Definition safe_is_plain (c : ascii) : bool :=
  if json.htmlSafeSet c then
    negb (Bytes.eqb c json.backslash)
    && negb (Bytes.eqb c json.dquote || (Bytes.val c <? 32))
    && (Bytes.val c <? utf8.RuneSelf)
  else true.

(** The value of a hex digit is below 16, and the bytes that may follow
    a backslash in an escape of two bytes are ASCII. *)
Definition hexval_ok (c : ascii) : bool :=
  (if json.ishex c then (0 <=? json.hexval c) && (json.hexval c <? 16) else true)
  && (if Bytes.mem c (String json.dquote (String json.backslash "/'"))
      then Bytes.val c <? 128 else true).


End Checks.

(** ** Views used in the proofs *)

Module View.

(** A continuation byte. *)
Definition cont (c : ascii) : Prop := 0x80 <= Bytes.val c <= 0xBF.

Definition r2 (c0 c1 : ascii) : Z := (Bytes.val c0 mod 32) * 64 + Bytes.val c1 mod 64.
Definition r3 (c0 c1 c2 : ascii) : Z :=
  (Bytes.val c0 mod 16) * 4096 + (Bytes.val c1 mod 64) * 64 + Bytes.val c2 mod 64.
Definition r4 (c0 c1 c2 c3 : ascii) : Z :=
  (Bytes.val c0 mod 8) * 262144 + (Bytes.val c1 mod 64) * 4096
  + (Bytes.val c2 mod 64) * 64 + Bytes.val c3 mod 64.

Inductive decoded : string -> Z -> Z -> Prop :=
| dec_empty : decoded "" utf8.RuneError 0
| dec_invalid c0 t : 0x80 <= Bytes.val c0 -> decoded (String c0 t) utf8.RuneError 1
| dec_ascii c0 t : Bytes.val c0 < 0x80 -> decoded (String c0 t) (Bytes.val c0) 1
| dec_two c0 c1 t :
    0xC2 <= Bytes.val c0 <= 0xDF -> cont c1 ->
    decoded (String c0 (String c1 t)) (r2 c0 c1) 2
| dec_three c0 c1 c2 t :
    0xE0 <= Bytes.val c0 <= 0xEF -> cont c1 -> cont c2 ->
    0x800 <= r3 c0 c1 c2 -> ~ (0xD800 <= r3 c0 c1 c2 <= 0xDFFF) ->
    decoded (String c0 (String c1 (String c2 t))) (r3 c0 c1 c2) 3
| dec_four c0 c1 c2 c3 t :
    0xF0 <= Bytes.val c0 <= 0xF4 -> cont c1 -> cont c2 -> cont c3 ->
    0x10000 <= r4 c0 c1 c2 c3 <= 0x10FFFF ->
    decoded (String c0 (String c1 (String c2 (String c3 t)))) (r4 c0 c1 c2 c3) 4.

(** A name made of bytes that are written as they are. *)
Definition plain (key : string) : Prop :=
  json.appendString_from (String.length key) key = key
  /\ utf8.ValidString key = true.

(** The tree that the encoding of [v] denotes, given the strings read
    back for its four string fields. *)
Definition tree (t k x e : string) (v : EnvVar) : json.value :=
  json.Object
    [("variable_type", json.Str t); ("key", json.Str k); ("value", json.Str x);
     ("protected", json.Bool (Protected v)); ("masked", json.Bool (Masked v));
     ("environment_scope", json.Str e)].

(** Every string of a tree is valid UTF-8. *)
Fixpoint valid_value (v : json.value) : bool :=
  match v with
  | json.Str s => utf8.ValidString s
  | json.Array l => forallb valid_value l
  | json.Object ms => forallb (fun m => valid_value (snd m)) ms
  | _ => true
  end.

(** The four string fields of a record are valid UTF-8. *)
Definition valid_EnvVar (x : EnvVar) : bool :=
  utf8.ValidString (VariableType x) && utf8.ValidString (Key x)
  && utf8.ValidString (Value x) && utf8.ValidString (EnvironmentScope x).

(** *** The layout of the dry-run report *)

(** A line break followed by the indentation of [depth] levels. *)
Definition nl (depth : nat) : string := json.appendNewline "" "  " depth.

(** One record, its braces at [depth] levels of indentation. *)
Definition pretty_EnvVar (depth : nat) (v : EnvVar) : string :=
  "{" ++ nl (S depth) ++ json.field_name "variable_type" ++ " "
      ++ json.encode (VariableType v)
  ++ "," ++ nl (S depth) ++ json.field_name "key" ++ " " ++ json.encode (Key v)
  ++ "," ++ nl (S depth) ++ json.field_name "value" ++ " " ++ json.encode (Value v)
  ++ "," ++ nl (S depth) ++ json.field_name "protected" ++ " "
      ++ json.encode (Protected v)
  ++ "," ++ nl (S depth) ++ json.field_name "masked" ++ " " ++ json.encode (Masked v)
  ++ "," ++ nl (S depth) ++ json.field_name "environment_scope" ++ " "
      ++ json.encode (EnvironmentScope v)
  ++ nl depth ++ "}".

Fixpoint pretty_elems (depth : nat) (l : list EnvVar) : string :=
  match l with
  | [] => ""
  | [x] => pretty_EnvVar depth x
  | x :: l' => pretty_EnvVar depth x ++ "," ++ nl depth ++ pretty_elems depth l'
  end.

Definition pretty_slice (depth : nat) (s : slice EnvVar) : string :=
  match s with
  | nil_slice => "null"
  | mk_slice [] => "[]"
  | mk_slice l => "[" ++ nl (S depth) ++ pretty_elems (S depth) l ++ nl depth ++ "]"
  end.

Definition pretty_report (o : DryRunOutput) : string :=
  "{" ++ nl 1 ++ json.field_name "timestamp" ++ " " ++ json.encode (Timestamp o)
  ++ "," ++ nl 1 ++ json.field_name "source_project" ++ " "
      ++ json.encode (SourceProject o)
  ++ "," ++ nl 1 ++ json.field_name "target_project" ++ " "
      ++ json.encode (TargetProject o)
  ++ "," ++ nl 1 ++ json.field_name "variables" ++ " "
      ++ pretty_slice 1 (Variables o)
  ++ nl 0 ++ "}".

(** Reading a report back: the document must be one JSON object; its
    member [variables] is stored into a [[]EnvVar]. *)
Definition report_variables (data : string) : option (slice EnvVar) :=
  match json.parse_value (json.fuel_for data) 0 data with
  | json.Done (json.Object ms) rest =>
      if json.all_space rest then
        match find (fun m => String.eqb (fst m) "variables") ms with
        | Some (_, v) =>
            match json.store_slice v nil_slice None with
            | (vs, None) => Some vs
            | (_, Some _) => None
            end
        | None => None
        end
      else None
  | _ => None
  end.

(** The tree of a record and of a slice of records. *)
Definition tree_of (v : EnvVar) : json.value :=
  tree (VariableType v) (Key v) (Value v) (EnvironmentScope v) v.

Definition tree_of_slice (s : slice EnvVar) : json.value :=
  match s with
  | nil_slice => json.Null
  | mk_slice l => json.Array (map tree_of l)
  end.

(** The escape state of [Indent] that goes with a scanner state. *)
Definition esc_of (st : json.string_state) : bool :=
  match st with
  | json.InStringEsc => true
  | _ => false
  end.

(** [Indent] outside string literals, with prefix [EmptyString] and an
    indent of two spaces, as [writeDryRunOutput] calls it. *)
Definition J (need : bool) (d : nat) (src : string) : string :=
  json.Indent_from "" "  " src false false need d.

End View.

(** ** Further observations

    What the operations add to the history of a run, request by request
    and line by line. *)

Module Hoare.
Section WithEnv.
Context {E : Env}.

(** [m] leaves the history it finds in place and adds only events that
    satisfy [P]. *)
Definition appends {A : Type} (P : Event -> Prop) (m : M E A) : Prop :=
  forall st, exists evs, trace (snd (m st)) = (trace st ++ evs)%list /\ Forall P evs.

(** [m] returns to its caller: it never ends the process. *)
Definition returns {A : Type} (m : M E A) : Prop :=
  forall st, exists a, fst (m st) = Returned a.

End WithEnv.
End Hoare.

Module Audit.

(** Every byte of [t] is in [cutset]. *)
Fixpoint all_in (cutset t : string) : bool :=
  match t with
  | EmptyString => true
  | String c t' => Bytes.mem c cutset && all_in cutset t'
  end.

(** Letters, digits and the marks that [url.PathEscape] leaves as they
    are in every mode. *)
Definition unreserved : string :=
  "ABCDEFGHIJKLMNOPQRSTUVWXYZabcdefghijklmnopqrstuvwxyz0123456789-_.~".

(** The bytes that can occur in an escaped path segment: the unreserved
    ones, the reserved ones that a segment may hold, and the percent sign
    of an escape. *)
Definition segment_bytes : string := unreserved ++ "$&+=:@%".

(** The last byte of [s], if [s] is not empty. *)
Fixpoint last_byte (s : string) : option ascii :=
  match s with
  | EmptyString => None
  | String c EmptyString => Some c
  | String _ s' => last_byte s'
  end.

Section WithEnv.
Context {E : Env}.

(** [req] is the request that [http.NewRequest] returned when it was
    handed [method], the URL string [u] and [body], with the two headers
    that [makeRequest] sets for a client with the token [tok]. *)
Definition handed (method u : string) (body : option string) (tok : string)
    (req : http.Request) : Prop :=
  exists r,
    http_NewRequest E method u body = Ok r
    /\ req = http.Header_Set "Content-Type" "application/json"
               (http.Header_Set "PRIVATE-TOKEN" tok r).

(** [req] is the request that [GetVariables] builds for [src], or one
    that [CreateVariable] builds for [tgt]. *)
Definition request_for (c : GitLabClient) (src tgt : string) (req : http.Request)
  : Prop :=
  makeRequest c "GET"
    (fmt.Sprintf "projects/%s/variables" [fmt.s_ (url.PathEscape src)]) None = Ok req
  \/ exists v : EnvVar,
       makeRequest c "POST"
         (fmt.Sprintf "projects/%s/variables" [fmt.s_ (url.PathEscape tgt)])
         (Some (json.encode v)) = Ok req.

(** The events of a run with flags [f]: requests are built for the
    client of [f], files are written to the output path with mode 0644,
    and the operations are called on the projects of [f]. *)
Definition expected (c : GitLabClient) (src tgt out : string) (ev : Event) : Prop :=
  match ev with
  | Sent req _ => request_for c src tgt req
  | Wrote name _ perm _ => name = out /\ perm = 420
  | Call_GetVariables p => p = src
  | Call_CreateVariable p _ d => p = tgt /\ d = false
  | Call_writeDryRunOutput name s t _ => name = out /\ s = src /\ t = tgt
  | _ => True
  end.

End WithEnv.

(** Events that are no output of the program: neither a file write
    nor a line of the log or of the standard output. *)
Definition silent (ev : Event) : Prop :=
  match ev with
  | Wrote _ _ _ _ | Logged _ _ | Printed _ | Usage => False
  | _ => True
  end.

(** Events that are neither a request nor a line of the log or of the
    standard output. *)
Definition offline (ev : Event) : Prop :=
  match ev with
  | Sent _ _ | Logged _ _ | Printed _ | Usage => False
  | _ => True
  end.

(** The requests with their answers. *)
Definition exchanges (tr : list Event) : list (http.Request * result http.Response) :=
  flat_map (fun ev =>
    match ev with
    | Sent req answer => [(req, answer)]
    | _ => []
    end) tr.

(** The attempts to write a file: name, mode and result. *)
Definition write_attempts (tr : list Event) : list (string * Z * option error) :=
  flat_map (fun ev =>
    match ev with
    | Wrote name _ perm err => [(name, perm, err)]
    | _ => []
    end) tr.

(** The calls of [log.Printf] and [log.Fatalf]. *)
Definition log_lines (tr : list Event) : list (string * list log_operand) :=
  flat_map (fun ev =>
    match ev with
    | Logged format args => [(format, args)]
    | _ => []
    end) tr.

(** The string operands of the log calls. *)
Definition log_strings (tr : list Event) : list string :=
  flat_map (fun line =>
    flat_map (fun a =>
      match a with
      | log_s s => [s]
      | _ => []
      end) (snd line)) (log_lines tr).

(** The errors passed to the log calls. *)
Definition log_errors (tr : list Event) : list error :=
  flat_map (fun line =>
    flat_map (fun a =>
      match a with
      | log_v e => [e]
      | _ => []
      end) (snd line)) (log_lines tr).

(** The lines that the loop of [main] logs for [vars] when the calls of
    [CreateVariable] return [errs]. *)
Fixpoint transfer_lines (vars : list EnvVar) (errs : list (option error))
  : list (string * list log_operand) :=
  match vars, errs with
  | v :: vars', None :: errs' =>
      ("Transferring variable: %s", [log_s (Key v)]) :: transfer_lines vars' errs'
  | v :: vars', Some e :: errs' =>
      ("Transferring variable: %s", [log_s (Key v)])
      :: ("Error transferring variable %s: %v", [log_s (Key v); log_v e])
      :: transfer_lines vars' errs'
  | _, _ => []
  end.

(** Reading a written report back: the string held by the member
    [name] of the document. *)
Definition report_string (name data : string) : option string :=
  match json.parse_value (json.fuel_for data) 0 data with
  | json.Done (json.Object ms) rest =>
      if json.all_space rest then
        match find (fun m => String.eqb (fst m) name) ms with
        | Some (_, json.Str s) => Some s
        | _ => None
        end
      else None
  | _ => None
  end.

(** The flags [f] with [--gitlab-url] set to [u]. *)
Definition with_gitlabURL (u : string) (f : Flags) : Flags :=
  mkFlags u (token_flag f) (sourceProject f) (targetProject f) (dryRun f)
    (outputFile f).

(** A member whose name selects one of the six fields of [EnvVar]. *)
Definition known_member (m : string * json.value) : bool :=
  match json.find_field (fst m) with
  | Some _ => true
  | None => false
  end.

(** A listing without the members that select no field. *)
Definition known_of_EnvVar (v : json.value) : json.value :=
  match v with
  | json.Object ms => json.Object (filter known_member ms)
  | _ => v
  end.

Definition known_of_slice (v : json.value) : json.value :=
  match v with
  | json.Array l => json.Array (map known_of_EnvVar l)
  | _ => v
  end.

(** The flags [f] with the dry-run flag set to [b]. *)
Definition with_dryRun (b : bool) (f : Flags) : Flags :=
  mkFlags (gitlabURL f) (token_flag f) (sourceProject f) (targetProject f) b
    (outputFile f).

End Audit.

(** More environments: a file system that refuses every write. *)
Module Scenarios.

Definition read_only : Env :=
  mkEnv (list (result http.Response))
    (fun _ _ => None)
    (fun _ w =>
       match w with
       | a :: w' => (a, w')
       | [] => (Err (url_Error "connection refused"), [])
       end)
    (fun name _ _ w => (Some (fs_PathError ("open " ++ name ++ ": read-only file system")), w))
    (fun w => ("2024-05-01T12:00:00Z", w)).

(** A listing in which the record carries a member that [EnvVar] does
    not have, and the same listing without it. *)
Definition listing_plain : string := json.encode (mk_slice [Examples.var_a]).

Definition listing_with_raw : string :=
  "[{" ++ Examples.q ++ "raw" ++ Examples.q ++ ":false,"
  ++ Bytes.skip 2 listing_plain.

Definition flags_slash : Flags :=
  mkFlags "/" "secret" "group/app" "group/copy" false "env-sync-dry-run.json".

Definition get_request (u : string) : http.Request :=
  http.mkRequest "GET" u
    [("PRIVATE-TOKEN", "secret"); ("Content-Type", "application/json")] None.

End Scenarios.

(** ** Proofs *)

(** [lia] also decides goals with division and remainder by constants. *)
Ltac Zify.zify_post_hook ::= Z.to_euclidean_division_equations.

(** ** Percent-encoding *)

Module url_facts.

Lemma all_bytes (P : ascii -> bool) :
  forallb P Bytes.all = true -> forall c, P c = true.
Proof.
  intros H c. rewrite forallb_forall in H. apply H.
  unfold Bytes.all. apply in_map_iff. exists (nat_of_ascii c). split.
  - apply ascii_nat_embedding.
  - apply in_seq. pose proof (nat_ascii_bounded c). lia.
Qed.





End url_facts.
(** ** Bit arithmetic and bytes *)

Module bits.

Lemma land_shiftl_low a k b :
  0 <= k -> 0 <= b < 2 ^ k -> Z.land (Z.shiftl a k) b = 0.
Proof.
  intros Hk Hb. apply Z.bits_inj'. intros n Hn.
  rewrite Z.land_spec, Z.bits_0.
  destruct (Z.ltb_spec n k).
  - rewrite Z.shiftl_spec_low by lia. reflexivity.
  - destruct (Z.eq_dec b 0) as [->|Hb0].
    + rewrite Z.bits_0. apply andb_false_r.
    + rewrite (Z.bits_above_log2 b n); [apply andb_false_r | lia |].
      apply Z.log2_lt_pow2; [lia|].
      apply Z.lt_le_trans with (2 ^ k); [lia|].
      apply Z.pow_le_mono_r; lia.
Qed.

Lemma lor_shiftl a k b :
  0 <= k -> 0 <= b < 2 ^ k -> Z.lor (Z.shiftl a k) b = a * 2 ^ k + b.
Proof.
  intros Hk Hb.
  rewrite <- Z.lxor_lor by (apply land_shiftl_low; assumption).
  rewrite <- Z.add_nocarry_lxor by (apply land_shiftl_low; assumption).
  rewrite Z.shiftl_mul_pow2 by assumption. reflexivity.
Qed.

Lemma lor_const c k a b :
  c = a * 2 ^ k -> 0 <= k -> 0 <= b < 2 ^ k -> Z.lor c b = c + b.
Proof.
  intros -> Hk Hb. rewrite <- (Z.shiftl_mul_pow2 a k) by assumption.
  rewrite lor_shiftl by assumption. rewrite Z.shiftl_mul_pow2 by assumption. reflexivity.
Qed.

Lemma land_ones_6 x : Z.land x 63 = x mod 64.
Proof. change 63 with (Z.ones 6). rewrite Z.land_ones by lia. reflexivity. Qed.
Lemma land_ones_5 x : Z.land x 31 = x mod 32.
Proof. change 31 with (Z.ones 5). rewrite Z.land_ones by lia. reflexivity. Qed.
Lemma land_ones_4 x : Z.land x 15 = x mod 16.
Proof. change 15 with (Z.ones 4). rewrite Z.land_ones by lia. reflexivity. Qed.
Lemma land_ones_3 x : Z.land x 7 = x mod 8.
Proof. change 7 with (Z.ones 3). rewrite Z.land_ones by lia. reflexivity. Qed.

End bits.

Module bytes_facts.

Lemma val_range c : 0 <= Bytes.val c < 256.
Proof.
  unfold Bytes.val. pose proof (N_ascii_bounded c). lia.
Qed.

Lemma of_Z_val c : Bytes.of_Z (Bytes.val c) = c.
Proof.
  unfold Bytes.of_Z. pose proof (val_range c).
  rewrite Z.mod_small by lia. unfold Bytes.val. rewrite N2Z.id.
  apply ascii_N_embedding.
Qed.

Lemma val_of_Z z : Bytes.val (Bytes.of_Z z) = z mod 256.
Proof.
  unfold Bytes.val, Bytes.of_Z.
  rewrite N_ascii_embedding.
  - rewrite Z2N.id; [reflexivity|]. apply Z.mod_pos_bound. lia.
  - pose proof (Z.mod_pos_bound z 256). lia.
Qed.


Lemma rune2 b0 b1 :
  Z.lor (Z.shiftl (Z.land b0 utf8.mask2) 6) (Z.land b1 utf8.maskx)
  = (b0 mod 32) * 64 + b1 mod 64.
Proof.
  unfold utf8.mask2, utf8.maskx.
  rewrite bits.land_ones_5, bits.land_ones_6.
  rewrite bits.lor_shiftl by lia. reflexivity.
Qed.

Lemma rune3 b0 b1 b2 :
  Z.lor (Z.lor (Z.shiftl (Z.land b0 utf8.mask3) 12)
               (Z.shiftl (Z.land b1 utf8.maskx) 6))
        (Z.land b2 utf8.maskx)
  = (b0 mod 16) * 4096 + (b1 mod 64) * 64 + b2 mod 64.
Proof.
  unfold utf8.mask3, utf8.maskx.
  rewrite bits.land_ones_4, !bits.land_ones_6.
  rewrite <- Z.lor_assoc.
  rewrite (bits.lor_shiftl (b1 mod 64) 6) by lia.
  rewrite bits.lor_shiftl by lia. lia.
Qed.

Lemma rune4 b0 b1 b2 b3 :
  Z.lor (Z.lor (Z.lor (Z.shiftl (Z.land b0 utf8.mask4) 18)
                      (Z.shiftl (Z.land b1 utf8.maskx) 12))
               (Z.shiftl (Z.land b2 utf8.maskx) 6))
        (Z.land b3 utf8.maskx)
  = (b0 mod 8) * 262144 + (b1 mod 64) * 4096 + (b2 mod 64) * 64 + b3 mod 64.
Proof.
  unfold utf8.mask4, utf8.maskx.
  rewrite bits.land_ones_3, !bits.land_ones_6.
  rewrite <- !Z.lor_assoc.
  rewrite (bits.lor_shiftl (b2 mod 64) 6) by lia.
  rewrite (bits.lor_shiftl (b1 mod 64) 12) by lia.
  rewrite bits.lor_shiftl by lia. lia.
Qed.

Lemma enc_cont r k :
  0 <= k ->
  Z.lor utf8.tx (Z.land (Z.shiftr r k) utf8.maskx) = 128 + (r / 2 ^ k) mod 64.
Proof.
  intros Hk. unfold utf8.tx, utf8.maskx.
  rewrite bits.land_ones_6, Z.shiftr_div_pow2 by lia.
  apply (bits.lor_const 128 7 1); lia.
Qed.

Lemma enc_cont0 r :
  Z.lor utf8.tx (Z.land r utf8.maskx) = 128 + r mod 64.
Proof.
  unfold utf8.tx, utf8.maskx.
  rewrite bits.land_ones_6.
  apply (bits.lor_const 128 7 1); lia.
Qed.

Lemma enc_lead2 r : 0 <= r < 2048 ->
  Z.lor utf8.t2 (Z.shiftr r 6) = 192 + r / 64.
Proof.
  intros. unfold utf8.t2. rewrite Z.shiftr_div_pow2 by lia.
  apply (bits.lor_const 192 6 3); lia.
Qed.

Lemma enc_lead3 r : 0 <= r < 65536 ->
  Z.lor utf8.t3 (Z.shiftr r 12) = 224 + r / 4096.
Proof.
  intros. unfold utf8.t3. rewrite Z.shiftr_div_pow2 by lia.
  apply (bits.lor_const 224 5 7); lia.
Qed.

Lemma enc_lead4 r : 0 <= r < 2097152 ->
  Z.lor utf8.t4 (Z.shiftr r 18) = 240 + r / 262144.
Proof.
  intros. unfold utf8.t4. rewrite Z.shiftr_div_pow2 by lia.
  apply (bits.lor_const 240 4 15); lia.
Qed.

End bytes_facts.

(** ** UTF-8: the decoder and the encoder invert each other *)

Module utf8_facts.
Import bytes_facts View.

Lemma first_spec b : 0 <= b < 256 ->
  (b < 0x80 /\ utf8.first b = utf8.as_) \/
  ((0x80 <= b < 0xC2 \/ 0xF5 <= b) /\ utf8.first b = utf8.xx) \/
  (0xC2 <= b < 0xE0 /\ utf8.first b = utf8.s1) \/
  (b = 0xE0 /\ utf8.first b = utf8.s2) \/
  ((0xE1 <= b < 0xED \/ 0xEE <= b < 0xF0) /\ utf8.first b = utf8.s3) \/
  (b = 0xED /\ utf8.first b = utf8.s4) \/
  (b = 0xF0 /\ utf8.first b = utf8.s5) \/
  (0xF1 <= b < 0xF4 /\ utf8.first b = utf8.s6) \/
  (b = 0xF4 /\ utf8.first b = utf8.s7).
Proof.
  intros Hb. unfold utf8.first.
  repeat match goal with
  | |- context [if ?c then _ else _] => destruct c eqn:?
  end; lia.
Qed.


Ltac eval_closed t :=
  let v := eval vm_compute in t in
  change t with v.

Ltac eval_tables :=
  repeat match goal with
  | |- context [utf8.acceptRanges ?x] => eval_closed (utf8.acceptRanges x)
  | |- context [Z.land ?x 7] => eval_closed (Z.land x 7)
  | |- context [Z.testbit ?x 0] => eval_closed (Z.testbit x 0)
  | |- context [utf8.as_ <=? ?x] => eval_closed (utf8.as_ <=? x)
  | |- context [?x <=? 2] => eval_closed (x <=? 2)
  | |- context [?x <=? 3] => eval_closed (x <=? 3)
  end; cbv beta iota zeta.

Ltac split_byte :=
  match goal with
  | |- context [if (Bytes.val ?c <? ?lo) || (?hi <? Bytes.val ?c) then _ else _] =>
      pose proof (val_range c);
      destruct ((Bytes.val c <? lo) || (hi <? Bytes.val c)) eqn:?
  end.

Ltac split_len :=
  match goal with
  | |- context [if Bytes.len ?s <? ?n then _ else _] =>
      destruct (Bytes.len s <? n) eqn:?
  end.

Ltac split_str :=
  match goal with
  | |- context [match ?t with EmptyString => _ | String _ _ => _ end] =>
      is_var t; destruct t as [|? ?]
  end.

Ltac dec_step := first [split_len | split_byte | split_str]; cbv beta iota zeta.

Lemma DecodeRune_decoded s :
  decoded s (fst (utf8.DecodeRuneInString s)) (snd (utf8.DecodeRuneInString s)).
Proof.
  destruct s as [|c0 t]; [constructor|].
  unfold utf8.DecodeRuneInString.
  pose proof (val_range c0) as H0.
  destruct (first_spec _ H0) as [[? ->]|[[? ->]|[[? ->]|[[? ->]|[[? ->]|[[? ->]|[[? ->]|[[? ->]|[? ->]]]]]]]]];
    eval_tables; repeat dec_step; cbn [fst snd].
  all: try (constructor; lia).
  all: rewrite ?rune2, ?rune3, ?rune4.
  all: unfold utf8.locb, utf8.hicb in *.
  all: try (apply dec_two; unfold cont; lia).
  all: try (apply dec_three; unfold cont, r3; lia).
  all: try (apply dec_four; unfold cont, r4; lia).
  - change (Z.lnot 0) with (-1). rewrite Z.land_m1_r, Z.land_0_r, Z.lor_0_r.
    now constructor.
  - change (Z.lnot (-1)) with 0.
    rewrite Z.land_0_r, Z.land_m1_r, Z.lor_0_l. constructor. lia.
Qed.

(** Conversely, the decoder returns what [decoded] describes, except that
    an invalid first byte may also be a truncated or malformed sequence. *)
Lemma decoded_two c0 c1 t :
  0xC2 <= Bytes.val c0 <= 0xDF -> cont c1 ->
  utf8.DecodeRuneInString (String c0 (String c1 t)) = (r2 c0 c1, 2).
Proof.
  intros H0 H1. unfold cont in H1. unfold utf8.DecodeRuneInString.
  destruct (first_spec _ (val_range c0)) as [[? ->]|[[? ->]|[[? ->]|[[? ->]|[[? ->]|[[? ->]|[[? ->]|[[? ->]|[? ->]]]]]]]]];
    try lia.
  eval_tables. unfold Bytes.len. cbn [String.length].
  destruct (Z.of_nat _ <? 2) eqn:?; [lia|].
  unfold utf8.locb, utf8.hicb.
  destruct ((Bytes.val c1 <? 128) || (191 <? Bytes.val c1)) eqn:?; [lia|].
  rewrite rune2. reflexivity.
Qed.

Lemma decoded_three c0 c1 c2 t :
  0xE0 <= Bytes.val c0 <= 0xEF -> cont c1 -> cont c2 ->
  0x800 <= r3 c0 c1 c2 -> ~ (0xD800 <= r3 c0 c1 c2 <= 0xDFFF) ->
  utf8.DecodeRuneInString (String c0 (String c1 (String c2 t))) = (r3 c0 c1 c2, 3).
Proof.
  intros H0 H1 H2 Hlo Hs. unfold cont, r3 in *. unfold utf8.DecodeRuneInString.
  destruct (first_spec _ (val_range c0)) as [[? ->]|[[? ->]|[[? ->]|[[? ->]|[[? ->]|[[? ->]|[[? ->]|[[? ->]|[? ->]]]]]]]]];
    try lia;
    eval_tables; unfold Bytes.len; cbn [String.length];
    (destruct (Z.of_nat _ <? 3) eqn:?; [lia|]);
    unfold utf8.locb, utf8.hicb;
    repeat split_byte; try lia; rewrite rune3; reflexivity.
Qed.

Lemma decoded_four c0 c1 c2 c3 t :
  0xF0 <= Bytes.val c0 <= 0xF4 -> cont c1 -> cont c2 -> cont c3 ->
  0x10000 <= r4 c0 c1 c2 c3 <= 0x10FFFF ->
  utf8.DecodeRuneInString (String c0 (String c1 (String c2 (String c3 t))))
  = (r4 c0 c1 c2 c3, 4).
Proof.
  intros H0 H1 H2 H3 Hr. unfold cont, r4 in *. unfold utf8.DecodeRuneInString.
  destruct (first_spec _ (val_range c0)) as [[? ->]|[[? ->]|[[? ->]|[[? ->]|[[? ->]|[[? ->]|[[? ->]|[[? ->]|[? ->]]]]]]]]];
    try lia;
    eval_tables; unfold Bytes.len; cbn [String.length];
    (destruct (Z.of_nat _ <? 4) eqn:?; [lia|]);
    unfold utf8.locb, utf8.hicb;
    repeat split_byte; try lia; rewrite rune4; reflexivity.
Qed.

Lemma decoded_ascii c0 t :
  Bytes.val c0 < 0x80 ->
  utf8.DecodeRuneInString (String c0 t) = (Bytes.val c0, 1).
Proof.
  intros H0. unfold utf8.DecodeRuneInString.
  destruct (first_spec _ (val_range c0)) as [[? ->]|[[? ->]|[[? ->]|[[? ->]|[[? ->]|[[? ->]|[[? ->]|[[? ->]|[? ->]]]]]]]]];
    try lia.
  eval_tables. change (Z.lnot 0) with (-1).
  rewrite Z.land_m1_r, Z.land_0_r, Z.lor_0_r. reflexivity.
Qed.

(** [EncodeRune] inverts the decoder on the sequences it accepts. *)
Lemma encode_two c0 c1 :
  0xC2 <= Bytes.val c0 <= 0xDF -> cont c1 ->
  utf8.EncodeRune (r2 c0 c1) = String c0 (String c1 "").
Proof.
  intros H0 H1. unfold cont, r2 in *. unfold utf8.EncodeRune.
  set (r := _ + _). 
  assert (Hr : 0x80 <= r < 0x800) by (subst r; lia).
  rewrite (Z.mod_small r) by lia.
  unfold utf8.rune1Max, utf8.rune2Max.
  destruct (r <=? 127) eqn:?; [lia|].
  destruct (r <=? 2047) eqn:?; [|lia].
  rewrite enc_lead2, enc_cont0 by lia.
  replace (192 + r / 64) with (Bytes.val c0) by (subst r; lia).
  replace (128 + r mod 64) with (Bytes.val c1) by (subst r; lia).
  now rewrite !of_Z_val.
Qed.

Lemma encode3_eq r : 0 <= r < 65536 ->
  utf8.encode3 r =
  String (Bytes.of_Z (224 + r / 4096))
 (String (Bytes.of_Z (128 + (r / 64) mod 64))
 (String (Bytes.of_Z (128 + r mod 64)) "")).
Proof.
  intros Hr. unfold utf8.encode3.
  rewrite enc_lead3, (enc_cont r 6), enc_cont0 by lia. reflexivity.
Qed.

Lemma encode4_eq r : 0 <= r < 2097152 ->
  utf8.encode4 r =
  String (Bytes.of_Z (240 + r / 262144))
 (String (Bytes.of_Z (128 + (r / 4096) mod 64))
 (String (Bytes.of_Z (128 + (r / 64) mod 64))
 (String (Bytes.of_Z (128 + r mod 64)) ""))).
Proof.
  intros Hr. unfold utf8.encode4.
  rewrite enc_lead4, (enc_cont r 12), (enc_cont r 6), enc_cont0 by lia. reflexivity.
Qed.

Lemma encode_three c0 c1 c2 :
  0xE0 <= Bytes.val c0 <= 0xEF -> cont c1 -> cont c2 ->
  0x800 <= r3 c0 c1 c2 -> ~ (0xD800 <= r3 c0 c1 c2 <= 0xDFFF) ->
  utf8.EncodeRune (r3 c0 c1 c2) = String c0 (String c1 (String c2 "")).
Proof.
  intros H0 H1 H2 Hlo Hs. unfold cont in *. unfold utf8.EncodeRune.
  assert (Hr : 0x800 <= r3 c0 c1 c2 < 0x10000) by (unfold r3 in *; lia).
  rewrite (Z.mod_small (r3 c0 c1 c2)) by lia.
  unfold utf8.rune1Max, utf8.rune2Max, utf8.rune3Max, utf8.MaxRune,
    utf8.surrogateMin, utf8.surrogateMax.
  destruct (_ <=? 127) eqn:?; [lia|].
  destruct (_ <=? 2047) eqn:?; [lia|].
  destruct ((1114111 <? _) || _) eqn:?; [lia|].
  destruct (_ <=? 65535) eqn:?; [|lia].
  rewrite encode3_eq by lia.
  replace (224 + r3 c0 c1 c2 / 4096) with (Bytes.val c0) by (unfold r3; lia).
  replace (128 + (r3 c0 c1 c2 / 64) mod 64) with (Bytes.val c1) by (unfold r3; lia).
  replace (128 + r3 c0 c1 c2 mod 64) with (Bytes.val c2) by (unfold r3; lia).
  now rewrite !of_Z_val.
Qed.

Lemma encode_four c0 c1 c2 c3 :
  0xF0 <= Bytes.val c0 <= 0xF4 -> cont c1 -> cont c2 -> cont c3 ->
  0x10000 <= r4 c0 c1 c2 c3 <= 0x10FFFF ->
  utf8.EncodeRune (r4 c0 c1 c2 c3) =
  String c0 (String c1 (String c2 (String c3 ""))).
Proof.
  intros H0 H1 H2 H3 Hr. unfold cont in *. unfold utf8.EncodeRune.
  rewrite (Z.mod_small (r4 c0 c1 c2 c3)) by lia.
  unfold utf8.rune1Max, utf8.rune2Max, utf8.rune3Max, utf8.MaxRune,
    utf8.surrogateMin, utf8.surrogateMax.
  destruct (_ <=? 127) eqn:?; [lia|].
  destruct (_ <=? 2047) eqn:?; [lia|].
  destruct ((1114111 <? _) || _) eqn:?; [lia|].
  destruct (_ <=? 65535) eqn:?; [lia|].
  rewrite encode4_eq by lia.
  replace (240 + r4 c0 c1 c2 c3 / 262144) with (Bytes.val c0) by (unfold r4; lia).
  replace (128 + (r4 c0 c1 c2 c3 / 4096) mod 64) with (Bytes.val c1) by (unfold r4; lia).
  replace (128 + (r4 c0 c1 c2 c3 / 64) mod 64) with (Bytes.val c2) by (unfold r4; lia).
  replace (128 + r4 c0 c1 c2 c3 mod 64) with (Bytes.val c3) by (unfold r4; lia).
  now rewrite !of_Z_val.
Qed.

End utf8_facts.

(** ** JSON string literals *)

Module string_facts.
Import bytes_facts View utf8_facts Checks.

(** Strings *)
Lemma string_app_assoc (a b c : string) : (a ++ b) ++ c = a ++ (b ++ c).
Proof. induction a; cbn; congruence. Qed.

Lemma string_app_nil_r (a : string) : a ++ "" = a.
Proof. induction a; cbn; congruence. Qed.

Lemma string_length_app (a b : string) :
  String.length (a ++ b) = (String.length a + String.length b)%nat.
Proof. induction a; cbn; congruence. Qed.

Lemma app_cons_r (a : string) c (b : string) :
  a ++ String c b = (a ++ String c "") ++ b.
Proof. induction a; cbn; congruence. Qed.

Lemma eqb_val c d : Bytes.eqb c d = true -> Bytes.val c = Bytes.val d.
Proof. unfold Bytes.eqb. intros H. apply Ascii.eqb_eq in H. now subst. Qed.

Lemma eqb_false_val c d : Bytes.val c <> Bytes.val d -> Bytes.eqb c d = false.
Proof.
  intros H. destruct (Bytes.eqb c d) eqn:Heq; [|reflexivity].
  apply eqb_val in Heq. contradiction.
Qed.

Lemma dec_take4 s :
  utf8.DecodeRuneInString (Bytes.take 4 s) = utf8.DecodeRuneInString s.
Proof.
  destruct s as [|c0 [|c1 [|c2 [|c3 t]]]]; try reflexivity.
  cbn [Bytes.take]. unfold utf8.DecodeRuneInString.
  destruct (first_spec _ (val_range c0)) as [[? ->]|[[? ->]|[[? ->]|[[? ->]|[[? ->]|[[? ->]|[[? ->]|[[? ->]|[? ->]]]]]]]]];
    eval_tables; try reflexivity;
    unfold Bytes.len; cbn [String.length];
    repeat match goal with
    | |- context [Z.of_nat ?n <? ?k] => destruct (Z.of_nat n <? k) eqn:?; try lia
    end; reflexivity.
Qed.

Lemma decode_cases c0 t :
  let '(r, n) := utf8.DecodeRuneInString (String c0 t) in
  (0x80 <= Bytes.val c0 /\ r = utf8.RuneError /\ n = 1) \/
  (Bytes.val c0 < 0x80 /\ r = Bytes.val c0 /\ n = 1) \/
  (exists c1 t1, t = String c1 t1 /\ r = r2 c0 c1 /\ n = 2 /\
     0xC2 <= Bytes.val c0 <= 0xDF /\ cont c1) \/
  (exists c1 c2 t2, t = String c1 (String c2 t2) /\ r = r3 c0 c1 c2 /\ n = 3 /\
     0xE0 <= Bytes.val c0 <= 0xEF /\ cont c1 /\ cont c2 /\
     0x800 <= r3 c0 c1 c2 /\ ~ (0xD800 <= r3 c0 c1 c2 <= 0xDFFF)) \/
  (exists c1 c2 c3 t3, t = String c1 (String c2 (String c3 t3)) /\
     r = r4 c0 c1 c2 c3 /\ n = 4 /\
     0xF0 <= Bytes.val c0 <= 0xF4 /\ cont c1 /\ cont c2 /\ cont c3 /\
     0x10000 <= r4 c0 c1 c2 c3 <= 0x10FFFF).
Proof.
  pose proof (DecodeRune_decoded (String c0 t)) as Hd.
  destruct (utf8.DecodeRuneInString (String c0 t)) as [r n]. cbn [fst snd] in Hd.
  inversion Hd; subst.
  - left. auto.
  - right; left. auto.
  - right; right; left. eauto 10.
  - right; right; right; left. eauto 12.
  - right; right; right; right. eauto 14.
Qed.

Lemma scan_chunk_ok chunk : forall st st' t,
  scan_chunk st chunk = Some st' ->
  json.scan_string st (chunk ++ t) =
  json.scan_map (append chunk) (json.scan_string st' t).
Proof.
  induction chunk as [|c chunk IH]; intros st st' t H.
  - cbn in H. injection H as <-. cbn. destruct (json.scan_string st t); reflexivity.
  - cbn [append json.scan_string]. cbn [scan_chunk] in H.
    destruct st as [| |n].
    + destruct (Bytes.eqb c json.dquote); [discriminate|].
      destruct (Bytes.eqb c json.backslash).
      * rewrite (IH _ _ _ H). destruct (json.scan_string st' t); reflexivity.
      * destruct (Bytes.val c <? 32); [discriminate|].
        rewrite (IH _ _ _ H). destruct (json.scan_string st' t); reflexivity.
    + destruct (Bytes.mem c _).
      * rewrite (IH _ _ _ H). destruct (json.scan_string st' t); reflexivity.
      * destruct (Bytes.eqb c "u"); [|discriminate].
        rewrite (IH _ _ _ H). destruct (json.scan_string st' t); reflexivity.
    + destruct (json.ishex c); [|discriminate].
      destruct n as [|[|n]];
        rewrite (IH _ _ _ H); destruct (json.scan_string st' t); reflexivity.
Qed.

Lemma escape_scans_all c : escape_scans c = true.
Proof. apply url_facts.all_bytes. vm_compute. reflexivity. Qed.

Lemma scan_high c :
  0x80 <= Bytes.val c -> scan_chunk json.InString (String c "") = Some json.InString.
Proof.
  intros H. pose proof (escape_scans_all c) as Hc. unfold escape_scans in Hc.
  unfold utf8.RuneSelf in Hc.
  destruct (Bytes.val c <? 128) eqn:?; [lia|].
  destruct (scan_chunk _ _) as [[]|]; try discriminate. reflexivity.
Qed.

Lemma scan_chunk_app a b st st' st'' :
  scan_chunk st a = Some st' -> scan_chunk st' b = Some st'' ->
  scan_chunk st (a ++ b) = Some st''.
Proof.
  revert st. induction a as [|c a IH]; intros st Ha Hb.
  - cbn in Ha. injection Ha as <-. exact Hb.
  - cbn [append scan_chunk] in *.
    destruct st as [| |n].
    + destruct (Bytes.eqb c json.dquote); [discriminate|].
      destruct (Bytes.eqb c json.backslash); [now apply IH|].
      destruct (Bytes.val c <? 32); [discriminate|]. now apply IH.
    + destruct (Bytes.mem c _); [now apply IH|].
      destruct (Bytes.eqb c "u"); [|discriminate]. now apply IH.
    + destruct (json.ishex c); [|discriminate].
      destruct n as [|[|n]]; now apply IH.
Qed.

Lemma scan_map_id {A} (r : json.scan A) : json.scan_map (fun x => x) r = r.
Proof. destruct r; reflexivity. Qed.

Lemma scan_map_map {A B C} (f : A -> B) (g : B -> C) (r : json.scan A) :
  json.scan_map g (json.scan_map f r) = json.scan_map (fun x => g (f x)) r.
Proof. destruct r; reflexivity. Qed.

(** The literal written by [appendString] is read back whole by the
    scanner, whatever bytes the string holds. *)
Lemma scan_appendString fuel : forall s rest,
  json.scan_string json.InString
    (json.appendString_from fuel s ++ String json.dquote rest)
  = json.Done (json.appendString_from fuel s) rest.
Proof.
  induction fuel as [|fuel IH]; intros s rest.
  - destruct s; reflexivity.
  - destruct s as [|c0 t].
    { reflexivity. }
    cbn [json.appendString_from].
    pose proof (escape_scans_all c0) as Hc. unfold escape_scans in Hc.
    destruct (Bytes.val c0 <? utf8.RuneSelf) eqn:Hascii.
    + destruct (json.htmlSafeSet c0).
      * destruct (scan_chunk _ _) as [[]|] eqn:Hs; try discriminate.
        change (String c0 (json.appendString_from fuel t) ++ String json.dquote rest)
          with ((String c0 "") ++ (json.appendString_from fuel t ++ String json.dquote rest)).
        rewrite (scan_chunk_ok _ _ _ _ Hs), IH. reflexivity.
      * destruct (scan_chunk _ _) as [[]|] eqn:Hs; try discriminate.
        rewrite string_app_assoc, (scan_chunk_ok _ _ _ _ Hs), IH. reflexivity.
    + rewrite dec_take4.
      pose proof (decode_cases c0 t) as Hd.
      destruct (utf8.DecodeRuneInString (String c0 t)) as [r n].
      unfold utf8.RuneSelf in Hascii.
      destruct Hd as [(H0 & -> & ->)|[(H0 & -> & ->)|[(c1 & t1 & -> & -> & -> & H0 & H1)
        |[(c1 & c2 & t2 & -> & -> & -> & H0 & H1 & H2 & Hlo & Hsur)
        |(c1 & c2 & c3 & t3 & -> & -> & -> & H0 & H1 & H2 & H3 & Hr)]]]];
        unfold cont in *.
      * (* invalid byte *)
        replace ((utf8.RuneError =? utf8.RuneError) && (1 =? 1)) with true by reflexivity.
        rewrite string_app_assoc.
        rewrite (scan_chunk_ok (String json.backslash "ufffd") json.InString json.InString)
          by reflexivity.
        rewrite IH. reflexivity.
      * lia.
      * (* two bytes *)
        replace ((r2 c0 c1 =? utf8.RuneError) && (2 =? 1)) with false
          by (now rewrite andb_false_r).
        replace ((r2 c0 c1 =? 8232) || (r2 c0 c1 =? 8233)) with false
          by (unfold r2; lia).
        cbn [Z.to_nat Pos.to_nat Pos.iter_op Nat.add Bytes.take Bytes.skip].
        rewrite string_app_assoc.
        rewrite (scan_chunk_ok (String c0 (String c1 "")) json.InString json.InString).
        -- rewrite IH. reflexivity.
        -- apply (scan_chunk_app (String c0 "") (String c1 "") _ json.InString);
             apply scan_high; lia.
      * (* three bytes *)
        replace ((r3 c0 c1 c2 =? utf8.RuneError) && (3 =? 1)) with false
          by (now rewrite andb_false_r).
        cbn [Z.to_nat Pos.to_nat Pos.iter_op Nat.add Bytes.take Bytes.skip].
        destruct ((r3 c0 c1 c2 =? 8232) || (r3 c0 c1 c2 =? 8233)) eqn:Hsep.
        -- assert (Hr : Z.land (r3 c0 c1 c2) 15 = 8 \/ Z.land (r3 c0 c1 c2) 15 = 9).
           { rewrite bits.land_ones_4. lia. }
           rewrite (app_cons_r (String json.backslash "u202")), string_app_assoc.
           destruct Hr as [-> | ->];
             (rewrite (scan_chunk_ok _ json.InString json.InString) by reflexivity);
             rewrite IH; reflexivity.
        -- rewrite string_app_assoc.
           rewrite (scan_chunk_ok (String c0 (String c1 (String c2 ""))) json.InString json.InString).
           ++ rewrite IH. reflexivity.
           ++ apply (scan_chunk_app (String c0 "") (String c1 (String c2 "")) _ json.InString);
                [apply scan_high; lia|].
              apply (scan_chunk_app (String c1 "") (String c2 "") _ json.InString);
                apply scan_high; lia.
      * (* four bytes *)
        replace ((r4 c0 c1 c2 c3 =? utf8.RuneError) && (4 =? 1)) with false
          by (now rewrite andb_false_r).
        replace ((r4 c0 c1 c2 c3 =? 8232) || (r4 c0 c1 c2 c3 =? 8233)) with false
          by lia.
        cbn [Z.to_nat Pos.to_nat Pos.iter_op Nat.add Bytes.take Bytes.skip].
        rewrite string_app_assoc.
        rewrite (scan_chunk_ok (String c0 (String c1 (String c2 (String c3 "")))) json.InString json.InString).
        ++ rewrite IH. reflexivity.
        ++ apply (scan_chunk_app (String c0 "") (String c1 (String c2 (String c3 ""))) _ json.InString);
             [apply scan_high; lia|].
           apply (scan_chunk_app (String c1 "") (String c2 (String c3 "")) _ json.InString);
             [apply scan_high; lia|].
           apply (scan_chunk_app (String c2 "") (String c3 "") _ json.InString);
             apply scan_high; lia.
Qed.

Ltac norm_size :=
  change (Z.to_nat 1) with 1%nat; change (Z.to_nat 2) with 2%nat;
  change (Z.to_nat 3) with 3%nat; change (Z.to_nat 4) with 4%nat;
  cbn [Bytes.take Bytes.skip].

Lemma safe_is_plain_all c : safe_is_plain c = true.
Proof. apply url_facts.all_bytes. vm_compute. reflexivity. Qed.

Lemma unquote_safe c F out :
  json.htmlSafeSet c = true ->
  json.unquote_from (S F) (String c out)
  = option_map (String c) (json.unquote_from F out).
Proof.
  intros Hs. pose proof (safe_is_plain_all c) as H. unfold safe_is_plain in H.
  rewrite Hs in H. apply andb_prop in H. destruct H as [H H3].
  apply andb_prop in H. destruct H as [H1 H2].
  apply negb_true_iff in H1, H2.
  cbn [json.unquote_from]. rewrite H1, H2, H3. reflexivity.
Qed.

Lemma unquote_escape c F out :
  Bytes.val c < 0x80 -> json.htmlSafeSet c = false ->
  json.unquote_from (S F) (json.escape_ascii c ++ out)
  = option_map (String c) (json.unquote_from F out).
Proof.
  intros Hc Hs.
  destruct c as [[] [] [] [] [] [] [] []];
    try discriminate Hs; try (exfalso; vm_compute in Hc; discriminate Hc);
    reflexivity.
Qed.

Lemma unquote_high c0 t F :
  0x80 <= Bytes.val c0 ->
  json.unquote_from (S F) (String c0 t)
  = option_map (append (utf8.EncodeRune (fst (utf8.DecodeRuneInString (String c0 t)))))
      (json.unquote_from F
         (Bytes.skip (Z.to_nat (snd (utf8.DecodeRuneInString (String c0 t)))) (String c0 t))).
Proof.
  intros H. cbn [json.unquote_from].
  rewrite (eqb_false_val c0 json.backslash) by (vm_compute (Bytes.val json.backslash); lia).
  rewrite (eqb_false_val c0 json.dquote) by (vm_compute (Bytes.val json.dquote); lia).
  unfold utf8.RuneSelf.
  destruct (Bytes.val c0 <? 32) eqn:?; [lia|].
  destruct (Bytes.val c0 <? 128) eqn:?; [lia|].
  cbn [orb].
  destruct (utf8.DecodeRuneInString (String c0 t)) as [r n]. reflexivity.
Qed.

Lemma unquote_ufffd F out :
  json.unquote_from (S F) (String json.backslash "ufffd" ++ out)
  = option_map (append (utf8.EncodeRune utf8.RuneError)) (json.unquote_from F out).
Proof. reflexivity. Qed.

Lemma unquote_u2028 F out :
  json.unquote_from (S F) ((String json.backslash "u202" ++ "8") ++ out)
  = option_map (append (utf8.EncodeRune 0x2028)) (json.unquote_from F out).
Proof. reflexivity. Qed.

Lemma unquote_u2029 F out :
  json.unquote_from (S F) ((String json.backslash "u202" ++ "9") ++ out)
  = option_map (append (utf8.EncodeRune 0x2029)) (json.unquote_from F out).
Proof. reflexivity. Qed.

Lemma escape_ascii_length c : (1 <= String.length (json.escape_ascii c))%nat.
Proof.
  unfold json.escape_ascii.
  repeat match goal with |- context [if ?b then _ else _] => destruct b end;
    cbn [String.length]; apply Nat.lt_0_succ.
Qed.

Lemma length_skip n s : String.length (Bytes.skip n s) = (String.length s - n)%nat.
Proof.
  revert s. induction n; intros [|c s]; cbn; auto.
Qed.

(** Decoding what [appendString] wrote: a string [s'] is always
    obtained, and it is [s] itself when [s] is valid UTF-8. *)
Lemma unquote_appendString fuel : forall s,
  (String.length s <= fuel)%nat ->
  exists s',
    (forall F, (String.length (json.appendString_from fuel s) <= F)%nat ->
       json.unquote_from F (json.appendString_from fuel s) = Some s')
    /\ (utf8.valid_from fuel s = true -> s' = s).
Proof.
  induction fuel as [|fuel IH]; intros s Hlen.
  - destruct s; [|cbn in Hlen; lia]. exists "". split; [|reflexivity].
    intros F _. destruct F; reflexivity.
  - destruct s as [|c0 t].
    { exists "". split; [|reflexivity]. intros F _. destruct F; reflexivity. }
    cbn [String.length] in Hlen.
    cbn [json.appendString_from utf8.valid_from].
    rewrite dec_take4.
    pose proof (decode_cases c0 t) as Hd.
    destruct (utf8.DecodeRuneInString (String c0 t)) as [r n] eqn:Hdec.
    unfold utf8.RuneSelf.
    destruct (Bytes.val c0 <? 128) eqn:Hascii.
    + (* ASCII *)
      destruct Hd as [(H0 & _)|[(H0 & -> & ->)|[(c1 & t1 & _ & _ & _ & H0 & _)
        |[(c1 & c2 & t2 & _ & _ & _ & H0 & _)
        |(c1 & c2 & c3 & t3 & _ & _ & _ & H0 & _)]]]]; try lia.
      destruct (IH t ltac:(lia)) as (t' & Hun & Hval).
      exists (String c0 t'). split.
      * intros F HF. destruct (json.htmlSafeSet c0) eqn:Hsafe.
        -- destruct F as [|F]; [cbn in HF; lia|].
           rewrite unquote_safe by assumption.
           rewrite Hun by (cbn in HF; lia). reflexivity.
        -- destruct F as [|F].
           { rewrite string_length_app in HF. pose proof (escape_ascii_length c0). lia. }
           rewrite unquote_escape by (assumption || lia).
           rewrite Hun; [reflexivity|].
           rewrite string_length_app in HF. pose proof (escape_ascii_length c0). lia.
      * replace ((Bytes.val c0 =? utf8.RuneError) && (1 =? 1)) with false
          by (unfold utf8.RuneError; lia).
        norm_size.
        intros Hv. now rewrite (Hval Hv).
    + destruct Hd as [(H0 & -> & ->)|[(H0 & -> & ->)|[(c1 & t1 & -> & -> & -> & H0 & H1)
        |[(c1 & c2 & t2 & -> & -> & -> & H0 & H1 & H2 & Hlo & Hsur)
        |(c1 & c2 & c3 & t3 & -> & -> & -> & H0 & H1 & H2 & H3 & Hr)]]]];
        unfold cont in *; try lia.
      * (* invalid byte *)
        replace ((utf8.RuneError =? utf8.RuneError) && (1 =? 1)) with true by reflexivity.
        destruct (IH t ltac:(lia)) as (t' & Hun & Hval).
        exists (utf8.EncodeRune utf8.RuneError ++ t'). split; [|discriminate].
        intros F HF. rewrite string_length_app in HF. cbn [String.length] in HF.
        destruct F as [|F]; [lia|].
        rewrite unquote_ufffd, Hun by lia. reflexivity.
      * (* two bytes *)
        replace ((r2 c0 c1 =? utf8.RuneError) && (2 =? 1)) with false
          by (now rewrite andb_false_r).
        replace ((r2 c0 c1 =? 8232) || (r2 c0 c1 =? 8233)) with false
          by (unfold r2; lia).
        norm_size.
        cbn [String.length] in Hlen.
        destruct (IH t1 ltac:(lia)) as (t' & Hun & Hval).
        exists (String c0 (String c1 t')). split.
        -- intros F HF. cbn [append String.length] in HF.
           destruct F as [|F]; [lia|].
           cbn [append]. rewrite unquote_high by lia.
           rewrite decoded_two by (unfold cont; lia). cbn [fst snd].
           rewrite encode_two by (unfold cont; lia).
           norm_size.
           rewrite Hun by lia. reflexivity.
        -- intros Hv. destruct fuel as [|fuel']; [cbn in Hlen; lia|].
           now rewrite (Hval Hv).
      * (* three bytes *)
        replace ((r3 c0 c1 c2 =? utf8.RuneError) && (3 =? 1)) with false
          by (now rewrite andb_false_r).
        norm_size.
        cbn [String.length] in Hlen.
        destruct (IH t2 ltac:(lia)) as (t' & Hun & Hval).
        exists (String c0 (String c1 (String c2 t'))). split.
        -- intros F HF.
           pose proof (encode_three c0 c1 c2 H0 H1 H2 Hlo Hsur) as Henc.
           destruct ((r3 c0 c1 c2 =? 8232) || (r3 c0 c1 c2 =? 8233)) eqn:Hsep.
           ++ assert (Hr : (r3 c0 c1 c2 = 8232 /\ Z.land (r3 c0 c1 c2) 15 = 8)
                           \/ (r3 c0 c1 c2 = 8233 /\ Z.land (r3 c0 c1 c2) 15 = 9)).
              { rewrite bits.land_ones_4. lia. }
              rewrite (app_cons_r (String json.backslash "u202")) in *.
              rewrite string_length_app in HF.
              destruct Hr as [[Hr ->] | [Hr ->]]; rewrite Hr in Henc;
                cbn [Bytes.index Z.to_nat Pos.to_nat Pos.iter_op Nat.add String.get json.hex] in *;
                cbn [String.length append] in HF;
                (destruct F as [|F]; [lia|]).
              ** rewrite unquote_u2028, Henc, Hun by lia. reflexivity.
              ** rewrite unquote_u2029, Henc, Hun by lia. reflexivity.
           ++ cbn [append String.length] in HF.
              destruct F as [|F]; [lia|].
              cbn [append]. rewrite unquote_high by lia.
              rewrite decoded_three by (unfold cont; lia). cbn [fst snd].
              rewrite Henc.
              norm_size.
              rewrite Hun by lia. reflexivity.
        -- intros Hv. now rewrite (Hval Hv).
      * (* four bytes *)
        replace ((r4 c0 c1 c2 c3 =? utf8.RuneError) && (4 =? 1)) with false
          by (now rewrite andb_false_r).
        replace ((r4 c0 c1 c2 c3 =? 8232) || (r4 c0 c1 c2 c3 =? 8233)) with false
          by lia.
        norm_size.
        cbn [String.length] in Hlen.
        destruct (IH t3 ltac:(lia)) as (t' & Hun & Hval).
        exists (String c0 (String c1 (String c2 (String c3 t')))). split.
        -- intros F HF. cbn [append String.length] in HF.
           destruct F as [|F]; [lia|].
           cbn [append]. rewrite unquote_high by lia.
           rewrite decoded_four by (unfold cont; lia). cbn [fst snd].
           rewrite encode_four by (unfold cont; lia).
           norm_size.
           rewrite Hun by lia. reflexivity.
        -- intros Hv. now rewrite (Hval Hv).
Qed.

End string_facts.

(** ** The parser *)

Module parse_facts.
Import bytes_facts View utf8_facts Checks string_facts.

(** Parsing consumes input *)

Lemma skip_space_length s : (String.length (json.skip_space s) <= String.length s)%nat.
Proof.
  induction s as [|c s IH]; cbn; [lia|].
  destruct (json.isSpace c); cbn; lia.
Qed.

Lemma scan_string_length : forall s st raw rest,
  json.scan_string st s = json.Done raw rest ->
  (String.length rest < String.length s)%nat.
Proof.
  induction s as [|c s IH]; intros st raw rest H; cbn [json.scan_string] in H; [discriminate|].
  assert (Hk : forall st', match json.scan_string st' s with
                      | json.Done raw0 rest0 => json.Done (String c raw0) rest0
                      | json.Fail e => json.Fail e
                      | json.OutOfFuel => json.OutOfFuel
                      end = json.Done raw rest ->
                      (String.length rest < S (String.length s))%nat).
  { intros st' H'. destruct (json.scan_string st' s) eqn:Hs; try discriminate.
    injection H' as _ <-. apply IH in Hs. lia. }
  cbn [String.length].
  destruct st as [| |n].
  - destruct (Bytes.eqb c json.dquote).
    + injection H as _ <-. lia.
    + destruct (Bytes.eqb c json.backslash); [now apply Hk in H|].
      destruct (Z.ltb _ _); [discriminate|]. now apply Hk in H.
  - destruct (Bytes.mem c _); [now apply Hk in H|].
    destruct (Bytes.eqb c "u"); [now apply Hk in H|discriminate].
  - destruct (json.ishex c); [|discriminate].
    destruct n as [|[|n]]; now apply Hk in H.
Qed.

Lemma scan_string_total : forall s st, json.scan_string st s <> json.OutOfFuel.
Proof.
  induction s as [|c s IH]; intros st; cbn [json.scan_string]; [discriminate|].
  assert (Hk : forall st', match json.scan_string st' s with
                      | json.Done raw0 rest0 => json.Done (String c raw0) rest0
                      | json.Fail e => json.Fail e
                      | json.OutOfFuel => json.OutOfFuel
                      end <> json.OutOfFuel).
  { intros st'. specialize (IH st'). destruct (json.scan_string st' s); congruence. }
  destruct st as [| |n].
  - destruct (Bytes.eqb c json.dquote); [discriminate|].
    destruct (Bytes.eqb c json.backslash); [apply Hk|].
    destruct (Z.ltb _ _); [discriminate|apply Hk].
  - destruct (Bytes.mem c _); [apply Hk|].
    destruct (Bytes.eqb c "u"); [apply Hk|discriminate].
  - destruct (json.ishex c); [|discriminate].
    destruct n as [|[|n]]; apply Hk.
Qed.

Lemma parse_string_length s v rest :
  json.parse_string s = json.Done v rest ->
  (String.length rest < String.length s)%nat.
Proof.
  unfold json.parse_string. intros H.
  destruct (json.scan_string json.InString s) eqn:Hs; try discriminate.
  destruct (json.unquote a); try discriminate.
  injection H as _ <-. eapply scan_string_length; eauto.
Qed.

Lemma parse_string_total s : json.parse_string s <> json.OutOfFuel.
Proof.
  unfold json.parse_string. pose proof (scan_string_total s json.InString).
  destruct (json.scan_string json.InString s); try congruence.
  destruct (json.unquote a); discriminate.
Qed.

Lemma scan_number_length : forall s st lit rest,
  json.scan_number st s = json.Done lit rest ->
  (String.length rest <= String.length s)%nat.
Proof.
  induction s as [|c s IH]; intros st lit rest H; cbn in H.
  - destruct (json.number_accepts st); [|discriminate]. injection H as _ <-. cbn; lia.
  - destruct (json.number_step st c).
    + destruct (json.scan_number n s) eqn:Hs; try discriminate.
      injection H as _ <-. apply IH in Hs. cbn; lia.
    + destruct (json.number_accepts st); [|discriminate]. injection H as _ <-. lia.
Qed.

Lemma scan_number_total : forall s st, json.scan_number st s <> json.OutOfFuel.
Proof.
  induction s as [|c s IH]; intros st; cbn.
  - destruct (json.number_accepts st); discriminate.
  - destruct (json.number_step st c).
    + specialize (IH n). destruct (json.scan_number n s); congruence.
    + destruct (json.number_accepts st); discriminate.
Qed.

Lemma scan_word_length : forall w s u rest,
  json.scan_word w s = json.Done u rest ->
  (String.length rest <= String.length s)%nat.
Proof.
  induction w as [|c w IH]; intros s u rest H; cbn in H.
  - injection H as _ <-. lia.
  - destruct s as [|d s]; [discriminate|].
    destruct (Bytes.eqb d c); [|discriminate].
    apply IH in H. cbn; lia.
Qed.

Lemma scan_word_total : forall w s, json.scan_word w s <> json.OutOfFuel.
Proof.
  induction w as [|c w IH]; intros s; cbn; [discriminate|].
  destruct s as [|d s]; [discriminate|].
  destruct (Bytes.eqb d c); [apply IH|discriminate].
Qed.

Lemma scan_map_done {A B} (f : A -> B) r b rest :
  json.scan_map f r = json.Done b rest ->
  exists a, r = json.Done a rest /\ b = f a.
Proof. destruct r; cbn; intros H; try discriminate. injection H as <- <-. eauto. Qed.

Lemma scan_map_total {A B} (f : A -> B) r :
  r <> json.OutOfFuel -> json.scan_map f r <> json.OutOfFuel.
Proof. destruct r; cbn; congruence. Qed.

Ltac skip_cases s c rest H :=
  let L := fresh "L" in
  pose proof (skip_space_length s) as L;
  destruct (json.skip_space s) as [|c rest] eqn:H; cbn [String.length] in L.

Lemma parse_length fuel :
  (forall d s v rest, json.parse_value fuel d s = json.Done v rest ->
     (String.length rest < String.length s)%nat)
  /\ (forall d s l rest, json.parse_elements fuel d s = json.Done l rest ->
     (String.length rest < String.length s)%nat)
  /\ (forall d s l rest, json.parse_members fuel d s = json.Done l rest ->
     (String.length rest < String.length s)%nat).
Proof.
  induction fuel as [|fuel (IHv & IHe & IHm)]; [repeat split; discriminate|].
  repeat split.
  - intros d s v rest H. cbn [json.parse_value] in H.
    skip_cases s c s1 Hs; [discriminate|].
    repeat match type of H with
    | (if ?b then _ else _) = _ => destruct b
    end; try discriminate.
    + skip_cases s1 c' s2 Hs1; [discriminate|].
      destruct (Bytes.eqb c' "}").
      * injection H as _ <-. lia.
      * apply scan_map_done in H. destruct H as (l & H & _).
        apply IHm in H. cbn in H. lia.
    + skip_cases s1 c' s2 Hs1; [discriminate|].
      destruct (Bytes.eqb c' "]").
      * injection H as _ <-. lia.
      * apply scan_map_done in H. destruct H as (l & H & _).
        apply IHe in H. cbn in H. lia.
    + apply scan_map_done in H. destruct H as (l & H & _).
      apply parse_string_length in H. lia.
    + apply scan_map_done in H. destruct H as (l & H & _).
      apply scan_number_length in H. lia.
    + apply scan_map_done in H. destruct H as (l & H & _).
      apply scan_number_length in H. lia.
    + apply scan_map_done in H. destruct H as (l & H & _).
      apply scan_number_length in H. lia.
    + apply scan_map_done in H. destruct H as (l & H & _).
      apply scan_word_length in H. lia.
    + apply scan_map_done in H. destruct H as (l & H & _).
      apply scan_word_length in H. lia.
    + apply scan_map_done in H. destruct H as (l & H & _).
      apply scan_word_length in H. lia.
  - intros d s l rest H. cbn [json.parse_elements] in H.
    destruct (json.parse_value fuel d s) as [v s1| |] eqn:Hv; try discriminate.
    apply IHv in Hv.
    skip_cases s1 c s2 Hs; [discriminate|].
    destruct (Bytes.eqb c ",").
    + apply scan_map_done in H. destruct H as (l' & H & _).
      apply IHe in H. lia.
    + destruct (Bytes.eqb c "]"); [|discriminate]. injection H as _ <-. lia.
  - intros d s l rest H. cbn [json.parse_members] in H.
    skip_cases s q s1 Hs; [discriminate|].
    destruct (negb _); [discriminate|].
    destruct (json.parse_string s1) as [key s2| |] eqn:Hk; try discriminate.
    apply parse_string_length in Hk.
    skip_cases s2 c s3 Hs2; [discriminate|].
    destruct (negb _); [discriminate|].
    destruct (json.parse_value fuel d s3) as [v s4| |] eqn:Hv; try discriminate.
    apply IHv in Hv.
    skip_cases s4 c' s5 Hs4; [discriminate|].
    destruct (Bytes.eqb c' ",").
    + apply scan_map_done in H. destruct H as (l' & H & _).
      apply IHm in H. lia.
    + destruct (Bytes.eqb c' "}"); [|discriminate]. injection H as _ <-. lia.
Qed.

(** With [fuel_for] the parser never stops for lack of fuel. *)
Lemma parse_total fuel :
  (forall d s, (2 * String.length s + 1 <= fuel)%nat ->
     json.parse_value fuel d s <> json.OutOfFuel)
  /\ (forall d s, (2 * String.length s + 2 <= fuel)%nat ->
     json.parse_elements fuel d s <> json.OutOfFuel)
  /\ (forall d s, (2 * String.length s + 2 <= fuel)%nat ->
     json.parse_members fuel d s <> json.OutOfFuel).
Proof.
  induction fuel as [|fuel (IHv & IHe & IHm)]; [repeat split; intros; lia|].
  repeat split.
  - intros d s Hf. cbn [json.parse_value].
    skip_cases s c s1 Hs; [discriminate|].
    repeat match goal with
    | |- (if ?b then _ else _) <> _ => destruct b
    end; try discriminate;
    try (apply scan_map_total;
         first [apply parse_string_total | apply scan_number_total | apply scan_word_total]).
    + skip_cases s1 c' s2 Hs1; [discriminate|].
      destruct (Bytes.eqb c' "}"); [discriminate|].
      apply scan_map_total, IHm. cbn [String.length]. lia.
    + skip_cases s1 c' s2 Hs1; [discriminate|].
      destruct (Bytes.eqb c' "]"); [discriminate|].
      apply scan_map_total, IHe. cbn [String.length]. lia.
  - intros d s Hf. cbn [json.parse_elements].
    pose proof (IHv d s ltac:(lia)) as Hv.
    destruct (json.parse_value fuel d s) as [v s1| |] eqn:Hpv; try congruence.
    apply (proj1 (parse_length fuel)) in Hpv.
    skip_cases s1 c s2 Hs; [discriminate|].
    destruct (Bytes.eqb c ",").
    + apply scan_map_total, IHe. lia.
    + destruct (Bytes.eqb c "]"); discriminate.
  - intros d s Hf. cbn [json.parse_members].
    skip_cases s q s1 Hs; [discriminate|].
    destruct (negb _); [discriminate|].
    pose proof (parse_string_total s1) as Hk.
    destruct (json.parse_string s1) as [key s2| |] eqn:Hps; try congruence.
    apply parse_string_length in Hps.
    skip_cases s2 c s3 Hs2; [discriminate|].
    destruct (negb _); [discriminate|].
    pose proof (IHv d s3 ltac:(lia)) as Hv.
    destruct (json.parse_value fuel d s3) as [v s4| |] eqn:Hpv; try congruence.
    apply (proj1 (parse_length fuel)) in Hpv.
    skip_cases s4 c' s5 Hs4; [discriminate|].
    destruct (Bytes.eqb c' ",").
    + apply scan_map_total, IHm. lia.
    + destruct (Bytes.eqb c' "}"); discriminate.
Qed.

Lemma readValue_total body : json.readValue body <> json.OutOfFuel.
Proof.
  unfold json.readValue.
  destruct (json.skip_space body); [discriminate|].
  apply (proj1 (parse_total (json.fuel_for body))).
  unfold json.fuel_for. lia.
Qed.

(** More fuel does not change a result. *)
Lemma parse_mono fuel :
  (forall d s v rest, json.parse_value fuel d s = json.Done v rest ->
     forall fuel', (fuel <= fuel')%nat -> json.parse_value fuel' d s = json.Done v rest)
  /\ (forall d s l rest, json.parse_elements fuel d s = json.Done l rest ->
     forall fuel', (fuel <= fuel')%nat -> json.parse_elements fuel' d s = json.Done l rest)
  /\ (forall d s l rest, json.parse_members fuel d s = json.Done l rest ->
     forall fuel', (fuel <= fuel')%nat -> json.parse_members fuel' d s = json.Done l rest).
Proof.
  induction fuel as [|fuel (IHv & IHe & IHm)]; [repeat split; discriminate|].
  repeat split.
  - intros d s v rest H [|fuel'] Hf; [lia|].
    cbn [json.parse_value] in *.
    destruct (json.skip_space s) as [|c s1]; [discriminate|].
    repeat match type of H with
    | (if ?b then _ else _) = _ => destruct b
    end; try exact H.
    + destruct (json.skip_space s1) as [|c' s2]; [discriminate|].
      destruct (Bytes.eqb c' "}"); [exact H|].
      apply scan_map_done in H. destruct H as (l & H & ->).
      rewrite (IHm _ _ _ _ H fuel') by lia. reflexivity.
    + destruct (json.skip_space s1) as [|c' s2]; [discriminate|].
      destruct (Bytes.eqb c' "]"); [exact H|].
      apply scan_map_done in H. destruct H as (l & H & ->).
      rewrite (IHe _ _ _ _ H fuel') by lia. reflexivity.
  - intros d s l rest H [|fuel'] Hf; [lia|].
    cbn [json.parse_elements] in *.
    destruct (json.parse_value fuel d s) as [v s1| |] eqn:Hv; try discriminate.
    rewrite (IHv _ _ _ _ Hv fuel') by lia.
    destruct (json.skip_space s1) as [|c s2]; [discriminate|].
    destruct (Bytes.eqb c ","); [|exact H].
    apply scan_map_done in H. destruct H as (l' & H & ->).
    rewrite (IHe _ _ _ _ H fuel') by lia. reflexivity.
  - intros d s l rest H [|fuel'] Hf; [lia|].
    cbn [json.parse_members] in *.
    destruct (json.skip_space s) as [|q s1]; [discriminate|].
    destruct (negb _); [discriminate|].
    destruct (json.parse_string s1) as [key s2| |]; try discriminate.
    destruct (json.skip_space s2) as [|c s3]; [discriminate|].
    destruct (negb _); [discriminate|].
    destruct (json.parse_value fuel d s3) as [v s4| |] eqn:Hv; try discriminate.
    rewrite (IHv _ _ _ _ Hv fuel') by lia.
    destruct (json.skip_space s4) as [|c' s5]; [discriminate|].
    destruct (Bytes.eqb c' ","); [|exact H].
    apply scan_map_done in H. destruct H as (l' & H & ->).
    rewrite (IHm _ _ _ _ H fuel') by lia. reflexivity.
Qed.

(** ** Reading back what the encoders write *)

Lemma parse_string_encoded s :
  exists s',
    (forall rest,
       json.parse_string
         (json.appendString_from (String.length s) s ++ String json.dquote rest)
       = json.Done s' rest)
    /\ (utf8.ValidString s = true -> s' = s).
Proof.
  destruct (unquote_appendString (String.length s) s (le_n _)) as (s' & Hun & Hval).
  exists s'. split; [|exact Hval].
  intros rest. unfold json.parse_string.
  rewrite scan_appendString. unfold json.unquote.
  rewrite Hun by apply le_n. reflexivity.
Qed.

Lemma parse_key key rest :
  plain key ->
  json.parse_string (key ++ String json.dquote rest) = json.Done key rest.
Proof.
  intros [Hk Hv]. destruct (parse_string_encoded key) as (s' & Hp & Hs).
  rewrite <- Hk at 1. rewrite Hp, (Hs Hv). reflexivity.
Qed.

Lemma skip_space_at c s :
  json.isSpace c = false -> json.skip_space (String c s) = String c s.
Proof. intros H. cbn. now rewrite H. Qed.

Lemma app_String (c : ascii) (a b : string) : String c a ++ b = String c (a ++ b).
Proof. reflexivity. Qed.

(** The value parser on an encoded string or boolean followed by [t]. *)
Lemma value_string s :
  exists s',
    (forall fuel d t,
       json.parse_value (S fuel) d (json.encode s ++ t) = json.Done (json.Str s') t)
    /\ (utf8.ValidString s = true -> s' = s).
Proof.
  destruct (parse_string_encoded s) as (s' & Hp & Hs).
  exists s'. split; [|exact Hs]. intros fuel d t.
  unfold json.encode, json.string_Encoder, json.appendString.
  rewrite app_String, string_app_assoc, app_String.
  cbn [json.parse_value].
  rewrite skip_space_at by reflexivity.
  replace (Bytes.eqb json.dquote "{") with false by reflexivity.
  replace (Bytes.eqb json.dquote "[") with false by reflexivity.
  replace (Bytes.eqb json.dquote json.dquote) with true by reflexivity.
  cbn [append]. rewrite Hp. reflexivity.
Qed.

Lemma value_bool fuel d (b : bool) t :
  json.parse_value (S fuel) d (json.encode b ++ t) = json.Done (json.Bool b) t.
Proof. destruct b; reflexivity. Qed.

Lemma members_cons fuel d key sv v tail l rest :
  plain key ->
  json.parse_value fuel d (sv ++ "," ++ tail) = json.Done v ("," ++ tail) ->
  json.parse_members fuel d tail = json.Done l rest ->
  json.parse_members (S fuel) d (json.field_name key ++ sv ++ "," ++ tail)
  = json.Done ((key, v) :: l) rest.
Proof.
  intros Hk Hv Hl. unfold json.field_name.
  rewrite app_String, string_app_assoc, app_String.
  cbn [json.parse_members].
  rewrite skip_space_at by reflexivity.
  replace (Bytes.eqb json.dquote json.dquote) with true by reflexivity.
  cbn [negb]. rewrite parse_key by assumption.
  cbn [append]. rewrite skip_space_at by reflexivity.
  replace (Bytes.eqb ":" ":") with true by reflexivity. cbn [negb].
  change (String "," tail) with ("," ++ tail). rewrite Hv.
  cbn [append]. rewrite skip_space_at by reflexivity.
  replace (Bytes.eqb "," ",") with true by reflexivity.
  rewrite Hl. reflexivity.
Qed.

Lemma members_last fuel d key sv v rest :
  plain key ->
  json.parse_value fuel d (sv ++ "}" ++ rest) = json.Done v ("}" ++ rest) ->
  json.parse_members (S fuel) d (json.field_name key ++ sv ++ "}" ++ rest)
  = json.Done [(key, v)] rest.
Proof.
  intros Hk Hv. unfold json.field_name.
  rewrite app_String, string_app_assoc, app_String.
  cbn [json.parse_members].
  rewrite skip_space_at by reflexivity.
  replace (Bytes.eqb json.dquote json.dquote) with true by reflexivity.
  cbn [negb]. rewrite parse_key by assumption.
  cbn [append]. rewrite skip_space_at by reflexivity.
  replace (Bytes.eqb ":" ":") with true by reflexivity. cbn [negb].
  change (String "}" rest) with ("}" ++ rest). rewrite Hv.
  cbn [append]. rewrite skip_space_at by reflexivity.
  replace (Bytes.eqb "}" ",") with false by reflexivity.
  replace (Bytes.eqb "}" "}") with true by reflexivity.
  reflexivity.
Qed.

Lemma object_members fuel d key tail l rest :
  (d + 1 <= json.maxNestingDepth)%Z ->
  json.parse_members fuel (d + 1) (json.field_name key ++ tail) = json.Done l rest ->
  json.parse_value (S fuel) d ("{" ++ json.field_name key ++ tail)
  = json.Done (json.Object l) rest.
Proof.
  intros Hd H.
  assert (Hopen : json.parse_value (S fuel) d ("{" ++ json.field_name key ++ tail)
          = if (json.maxNestingDepth <? d + 1)%Z then json.Fail json_SyntaxError
            else json.scan_map json.Object
                   (json.parse_members fuel (d + 1) (json.field_name key ++ tail)))
    by reflexivity.
  rewrite Hopen, H.
  destruct (Z.ltb_spec json.maxNestingDepth (d + 1)); [lia|reflexivity].
Qed.

Lemma valid_EnvVar_fields v :
  valid_EnvVar v = true ->
  utf8.ValidString (VariableType v) = true /\ utf8.ValidString (Key v) = true
  /\ utf8.ValidString (Value v) = true /\ utf8.ValidString (EnvironmentScope v) = true.
Proof.
  unfold valid_EnvVar. rewrite !andb_true_iff. tauto.
Qed.

Lemma plain_names :
  plain "variable_type" /\ plain "key" /\ plain "value" /\ plain "protected"
  /\ plain "masked" /\ plain "environment_scope".
Proof. repeat split; reflexivity. Qed.

Lemma value_EnvVar v :
  exists t k x e,
    (forall fuel d rest, (8 <= fuel)%nat -> (d + 1 <= json.maxNestingDepth)%Z ->
       json.parse_value fuel d (json.encode v ++ rest) = json.Done (tree t k x e v) rest)
    /\ (utf8.ValidString (VariableType v) = true -> t = VariableType v)
    /\ (utf8.ValidString (Key v) = true -> k = Key v)
    /\ (utf8.ValidString (Value v) = true -> x = Value v)
    /\ (utf8.ValidString (EnvironmentScope v) = true -> e = EnvironmentScope v).
Proof.
  destruct plain_names as (P1 & P2 & P3 & P4 & P5 & P6).
  destruct (value_string (VariableType v)) as (t & Pt & Ht).
  destruct (value_string (Key v)) as (k & Pk & Hk).
  destruct (value_string (Value v)) as (x & Px & Hx).
  destruct (value_string (EnvironmentScope v)) as (e & Pe & He).
  exists t, k, x, e. repeat split; try assumption.
  intros fuel d rest Hf Hd.
  do 8 (destruct fuel as [|fuel]; [lia|]). clear Hf.
  unfold json.encode at 1, json.EnvVar_Encoder.
  rewrite !string_app_assoc.
  apply object_members; [assumption|].
  apply members_cons; [assumption|apply Pt|].
  apply members_cons; [assumption|apply Pk|].
  apply members_cons; [assumption|apply Px|].
  apply members_cons; [assumption|apply value_bool|].
  apply members_cons; [assumption|apply value_bool|].
  apply members_last; [assumption|apply Pe].
Qed.

(** Storing the tree of a record fills all six fields. *)
Lemma store_tree t k x e v old :
  json.store (tree t k x e v) old None
  = (mkEnvVar t k x (Protected v) (Masked v) e, None).
Proof. reflexivity. Qed.

Lemma encode_EnvVar_length (v : EnvVar) : (8 <= String.length (json.encode v))%nat.
Proof.
  unfold json.encode at 1, json.EnvVar_Encoder.
  rewrite !string_length_app. cbn [String.length json.field_name append]. lia.
Qed.

Lemma Unmarshal_encode v old :
  utf8.ValidString (VariableType v) = true ->
  utf8.ValidString (Key v) = true ->
  utf8.ValidString (Value v) = true ->
  utf8.ValidString (EnvironmentScope v) = true ->
  json.Unmarshal (json.encode v) old = (v, None).
Proof.
  intros H1 H2 H3 H4.
  destruct (value_EnvVar v) as (t & k & x & e & Hp & Ht & Hk & Hx & He).
  unfold json.Unmarshal.
  pose proof (encode_EnvVar_length v) as Hlen.
  specialize (Hp (json.fuel_for (json.encode v)) 0%Z "").
  rewrite string_app_nil_r in Hp.
  rewrite Hp by (unfold json.fuel_for, json.maxNestingDepth; lia).
  cbn [json.all_space json.skip_space]. rewrite store_tree.
  rewrite (Ht H1), (Hk H2), (Hx H3), (He H4). destruct v; reflexivity.
Qed.

End parse_facts.

(** ** The decoder yields valid UTF-8 *)

Module valid_facts.
Import bytes_facts View utf8_facts string_facts.

Lemma decode_size c0 t :
  1 <= snd (utf8.DecodeRuneInString (String c0 t)) <= 4.
Proof.
  pose proof (decode_cases c0 t) as Hd.
  destruct (utf8.DecodeRuneInString (String c0 t)) as [r n]. cbn [snd].
  destruct Hd as [(_ & _ & ->)|[(_ & _ & ->)|[(c1 & t1 & _ & _ & -> & _)
    |[(c1 & c2 & t2 & _ & _ & -> & _)|(c1 & c2 & c3 & t3 & _ & _ & -> & _)]]]]; lia.
Qed.

Lemma valid_from_fuel f1 : forall f2 s,
  (String.length s <= f1)%nat -> (String.length s <= f2)%nat ->
  utf8.valid_from f1 s = utf8.valid_from f2 s.
Proof.
  induction f1 as [|f1 IH]; intros f2 s H1 H2.
  - destruct s; [|cbn in H1; lia]. destruct f2; reflexivity.
  - destruct s as [|c0 t]; [destruct f2; reflexivity|].
    destruct f2 as [|f2]; [cbn in H2; lia|].
    cbn [utf8.valid_from].
    pose proof (decode_size c0 t) as Hn.
    destruct (utf8.DecodeRuneInString (String c0 t)) as [r n]. cbn [snd] in Hn.
    destruct ((r =? utf8.RuneError) && (n =? 1)); [reflexivity|].
    apply IH; rewrite length_skip; cbn [String.length] in *; lia.
Qed.

(** One valid step of the decoder in front of [t]. *)
Lemma valid_step s r n t :
  utf8.DecodeRuneInString s = (r, n) ->
  ~ (r = utf8.RuneError /\ n = 1) ->
  s <> "" ->
  Bytes.skip (Z.to_nat n) s = t ->
  utf8.ValidString s = utf8.ValidString t.
Proof.
  intros Hd Hv Hs Ht. unfold utf8.ValidString.
  destruct s as [|c0 s']; [congruence|].
  cbn [String.length utf8.valid_from]. rewrite Hd.
  destruct ((r =? utf8.RuneError) && (n =? 1)) eqn:Hb; [exfalso; apply Hv; lia|].
  rewrite Ht. apply valid_from_fuel; [|lia].
  pose proof (decode_size c0 s') as Hn. rewrite Hd in Hn. cbn [snd] in Hn.
  subst t. rewrite length_skip. cbn [String.length]. lia.
Qed.

Lemma valid_ascii c t :
  Bytes.val c < 0x80 -> utf8.ValidString (String c t) = utf8.ValidString t.
Proof.
  intros Hc. apply (valid_step _ (Bytes.val c) 1).
  - now apply decoded_ascii.
  - unfold utf8.RuneError. lia.
  - discriminate.
  - reflexivity.
Qed.

(** What [EncodeRune] writes is a valid sequence, for every rune. *)
Lemma valid_EncodeRune r t :
  0 <= r < 2 ^ 31 ->
  utf8.ValidString (utf8.EncodeRune r ++ t) = utf8.ValidString t.
Proof.
  intros Hr. unfold utf8.EncodeRune.
  rewrite (Z.mod_small r) by lia.
  unfold utf8.rune1Max, utf8.rune2Max, utf8.rune3Max, utf8.MaxRune,
    utf8.surrogateMin, utf8.surrogateMax.
  destruct (r <=? 127) eqn:H1.
  { assert (Hv : Bytes.val (Bytes.of_Z r) < 128) by (rewrite val_of_Z; lia).
    cbn [append]. now apply valid_ascii. }
  destruct (r <=? 2047) eqn:H2.
  { rewrite enc_lead2, enc_cont0 by lia. cbn [append].
    set (c0 := Bytes.of_Z (192 + r / 64)).
    set (c1 := Bytes.of_Z (128 + r mod 64)).
    assert (H0 : Bytes.val c0 = 192 + r / 64) by (subst c0; rewrite val_of_Z; lia).
    assert (H1' : Bytes.val c1 = 128 + r mod 64) by (subst c1; rewrite val_of_Z; lia).
    apply (valid_step _ (r2 c0 c1) 2).
    - apply decoded_two; unfold cont; lia.
    - lia.
    - discriminate.
    - reflexivity. }
  destruct ((1114111 <? r) || ((55296 <=? r) && (r <=? 57343))) eqn:H3.
  { change (utf8.encode3 utf8.RuneError)
      with (String "239" (String "191" (String "189" ""))).
    cbn [append].
    apply (valid_step _ (r3 "239" "191" "189") 3).
    - apply decoded_three; unfold cont, r3; vm_compute; intuition discriminate.
    - lia.
    - discriminate.
    - reflexivity. }
  destruct (r <=? 65535) eqn:H4.
  { rewrite encode3_eq by lia. cbn [append].
    set (c0 := Bytes.of_Z (224 + r / 4096)).
    set (c1 := Bytes.of_Z (128 + (r / 64) mod 64)).
    set (c2 := Bytes.of_Z (128 + r mod 64)).
    assert (H0 : Bytes.val c0 = 224 + r / 4096) by (subst c0; rewrite val_of_Z; lia).
    assert (H1' : Bytes.val c1 = 128 + (r / 64) mod 64) by (subst c1; rewrite val_of_Z; lia).
    assert (H2' : Bytes.val c2 = 128 + r mod 64) by (subst c2; rewrite val_of_Z; lia).
    assert (Hr3 : r3 c0 c1 c2 = r) by (unfold r3; rewrite H0, H1', H2'; lia).
    apply (valid_step _ (r3 c0 c1 c2) 3).
    - apply decoded_three; unfold cont; rewrite ?Hr3; lia.
    - lia.
    - discriminate.
    - reflexivity. }
  rewrite encode4_eq by lia. cbn [append].
  set (c0 := Bytes.of_Z (240 + r / 262144)).
  set (c1 := Bytes.of_Z (128 + (r / 4096) mod 64)).
  set (c2 := Bytes.of_Z (128 + (r / 64) mod 64)).
  set (c3 := Bytes.of_Z (128 + r mod 64)).
  assert (H0 : Bytes.val c0 = 240 + r / 262144) by (subst c0; rewrite val_of_Z; lia).
  assert (H1' : Bytes.val c1 = 128 + (r / 4096) mod 64) by (subst c1; rewrite val_of_Z; lia).
  assert (H2' : Bytes.val c2 = 128 + (r / 64) mod 64) by (subst c2; rewrite val_of_Z; lia).
  assert (H3' : Bytes.val c3 = 128 + r mod 64) by (subst c3; rewrite val_of_Z; lia).
  assert (Hr4 : r4 c0 c1 c2 c3 = r) by (unfold r4; rewrite H0, H1', H2', H3'; lia).
  apply (valid_step _ (r4 c0 c1 c2 c3) 4).
  - apply decoded_four; unfold cont; rewrite ?Hr4; lia.
  - lia.
  - discriminate.
  - reflexivity.
Qed.

Lemma hexval_ok_all c : Checks.hexval_ok c = true.
Proof. apply url_facts.all_bytes. vm_compute. reflexivity. Qed.

Lemma hexval_bound c : json.ishex c = true -> 0 <= json.hexval c < 16.
Proof.
  intros H. pose proof (hexval_ok_all c) as Hc. unfold Checks.hexval_ok in Hc.
  rewrite H in Hc. lia.
Qed.

Lemma getu4_bound s : -1 <= json.getu4 s < 65536.
Proof.
  unfold json.getu4.
  destruct s as [|e [|u [|a [|b [|c [|d s]]]]]]; try lia.
  destruct (Bytes.eqb e json.backslash && Bytes.eqb u "u" && json.ishex a
            && json.ishex b && json.ishex c && json.ishex d) eqn:H; [|lia].
  repeat (apply andb_prop in H; destruct H as [H ?]).
  pose proof (hexval_bound a ltac:(assumption)).
  pose proof (hexval_bound b ltac:(assumption)).
  pose proof (hexval_bound c ltac:(assumption)).
  pose proof (hexval_bound d ltac:(assumption)). lia.
Qed.

Lemma utf16_DecodeRune_bound r1 r2 : 0 <= utf16.DecodeRune r1 r2 < 2 ^ 31.
Proof.
  unfold utf16.DecodeRune, utf16.surr1, utf16.surr2, utf16.surr3,
    utf16.surrSelf, utf16.replacementChar.
  destruct ((55296 <=? r1) && (r1 <? 56320) && (56320 <=? r2) && (r2 <? 57344)) eqn:H;
    [|lia].
  rewrite bits.lor_shiftl by lia. lia.
Qed.

Lemma DecodeRune_bound s : 0 <= fst (utf8.DecodeRuneInString s) < 2 ^ 31.
Proof.
  destruct s as [|c0 t]; [cbn; unfold utf8.RuneError; lia|].
  pose proof (decode_cases c0 t) as Hd. pose proof (val_range c0).
  destruct (utf8.DecodeRuneInString (String c0 t)) as [r n]. cbn [fst].
  destruct Hd as [(_ & -> & _)|[(_ & -> & _)|[(c1 & t1 & _ & -> & _ & _)
    |[(c1 & c2 & t2 & _ & -> & _)|(c1 & c2 & c3 & t3 & _ & -> & _ & _ & _ & _ & _ & ?)]]]];
    unfold utf8.RuneError, r2, r3 in *; lia.
Qed.

Lemma emit_valid out r s :
  (forall t, utf8.ValidString (out ++ t) = utf8.ValidString t) ->
  (forall s', r = Some s' -> utf8.ValidString s' = true) ->
  option_map (append out) r = Some s -> utf8.ValidString s = true.
Proof.
  intros Hout IH H. destruct r as [s'|]; [|discriminate].
  injection H as <-. rewrite Hout. now apply IH.
Qed.

Lemma escape_byte_ascii e :
  Bytes.mem e (String json.dquote (String json.backslash "/'")) = true ->
  Bytes.val e < 128.
Proof.
  intros H. pose proof (hexval_ok_all e) as Hc. unfold Checks.hexval_ok in Hc.
  rewrite H in Hc. lia.
Qed.

(** Whatever [unquote] returns is valid UTF-8. *)
Lemma unquote_from_valid F : forall raw s,
  json.unquote_from F raw = Some s -> utf8.ValidString s = true.
Proof.
  induction F as [|F IH]; intros raw s H.
  - destruct raw; [|discriminate]. injection H as <-. reflexivity.
  - destruct raw as [|c rest]; [injection H as <-; reflexivity|].
    cbn [json.unquote_from] in H.
    assert (Hascii : forall (b : ascii) r, Bytes.val b < 128 ->
              option_map (append (String b "")) (json.unquote_from F r) = Some s ->
              utf8.ValidString s = true).
    { intros b r Hb. apply emit_valid; [|apply IH].
      intros t. now apply valid_ascii. }
    assert (Hrune : forall rr r, 0 <= rr < 2 ^ 31 ->
              option_map (append (utf8.EncodeRune rr)) (json.unquote_from F r) = Some s ->
              utf8.ValidString s = true).
    { intros rr r Hb. apply emit_valid; [|apply IH].
      intros t. now apply valid_EncodeRune. }
    destruct (Bytes.eqb c json.backslash).
    + destruct rest as [|e rest']; [discriminate|].
      destruct (Bytes.mem e _) eqn:He.
      { apply Hascii in H; [assumption|]. now apply escape_byte_ascii. }
      repeat match type of H with
      | (if Bytes.eqb e ?x then _ else _) = _ =>
          destruct (Bytes.eqb e x);
          [first [ apply Hascii in H; [assumption | vm_compute; reflexivity] | idtac ] | ]
      end; try discriminate.
      pose proof (getu4_bound (String c (String e rest'))) as Hu.
      destruct (json.getu4 _ <? 0) eqn:Hneg; [discriminate|].
      destruct (utf16.IsSurrogate _).
      * destruct (negb _).
        -- apply Hrune in H; [assumption|]. apply utf16_DecodeRune_bound.
        -- apply Hrune in H; [assumption|]. unfold utf16.replacementChar. lia.
      * apply Hrune in H; [assumption|]. lia.
    + destruct (Bytes.eqb c json.dquote || (Bytes.val c <? 32)); [discriminate|].
      destruct (Bytes.val c <? utf8.RuneSelf) eqn:Hc.
      * apply Hascii in H; [assumption|]. unfold utf8.RuneSelf in Hc. lia.
      * pose proof (DecodeRune_bound (String c rest)) as Hb.
        destruct (utf8.DecodeRuneInString (String c rest)) as [rr size].
        apply Hrune in H; assumption.
Qed.

Lemma parse_string_valid s v rest :
  json.parse_string s = json.Done v rest -> utf8.ValidString v = true.
Proof.
  unfold json.parse_string. intros H.
  destruct (json.scan_string json.InString s) as [raw r| |]; try discriminate.
  destruct (json.unquote raw) as [t|] eqn:Hu; [|discriminate].
  injection H as <- _. eapply unquote_from_valid. exact Hu.
Qed.

End valid_facts.

Module decode_facts.
Import bytes_facts View utf8_facts string_facts parse_facts valid_facts.

Lemma parse_valid fuel :
  (forall d s v rest, json.parse_value fuel d s = json.Done v rest ->
     valid_value v = true)
  /\ (forall d s l rest, json.parse_elements fuel d s = json.Done l rest ->
     forallb valid_value l = true)
  /\ (forall d s l rest, json.parse_members fuel d s = json.Done l rest ->
     forallb (fun m => valid_value (snd m)) l = true).
Proof.
  induction fuel as [|fuel (IHv & IHe & IHm)]; [repeat split; discriminate|].
  repeat split.
  - intros d s v rest H. cbn [json.parse_value] in H.
    destruct (json.skip_space s) as [|c s1]; [discriminate|].
    repeat match type of H with
    | (if ?b then _ else _) = _ => destruct b
    end; try discriminate.
    + destruct (json.skip_space s1) as [|c' s2]; [discriminate|].
      destruct (Bytes.eqb c' "}"); [now injection H as <- _|].
      apply scan_map_done in H. destruct H as (l & H & ->).
      cbn [valid_value]. eapply IHm; eauto.
    + destruct (json.skip_space s1) as [|c' s2]; [discriminate|].
      destruct (Bytes.eqb c' "]"); [now injection H as <- _|].
      apply scan_map_done in H. destruct H as (l & H & ->).
      cbn [valid_value]. eapply IHe; eauto.
    + apply scan_map_done in H. destruct H as (l & H & ->).
      cbn [valid_value]. eapply parse_string_valid; eauto.
    + apply scan_map_done in H. destruct H as (l & H & ->). reflexivity.
    + apply scan_map_done in H. destruct H as (l & H & ->). reflexivity.
    + apply scan_map_done in H. destruct H as (l & H & ->). reflexivity.
    + apply scan_map_done in H. destruct H as (l & H & ->). reflexivity.
    + apply scan_map_done in H. destruct H as (l & H & ->). reflexivity.
    + apply scan_map_done in H. destruct H as (l & H & ->). reflexivity.
  - intros d s l rest H. cbn [json.parse_elements] in H.
    destruct (json.parse_value fuel d s) as [v s1| |] eqn:Hv; try discriminate.
    apply IHv in Hv.
    destruct (json.skip_space s1) as [|c s2]; [discriminate|].
    destruct (Bytes.eqb c ",").
    + apply scan_map_done in H. destruct H as (l' & H & ->).
      cbn [forallb]. rewrite Hv. eapply IHe; eauto.
    + destruct (Bytes.eqb c "]"); [|discriminate]. injection H as <- _.
      cbn [forallb]. now rewrite Hv.
  - intros d s l rest H. cbn [json.parse_members] in H.
    destruct (json.skip_space s) as [|q s1]; [discriminate|].
    destruct (negb _); [discriminate|].
    destruct (json.parse_string s1) as [key s2| |]; try discriminate.
    destruct (json.skip_space s2) as [|c s3]; [discriminate|].
    destruct (negb _); [discriminate|].
    destruct (json.parse_value fuel d s3) as [v s4| |] eqn:Hv; try discriminate.
    apply IHv in Hv.
    destruct (json.skip_space s4) as [|c' s5]; [discriminate|].
    destruct (Bytes.eqb c' ",").
    + apply scan_map_done in H. destruct H as (l' & H & ->).
      cbn [forallb snd]. rewrite Hv. eapply IHm; eauto.
    + destruct (Bytes.eqb c' "}"); [|discriminate]. injection H as <- _.
      cbn [forallb snd]. now rewrite Hv.
Qed.

Lemma readValue_valid body v rest :
  json.readValue body = json.Done v rest -> valid_value v = true.
Proof.
  unfold json.readValue. intros H.
  destruct (json.skip_space body); [discriminate|].
  now apply (proj1 (parse_valid _)) in H.
Qed.

Lemma store_string_valid v old saved :
  valid_value v = true -> utf8.ValidString old = true ->
  utf8.ValidString (fst (json.store_string v old saved)) = true.
Proof. destruct v; cbn; auto. Qed.

Lemma store_field_valid f v x saved :
  valid_value v = true -> valid_EnvVar x = true ->
  valid_EnvVar (fst (json.store_field f v x saved)) = true.
Proof.
  intros Hv Hx. unfold valid_EnvVar in *.
  apply andb_prop in Hx. destruct Hx as [Hx H4].
  apply andb_prop in Hx. destruct Hx as [Hx H3].
  apply andb_prop in Hx. destruct Hx as [H1 H2].
  destruct f; cbn [json.store_field];
    [ pose proof (store_string_valid v (VariableType x) saved Hv H1) as H;
      destruct (json.store_string v (VariableType x) saved)
    | pose proof (store_string_valid v (Key x) saved Hv H2) as H;
      destruct (json.store_string v (Key x) saved)
    | pose proof (store_string_valid v (Value x) saved Hv H3) as H;
      destruct (json.store_string v (Value x) saved)
    | destruct (json.store_bool v (Protected x) saved)
    | destruct (json.store_bool v (Masked x) saved)
    | pose proof (store_string_valid v (EnvironmentScope x) saved Hv H4) as H;
      destruct (json.store_string v (EnvironmentScope x) saved) ];
    cbn [fst VariableType Key Value EnvironmentScope] in *;
    rewrite ?H, ?H1, ?H2, ?H3, ?H4; reflexivity.
Qed.

Lemma store_members_valid ms : forall x saved,
  forallb (fun m => valid_value (snd m)) ms = true -> valid_EnvVar x = true ->
  valid_EnvVar (fst (json.store_members ms x saved)) = true.
Proof.
  induction ms as [|[key v] ms IH]; intros x saved Hms Hx; [exact Hx|].
  cbn [forallb snd] in Hms. apply andb_prop in Hms. destruct Hms as [Hv Hms].
  cbn [json.store_members].
  destruct (json.find_field key) as [f|]; [|now apply IH].
  pose proof (store_field_valid f v x saved Hv Hx) as H.
  destruct (json.store_field f v x saved) as [x' saved']. now apply IH.
Qed.

Lemma store_EnvVar_valid v x saved :
  valid_value v = true -> valid_EnvVar x = true ->
  valid_EnvVar (fst (json.store_EnvVar v x saved)) = true.
Proof.
  intros Hv Hx. destruct v; cbn [json.store_EnvVar fst]; try assumption.
  now apply store_members_valid.
Qed.

Lemma store_elements_valid l : forall saved,
  forallb valid_value l = true ->
  forallb valid_EnvVar (fst (json.store_elements l saved)) = true.
Proof.
  induction l as [|v l IH]; intros saved Hl; [reflexivity|].
  cbn [forallb] in Hl. apply andb_prop in Hl. destruct Hl as [Hv Hl].
  cbn [json.store_elements].
  pose proof (store_EnvVar_valid v EnvVar_zero saved Hv eq_refl) as H.
  destruct (json.store_EnvVar v EnvVar_zero saved) as [x saved'].
  specialize (IH saved' Hl).
  destruct (json.store_elements l saved') as [xs saved''].
  cbn [fst forallb] in *. now rewrite H, IH.
Qed.

(** The records that [Decode] produces hold valid UTF-8 only. *)
Lemma Decode_valid body (vars : slice EnvVar) e :
  json.Decode body nil_slice = (vars, e) ->
  forallb valid_EnvVar (elems vars) = true.
Proof.
  unfold json.Decode. intros H.
  destruct (json.readValue body) as [v rest| e' |] eqn:Hr;
    try (injection H as <- _; reflexivity).
  apply readValue_valid in Hr.
  change (json.store v nil_slice None) with (json.store_slice v nil_slice None) in H.
  destruct v; cbn [json.store_slice] in H;
    try (injection H as <- _; reflexivity).
  cbn [valid_value] in Hr.
  pose proof (store_elements_valid l None Hr) as Hs.
  destruct (json.store_elements l None) as [xs e'']. injection H as <- _.
  exact Hs.
Qed.

End decode_facts.

(** ** When storing a value succeeds *)

Module store_facts.
Import Spec.

Lemma saveError_None saved e : json.saveError saved e <> None.
Proof. destruct saved; discriminate. Qed.

Lemma store_string_fits v old saved :
  snd (json.store_string v old saved) = None <->
  saved = None /\ match v with json.Null | json.Str _ => true | _ => false end = true.
Proof.
  destruct v; cbn; try (pose proof (saveError_None saved) as H; split;
    [intros H'; now apply H in H' | intros [_ H']; discriminate H']);
    intuition congruence.
Qed.

Lemma store_bool_fits v old saved :
  snd (json.store_bool v old saved) = None <->
  saved = None /\ match v with json.Null | json.Bool _ => true | _ => false end = true.
Proof.
  destruct v; cbn; try (pose proof (saveError_None saved) as H; split;
    [intros H'; now apply H in H' | intros [_ H']; discriminate H']);
    intuition congruence.
Qed.

Lemma store_field_fits f v x saved :
  snd (json.store_field f v x saved) = None <->
  saved = None /\ fits_field f v = true.
Proof.
  destruct f; cbn [json.store_field];
    [ pose proof (store_string_fits v (VariableType x) saved) as H;
      destruct (json.store_string v (VariableType x) saved)
    | pose proof (store_string_fits v (Key x) saved) as H;
      destruct (json.store_string v (Key x) saved)
    | pose proof (store_string_fits v (Value x) saved) as H;
      destruct (json.store_string v (Value x) saved)
    | pose proof (store_bool_fits v (Protected x) saved) as H;
      destruct (json.store_bool v (Protected x) saved)
    | pose proof (store_bool_fits v (Masked x) saved) as H;
      destruct (json.store_bool v (Masked x) saved)
    | pose proof (store_string_fits v (EnvironmentScope x) saved) as H;
      destruct (json.store_string v (EnvironmentScope x) saved) ];
    cbn [snd] in *; rewrite H; destruct v; cbn; tauto.
Qed.

Lemma store_members_fits ms : forall x saved,
  snd (json.store_members ms x saved) = None <->
  saved = None /\ forallb fits_member ms = true.
Proof.
  induction ms as [|[key v] ms IH]; intros x saved; cbn [json.store_members forallb].
  - cbn. tauto.
  - unfold fits_member at 1. cbn [fst snd].
    destruct (json.find_field key) as [f|].
    + pose proof (store_field_fits f v x saved) as H.
      destruct (json.store_field f v x saved) as [x' saved']. cbn [snd] in H.
      rewrite IH, H, andb_true_iff. tauto.
    + rewrite IH. cbn. tauto.
Qed.

Lemma store_EnvVar_fits v x saved :
  snd (json.store_EnvVar v x saved) = None <->
  saved = None /\ fits_EnvVar v = true.
Proof.
  destruct v; cbn [json.store_EnvVar fits_EnvVar snd];
    try (pose proof (saveError_None saved) as H; split;
         [intros H'; now apply H in H' | intros [_ H']; discriminate H']).
  - tauto.
  - apply store_members_fits.
Qed.

Lemma store_elements_fits l : forall saved,
  snd (json.store_elements l saved) = None <->
  saved = None /\ forallb fits_EnvVar l = true.
Proof.
  induction l as [|v l IH]; intros saved; cbn [json.store_elements forallb].
  - cbn. tauto.
  - pose proof (store_EnvVar_fits v EnvVar_zero saved) as H.
    destruct (json.store_EnvVar v EnvVar_zero saved) as [x saved']. cbn [snd] in H.
    specialize (IH saved').
    destruct (json.store_elements l saved') as [xs saved'']. cbn [snd] in *.
    rewrite IH, H, andb_true_iff. tauto.
Qed.

Lemma store_slice_fits v old :
  snd (json.store_slice v old None) = None <-> fits_slice v = true.
Proof.
  destruct v; cbn [json.store_slice fits_slice snd json.saveError];
    try (split; discriminate); try tauto.
  pose proof (store_elements_fits l None) as H.
  destruct (json.store_elements l None) as [xs e]. cbn [snd] in *.
  rewrite H. tauto.
Qed.

(** [Decode] into a [[]EnvVar] succeeds exactly when the first JSON value
    of the body can be read and fits. *)
Lemma Decode_fits body old :
  snd (json.Decode body old) = None <->
  exists v rest, json.readValue body = json.Done v rest /\ fits_slice v = true.
Proof.
  unfold json.Decode.
  destruct (json.readValue body) as [v rest| e |] eqn:Hr.
  - change (json.store v old None) with (json.store_slice v old None).
    rewrite store_slice_fits. split.
    + intros H. eauto.
    + intros (v' & rest' & Heq & H). now injection Heq as <- <-.
  - cbn. split; [discriminate|]. intros (v & rest & Heq & _). discriminate.
  - cbn. split; [discriminate|]. intros (v & rest & Heq & _). discriminate.
Qed.

End store_facts.

(** ** [json.Indent] on the encoding of a report *)

Module indent_facts.
Import bytes_facts View utf8_facts Checks string_facts parse_facts.

(** [Indent] copies the inside of a string literal. *)
Lemma indent_chunk p i chunk : forall st st' t need d,
  scan_chunk st chunk = Some st' ->
  json.Indent_from p i (chunk ++ t) true (esc_of st) need d
  = chunk ++ json.Indent_from p i t true (esc_of st') need d.
Proof.
  induction chunk as [|c chunk IH]; intros st st' t need d H.
  - cbn in H. injection H as <-. reflexivity.
  - cbn [append json.Indent_from]. cbn [scan_chunk] in H. f_equal.
    destruct st as [| |n]; cbn [esc_of orb negb andb].
    + destruct (Bytes.eqb c json.dquote) eqn:Hq; [discriminate|].
      destruct (Bytes.eqb c json.backslash) eqn:Hb.
      * apply (IH json.InStringEsc). exact H.
      * destruct (Bytes.val c <? 32); [discriminate|].
        apply (IH json.InString). exact H.
    + destruct (Bytes.mem c _).
      * apply (IH json.InString). exact H.
      * destruct (Bytes.eqb c "u"); [|discriminate].
        apply (IH (json.InStringEscU 4)). exact H.
    + destruct (json.ishex c) eqn:Hh; [|discriminate].
      assert (Hq : Bytes.eqb c json.dquote = false /\ Bytes.eqb c json.backslash = false).
      { destruct c as [[] [] [] [] [] [] [] []]; try discriminate Hh; split; reflexivity. }
      destruct Hq as [-> ->]. cbn [negb andb orb].
      destruct n as [|[|n]].
      * apply (IH json.InString). exact H.
      * apply (IH json.InString). exact H.
      * apply (IH (json.InStringEscU (S n))). exact H.
Qed.

Lemma scan_string_chunk : forall raw st rest,
  json.scan_string st (raw ++ String json.dquote rest) = json.Done raw rest ->
  scan_chunk st raw = Some json.InString.
Proof.
  induction raw as [|c raw IH]; intros st rest H.
  - cbn [append json.scan_string] in H. cbn.
    destruct st as [| |n]; [reflexivity | |].
    + exfalso. replace (Bytes.mem json.dquote _) with true in H by reflexivity.
      destruct (json.scan_string json.InString rest); discriminate.
    + exfalso. replace (json.ishex json.dquote) with false in H by reflexivity.
      discriminate.
  - cbn [append json.scan_string] in H. cbn [scan_chunk].
    assert (Hk : forall st',
      match json.scan_string st' (raw ++ String json.dquote rest) with
      | json.Done raw0 rest0 => json.Done (String c raw0) rest0
      | json.Fail e => json.Fail e
      | json.OutOfFuel => json.OutOfFuel
      end = json.Done (String c raw) rest ->
      scan_chunk st' raw = Some json.InString).
    { intros st' H'. apply (IH st' rest).
      destruct (json.scan_string st' _) as [raw0 rest0| |]; try discriminate.
      now injection H' as -> ->. }
    destruct st as [| |n].
    + destruct (Bytes.eqb c json.dquote); [discriminate|].
      destruct (Bytes.eqb c json.backslash); [now apply Hk|].
      destruct (Bytes.val c <? 32)%Z; [discriminate|]. now apply Hk.
    + destruct (Bytes.mem c _); [now apply Hk|].
      destruct (Bytes.eqb c "u"); [now apply Hk|discriminate].
    + destruct (json.ishex c); [|discriminate].
      destruct n as [|[|n]]; now apply Hk.
Qed.

Lemma appendString_chunk fuel s :
  scan_chunk json.InString (json.appendString_from fuel s) = Some json.InString.
Proof. apply (scan_string_chunk _ _ ""). apply scan_appendString. Qed.

Lemma plain_chunk key : plain key -> scan_chunk json.InString key = Some json.InString.
Proof. intros [Hk _]. rewrite <- Hk. apply appendString_chunk. Qed.

Lemma indent_literal raw need d rest :
  scan_chunk json.InString raw = Some json.InString ->
  json.Indent_from "" "  " (raw ++ String json.dquote rest) true false need d
  = raw ++ String json.dquote (J need d rest).
Proof.
  intros H. rewrite (indent_chunk _ _ raw json.InString json.InString) by exact H.
  reflexivity.
Qed.

Lemma indent_string_value d (s : string) rest :
  J false d (json.encode s ++ rest) = json.encode s ++ J false d rest.
Proof.
  unfold json.encode, json.string_Encoder, json.appendString, J.
  cbn [append json.Indent_from].
  replace (json.isSpace json.dquote) with false by reflexivity.
  cbn [andb orb negb].
  replace (Bytes.eqb json.dquote "}" || Bytes.eqb json.dquote "]") with false by reflexivity.
  replace (Bytes.eqb json.dquote "{" || Bytes.eqb json.dquote "[") with false by reflexivity.
  replace (Bytes.eqb json.dquote ",") with false by reflexivity.
  replace (Bytes.eqb json.dquote ":") with false by reflexivity.
  replace (Bytes.eqb json.dquote json.dquote) with true by reflexivity.
  cbn [append]. f_equal.
  rewrite string_app_assoc. cbn [append].
  rewrite indent_literal by apply appendString_chunk.
  rewrite string_app_assoc. reflexivity.
Qed.

Lemma indent_key need d key rest :
  plain key ->
  J need d (json.field_name key ++ rest)
  = (if need then nl (S d) else "") ++ json.field_name key ++ " "
    ++ J false (if need then S d else d) rest.
Proof.
  intros Hk. unfold json.field_name, J.
  cbn [append json.Indent_from].
  replace (json.isSpace json.dquote) with false by reflexivity.
  replace (Bytes.eqb json.dquote "}" || Bytes.eqb json.dquote "]") with false by reflexivity.
  replace (Bytes.eqb json.dquote "{" || Bytes.eqb json.dquote "[") with false by reflexivity.
  replace (Bytes.eqb json.dquote ",") with false by reflexivity.
  replace (Bytes.eqb json.dquote ":") with false by reflexivity.
  replace (Bytes.eqb json.dquote json.dquote) with true by reflexivity.
  cbn [negb andb].
  rewrite string_app_assoc. cbn [append].
  rewrite indent_literal by (now apply plain_chunk).
  rewrite !andb_false_r.
  unfold nl. destruct need; cbn [andb]; rewrite ?string_app_assoc; reflexivity.
Qed.

Lemma indent_bool d (b : bool) rest :
  J false d (json.encode b ++ rest) = json.encode b ++ J false d rest.
Proof. destruct b; reflexivity. Qed.

Lemma indent_comma d rest :
  J false d (String "," rest) = String "," (nl d ++ J false d rest).
Proof. reflexivity. Qed.

Lemma indent_close_brace d rest :
  J false (S d) (String "}" rest) = nl d ++ String "}" (J false d rest).
Proof. reflexivity. Qed.

Lemma indent_close_bracket d rest :
  J false (S d) (String "]" rest) = nl d ++ String "]" (J false d rest).
Proof. reflexivity. Qed.

Lemma indent_open_brace need d rest :
  J need d (String "{" rest)
  = (if need then nl (S d) else "")
    ++ String "{" (J true (if need then S d else d) rest).
Proof. destruct need; reflexivity. Qed.

Ltac indent_norm :=
  repeat first
    [ rewrite indent_comma
    | rewrite indent_string_value
    | rewrite indent_bool
    | rewrite indent_close_brace
    | rewrite indent_close_bracket
    | rewrite indent_key by assumption
    | rewrite indent_open_brace
    | progress cbn [append] ].

Lemma indent_EnvVar need d (v : EnvVar) rest :
  J need d (json.encode v ++ rest)
  = (if need then nl (S d) else "")
    ++ pretty_EnvVar (if need then S d else d) v
    ++ J false (if need then S d else d) rest.
Proof.
  destruct plain_names as (P1 & P2 & P3 & P4 & P5 & P6).
  unfold json.encode at 1, json.EnvVar_Encoder, pretty_EnvVar.
  set (d' := if need then S d else d).
  rewrite !string_app_assoc. cbn [append].
  indent_norm.
  rewrite ?string_app_assoc. cbn [append].
  reflexivity.
Qed.

Lemma indent_elems (x : EnvVar) (l : list EnvVar) : forall need d rest,
  J need d (json.encode_elems (x :: l) ++ rest)
  = (if need then nl (S d) else "")
    ++ pretty_elems (if need then S d else d) (x :: l)
    ++ J false (if need then S d else d) rest.
Proof.
  revert x. induction l as [|y l IH]; intros x need d rest.
  - cbn [json.encode_elems pretty_elems]. apply indent_EnvVar.
  - change (json.encode_elems (x :: y :: l))
      with (json.encode x ++ "," ++ json.encode_elems (y :: l)).
    change (pretty_elems ?k (x :: y :: l))
      with (pretty_EnvVar k x ++ "," ++ nl k ++ pretty_elems k (y :: l)).
    rewrite !string_app_assoc. rewrite indent_EnvVar.
    cbn [append]. rewrite indent_comma, (IH y false).
    rewrite ?string_app_assoc. cbn [append]. reflexivity.
Qed.

Lemma indent_slice d (s : slice EnvVar) rest :
  J false d (json.encode s ++ rest) = pretty_slice d s ++ J false d rest.
Proof.
  destruct s as [|[|x l]]; try reflexivity.
  unfold json.encode at 1, json.slice_Encoder, pretty_slice.
  rewrite !string_app_assoc. cbn [append].
  change (J false d (String "[" ?y)) with (String "[" (J true d y)).
  rewrite (indent_elems x l true). cbn [append].
  rewrite indent_close_bracket.
  rewrite ?string_app_assoc. cbn [append]. reflexivity.
Qed.

Lemma plain_report_names :
  plain "timestamp" /\ plain "source_project" /\ plain "target_project"
  /\ plain "variables".
Proof. repeat split; reflexivity. Qed.

(** The report file is laid out as [pretty_report] says. *)
Lemma Indent_report (o : DryRunOutput) :
  json.Indent (json.encode o) "" "  " = pretty_report o.
Proof.
  destruct plain_report_names as (P1 & P2 & P3 & P4).
  unfold json.Indent. fold (J false 0 (json.encode o)).
  unfold json.encode at 1, DryRunOutput_Encoder, pretty_report.
  rewrite ?string_app_assoc. cbn [append].
  indent_norm. rewrite indent_slice. indent_norm.
  rewrite ?string_app_assoc. cbn [append]. reflexivity.
Qed.

End indent_facts.

(** ** Reading a written report back *)

Module report_facts.
Import bytes_facts View utf8_facts Checks string_facts parse_facts indent_facts.

Lemma skip_space_idem s : json.skip_space (json.skip_space s) = json.skip_space s.
Proof.
  induction s as [|c s IH]; [reflexivity|].
  cbn [json.skip_space]. destruct (json.isSpace c) eqn:Hc; [exact IH|].
  cbn [json.skip_space]. now rewrite Hc.
Qed.

Lemma parse_value_ws fuel d s s' :
  json.skip_space s = json.skip_space s' ->
  json.parse_value fuel d s = json.parse_value fuel d s'.
Proof. intros H. destruct fuel; [reflexivity|]. cbn [json.parse_value]. now rewrite H. Qed.

Lemma parse_members_ws fuel d s s' :
  json.skip_space s = json.skip_space s' ->
  json.parse_members fuel d s = json.parse_members fuel d s'.
Proof. intros H. destruct fuel; [reflexivity|]. cbn [json.parse_members]. now rewrite H. Qed.

Lemma parse_elements_ws fuel d s s' :
  json.skip_space s = json.skip_space s' ->
  json.parse_elements fuel d s = json.parse_elements fuel d s'.
Proof.
  intros H. destruct fuel; [reflexivity|]. cbn [json.parse_elements].
  now rewrite (parse_value_ws fuel d s s' H).
Qed.

Lemma skip_indent d s :
  json.skip_space (String.concat "" (repeat "  " d) ++ s) = json.skip_space s.
Proof.
  induction d as [|d IH]; [reflexivity|].
  cbn [repeat String.concat].
  destruct (repeat "  " d) as [|x l] eqn:Hr.
  - reflexivity.
  - rewrite <- IH. rewrite !string_app_assoc. reflexivity.
Qed.

Lemma skip_nl d s : json.skip_space (nl d ++ s) = json.skip_space s.
Proof.
  unfold nl, json.appendNewline. cbn [append json.skip_space].
  replace (json.isSpace "010") with true by reflexivity.
  apply skip_indent.
Qed.

(** A result does not depend on the fuel, once there is enough of it. *)
Lemma parse_stable fuel :
  (forall d s r, json.parse_value fuel d s = r -> r <> json.OutOfFuel ->
     forall fuel', (fuel <= fuel')%nat -> json.parse_value fuel' d s = r)
  /\ (forall d s r, json.parse_elements fuel d s = r -> r <> json.OutOfFuel ->
     forall fuel', (fuel <= fuel')%nat -> json.parse_elements fuel' d s = r)
  /\ (forall d s r, json.parse_members fuel d s = r -> r <> json.OutOfFuel ->
     forall fuel', (fuel <= fuel')%nat -> json.parse_members fuel' d s = r).
Proof.
  assert (Hmap : forall A B (f : A -> B) x, json.scan_map f x <> json.OutOfFuel ->
            x <> json.OutOfFuel).
  { intros A B f [ | |]; cbn; congruence. }
  induction fuel as [|fuel (IHv & IHe & IHm)];
    [repeat split; intros; subst; cbn in *; congruence|].
  repeat split.
  - intros d s r H Hr [|fuel'] Hf; [lia|]. subst r.
    cbn [json.parse_value] in *.
    destruct (json.skip_space s) as [|c s1]; [reflexivity|].
    repeat match goal with
    | |- context [if ?b then _ else _] => destruct b
    end; try reflexivity.
    + destruct (json.skip_space s1) as [|c' s2]; [reflexivity|].
      destruct (Bytes.eqb c' "}"); [reflexivity|].
      apply Hmap in Hr. now rewrite (IHm _ _ _ eq_refl Hr fuel') by lia.
    + destruct (json.skip_space s1) as [|c' s2]; [reflexivity|].
      destruct (Bytes.eqb c' "]"); [reflexivity|].
      apply Hmap in Hr. now rewrite (IHe _ _ _ eq_refl Hr fuel') by lia.
  - intros d s r H Hr [|fuel'] Hf; [lia|]. subst r.
    cbn [json.parse_elements] in *.
    assert (Hv : json.parse_value fuel d s <> json.OutOfFuel)
      by (destruct (json.parse_value fuel d s); congruence).
    rewrite (IHv _ _ _ eq_refl Hv fuel') by lia.
    destruct (json.parse_value fuel d s) as [v s1| |]; try reflexivity.
    destruct (json.skip_space s1) as [|c s2]; [reflexivity|].
    destruct (Bytes.eqb c ","); [|reflexivity].
    apply Hmap in Hr. now rewrite (IHe _ _ _ eq_refl Hr fuel') by lia.
  - intros d s r H Hr [|fuel'] Hf; [lia|]. subst r.
    cbn [json.parse_members] in *.
    destruct (json.skip_space s) as [|q s1]; [reflexivity|].
    destruct (negb _); [reflexivity|].
    destruct (json.parse_string s1) as [key s2| |]; try reflexivity.
    destruct (json.skip_space s2) as [|c s3]; [reflexivity|].
    destruct (negb _); [reflexivity|].
    assert (Hv : json.parse_value fuel d s3 <> json.OutOfFuel)
      by (destruct (json.parse_value fuel d s3); congruence).
    rewrite (IHv _ _ _ eq_refl Hv fuel') by lia.
    destruct (json.parse_value fuel d s3) as [v s4| |]; try reflexivity.
    destruct (json.skip_space s4) as [|c' s5]; [reflexivity|].
    destruct (Bytes.eqb c' ","); [|reflexivity].
    apply Hmap in Hr. now rewrite (IHm _ _ _ eq_refl Hr fuel') by lia.
Qed.

(** With [fuel_for] the parser returns what it returns with any fuel
    that lets it finish. *)
Lemma parse_with_fuel_for fuel s v rest :
  json.parse_value fuel 0 s = json.Done v rest ->
  json.parse_value (json.fuel_for s) 0 s = json.Done v rest.
Proof.
  intros H. destruct (Nat.le_ge_cases fuel (json.fuel_for s)) as [Hle|Hge].
  - apply (proj1 (parse_stable fuel) _ _ _ H); [discriminate|exact Hle].
  - assert (Ht : json.parse_value (json.fuel_for s) 0 s <> json.OutOfFuel).
    { apply (proj1 (parse_total _)). unfold json.fuel_for. lia. }
    rewrite <- H. symmetry.
    apply (proj1 (parse_stable (json.fuel_for s)) _ _ _ eq_refl Ht). exact Hge.
Qed.


Lemma skip_sp s : json.skip_space (" " ++ s) = json.skip_space s.
Proof. reflexivity. Qed.

(** Members and elements laid out one per line. *)
Lemma members_cons_nl fuel d k key sv v tail l rest :
  plain key ->
  (forall T, json.parse_value fuel d (sv ++ T) = json.Done v T) ->
  json.parse_members fuel d tail = json.Done l rest ->
  json.parse_members (S fuel) d
    (json.field_name key ++ " " ++ sv ++ "," ++ nl k ++ tail)
  = json.Done ((key, v) :: l) rest.
Proof.
  intros Hk Hv Hl. unfold json.field_name.
  rewrite app_String, string_app_assoc, app_String.
  cbn [json.parse_members].
  rewrite skip_space_at by reflexivity.
  replace (Bytes.eqb json.dquote json.dquote) with true by reflexivity.
  cbn [negb]. rewrite parse_key by assumption.
  cbn [append]. rewrite skip_space_at by reflexivity.
  replace (Bytes.eqb ":" ":") with true by reflexivity. cbn [negb].
  rewrite (parse_value_ws fuel d _ (sv ++ "," ++ nl k ++ tail)) by reflexivity.
  rewrite Hv. cbn [append]. rewrite skip_space_at by reflexivity.
  replace (Bytes.eqb "," ",") with true by reflexivity.
  rewrite (parse_members_ws fuel d _ tail)
    by (rewrite skip_nl; reflexivity).
  rewrite Hl. reflexivity.
Qed.

Lemma members_last_nl fuel d k key sv v rest :
  plain key ->
  (forall T, json.parse_value fuel d (sv ++ T) = json.Done v T) ->
  json.parse_members (S fuel) d
    (json.field_name key ++ " " ++ sv ++ nl k ++ "}" ++ rest)
  = json.Done [(key, v)] rest.
Proof.
  intros Hk Hv. unfold json.field_name.
  rewrite app_String, string_app_assoc, app_String.
  cbn [json.parse_members].
  rewrite skip_space_at by reflexivity.
  replace (Bytes.eqb json.dquote json.dquote) with true by reflexivity.
  cbn [negb]. rewrite parse_key by assumption.
  cbn [append]. rewrite skip_space_at by reflexivity.
  replace (Bytes.eqb ":" ":") with true by reflexivity. cbn [negb].
  rewrite (parse_value_ws fuel d _ (sv ++ nl k ++ "}" ++ rest)) by reflexivity.
  rewrite Hv, skip_nl. cbn [append]. rewrite skip_space_at by reflexivity.
  replace (Bytes.eqb "}" ",") with false by reflexivity.
  replace (Bytes.eqb "}" "}") with true by reflexivity.
  reflexivity.
Qed.

Lemma object_nl fuel d k key tail l rest :
  (d + 1 <= json.maxNestingDepth)%Z ->
  json.parse_members fuel (d + 1) (json.field_name key ++ tail) = json.Done l rest ->
  json.parse_value (S fuel) d ("{" ++ nl k ++ json.field_name key ++ tail)
  = json.Done (json.Object l) rest.
Proof.
  intros Hd H. unfold json.field_name in *.
  cbn [append json.parse_value] in H |- *.
  rewrite skip_space_at by reflexivity.
  replace (Bytes.eqb "{" "{") with true by reflexivity.
  destruct (Z.ltb_spec json.maxNestingDepth (d + 1)); [lia|].
  rewrite skip_nl.
  rewrite skip_space_at by reflexivity.
  replace (Bytes.eqb json.dquote "}") with false by reflexivity.
  rewrite H. reflexivity.
Qed.

Lemma elements_cons_nl fuel d k sv v tail l rest :
  (forall T, json.parse_value fuel d (sv ++ T) = json.Done v T) ->
  json.parse_elements fuel d tail = json.Done l rest ->
  json.parse_elements (S fuel) d (sv ++ "," ++ nl k ++ tail)
  = json.Done (v :: l) rest.
Proof.
  intros Hv Hl. cbn [json.parse_elements]. rewrite Hv.
  cbn [append]. rewrite skip_space_at by reflexivity.
  replace (Bytes.eqb "," ",") with true by reflexivity.
  rewrite (parse_elements_ws fuel d _ tail) by (rewrite skip_nl; reflexivity).
  rewrite Hl. reflexivity.
Qed.

Lemma elements_last_nl fuel d k sv v rest :
  (forall T, json.parse_value fuel d (sv ++ T) = json.Done v T) ->
  json.parse_elements (S fuel) d (sv ++ nl k ++ "]" ++ rest) = json.Done [v] rest.
Proof.
  intros Hv. cbn [json.parse_elements]. rewrite Hv, skip_nl.
  cbn [append]. rewrite skip_space_at by reflexivity.
  replace (Bytes.eqb "]" ",") with false by reflexivity.
  replace (Bytes.eqb "]" "]") with true by reflexivity.
  reflexivity.
Qed.

Lemma array_nl fuel d k tail l rest :
  (d + 1 <= json.maxNestingDepth)%Z ->
  json.parse_elements fuel (d + 1) ("{" ++ tail) = json.Done l rest ->
  json.parse_value (S fuel) d ("[" ++ nl k ++ "{" ++ tail)
  = json.Done (json.Array l) rest.
Proof.
  intros Hd H. cbn [append json.parse_value].
  rewrite skip_space_at by reflexivity.
  replace (Bytes.eqb "[" "{") with false by reflexivity.
  replace (Bytes.eqb "[" "[") with true by reflexivity.
  destruct (Z.ltb_spec json.maxNestingDepth (d + 1)); [lia|].
  rewrite skip_nl. cbn [append]. rewrite skip_space_at by reflexivity.
  replace (Bytes.eqb "{" "]") with false by reflexivity.
  cbn [append] in H. rewrite H. reflexivity.
Qed.

(** The value parser on an encoded string of valid UTF-8. *)
Lemma value_valid_string s fuel d T :
  utf8.ValidString s = true ->
  json.parse_value (S fuel) d (json.encode s ++ T) = json.Done (json.Str s) T.
Proof.
  intros Hs. destruct (value_string s) as (s' & Hp & Heq).
  rewrite Hp, (Heq Hs). reflexivity.
Qed.

(** The parser on the layout of a record. *)
Lemma value_pretty_EnvVar k v fuel d rest :
  valid_EnvVar v = true ->
  (8 <= fuel)%nat -> (d + 1 <= json.maxNestingDepth)%Z ->
  json.parse_value fuel d (pretty_EnvVar k v ++ rest) = json.Done (tree_of v) rest.
Proof.
  intros Hv Hf Hd. apply valid_EnvVar_fields in Hv. destruct Hv as (H1 & H2 & H3 & H4).
  destruct plain_names as (P1 & P2 & P3 & P4 & P5 & P6).
  do 8 (destruct fuel as [|fuel]; [lia|]). clear Hf.
  unfold pretty_EnvVar, tree_of, tree.
  rewrite !string_app_assoc.
  apply object_nl; [assumption|].
  apply members_cons_nl;
    [assumption|intros T; now apply value_valid_string|].
  apply members_cons_nl;
    [assumption|intros T; now apply value_valid_string|].
  apply members_cons_nl;
    [assumption|intros T; now apply value_valid_string|].
  apply members_cons_nl; [assumption|intros T; apply value_bool|].
  apply members_cons_nl; [assumption|intros T; apply value_bool|].
  apply members_last_nl; [assumption|intros T; now apply value_valid_string].
Qed.

Lemma pretty_elems_open k x l : exists tail, pretty_elems k (x :: l) = "{" ++ tail.
Proof.
  destruct l; cbn [pretty_elems]; unfold pretty_EnvVar;
    rewrite ?string_app_assoc; eexists; reflexivity.
Qed.

Lemma elements_pretty k d x l : forall fuel rest,
  forallb valid_EnvVar (x :: l) = true ->
  (9 + List.length l <= fuel)%nat -> (d + 1 <= json.maxNestingDepth)%Z ->
  json.parse_elements fuel d (pretty_elems (S k) (x :: l) ++ nl k ++ "]" ++ rest)
  = json.Done (map tree_of (x :: l)) rest.
Proof.
  revert x. induction l as [|y l IH]; intros x fuel rest Hv Hf Hd.
  - destruct fuel as [|fuel]; [cbn in Hf; lia|].
    cbn [pretty_elems map]. cbn in Hv. rewrite andb_true_r in Hv.
    apply elements_last_nl. intros T. apply value_pretty_EnvVar; [assumption| |assumption].
    cbn in Hf. lia.
  - destruct fuel as [|fuel]; [cbn in Hf; lia|].
    change (pretty_elems ?j (x :: y :: l))
      with (pretty_EnvVar j x ++ "," ++ nl j ++ pretty_elems j (y :: l)).
    cbn [forallb] in Hv. apply andb_true_iff in Hv. destruct Hv as [Hx Hv].
    rewrite !string_app_assoc.
    change (map tree_of (x :: y :: l)) with (tree_of x :: map tree_of (y :: l)).
    apply elements_cons_nl.
    + intros T. apply value_pretty_EnvVar; [assumption| |assumption].
      cbn in Hf. lia.
    + apply IH; [exact Hv| cbn in Hf |- *; lia | assumption].
Qed.

Lemma value_pretty_slice k d (vs : slice EnvVar) fuel rest :
  forallb valid_EnvVar (elems vs) = true ->
  (10 + List.length (elems vs) <= fuel)%nat -> (d + 2 <= json.maxNestingDepth)%Z ->
  json.parse_value fuel d (pretty_slice k vs ++ rest) = json.Done (tree_of_slice vs) rest.
Proof.
  intros Hv Hf Hd. destruct fuel as [|fuel]; [lia|].
  destruct vs as [|[|x l]].
  - reflexivity.
  - cbn [pretty_slice tree_of_slice map append json.parse_value].
    rewrite skip_space_at by reflexivity.
    replace (Bytes.eqb "[" "{") with false by reflexivity.
    replace (Bytes.eqb "[" "[") with true by reflexivity.
    destruct (Z.ltb_spec json.maxNestingDepth (d + 1)); [lia|].
    reflexivity.
  - cbn [pretty_slice tree_of_slice elems] in *.
    rewrite !string_app_assoc.
    pose proof (elements_pretty k (d + 1) x l fuel rest Hv) as He.
    destruct (pretty_elems_open (S k) x l) as (tail & Ht).
    rewrite Ht in He |- *. rewrite !string_app_assoc in He |- *.
    apply array_nl; [lia|]. apply He; [cbn in Hf; lia|lia].
Qed.

(** Storing the tree of a slice gives the slice back. *)
Lemma store_tree_of v : json.store_EnvVar (tree_of v) EnvVar_zero None = (v, None).
Proof. destruct v. reflexivity. Qed.

Lemma store_trees l : json.store_elements (map tree_of l) None = (l, None).
Proof.
  induction l as [|v l IH]; [reflexivity|].
  cbn [map json.store_elements]. rewrite store_tree_of, IH. reflexivity.
Qed.

Lemma store_tree_of_slice vs :
  json.store_slice (tree_of_slice vs) nil_slice None = (vs, None).
Proof.
  destruct vs as [|l]; [reflexivity|].
  cbn [tree_of_slice json.store_slice]. rewrite store_trees. reflexivity.
Qed.

Lemma plain_variables :
  plain "timestamp" /\ plain "source_project" /\ plain "target_project"
  /\ plain "variables".
Proof. repeat split; reflexivity. Qed.

(** The parser on the layout of a report. *)
Lemma value_pretty_report (o : DryRunOutput) :
  forallb valid_EnvVar (elems (Variables o)) = true ->
  exists t s g,
    json.parse_value (json.fuel_for (pretty_report o)) 0 (pretty_report o)
    = json.Done
        (json.Object [("timestamp", json.Str t); ("source_project", json.Str s);
                      ("target_project", json.Str g);
                      ("variables", tree_of_slice (Variables o))]) "".
Proof.
  intros Hv.
  destruct plain_variables as (P1 & P2 & P3 & P4).
  destruct (value_string (Timestamp o)) as (t & Pt & _).
  destruct (value_string (SourceProject o)) as (s & Ps & _).
  destruct (value_string (TargetProject o)) as (g & Pg & _).
  exists t, s, g.
  apply (parse_with_fuel_for (15 + List.length (elems (Variables o)))).
  unfold pretty_report. rewrite ?string_app_assoc.
  cbn [Nat.add].
  apply object_nl; [unfold json.maxNestingDepth; lia|].
  apply members_cons_nl; [assumption|intros T; apply Pt|].
  apply members_cons_nl; [assumption|intros T; apply Ps|].
  apply members_cons_nl; [assumption|intros T; apply Pg|].
  rewrite <- (string_app_nil_r "}").
  apply members_last_nl; [assumption|].
  intros T. apply value_pretty_slice;
    [assumption|lia|unfold json.maxNestingDepth; lia].
Qed.

(** Reading the report back gives the variables that were written. *)
Lemma report_variables_pretty (o : DryRunOutput) :
  forallb valid_EnvVar (elems (Variables o)) = true ->
  report_variables (pretty_report o) = Some (Variables o).
Proof.
  intros Hv. destruct (value_pretty_report o Hv) as (t & s & g & Hp).
  unfold report_variables. rewrite Hp.
  cbn [json.all_space find fst String.eqb Ascii.eqb Bool.eqb].
  change (find _ _) with
    (Some ("variables", tree_of_slice (Variables o))).
  rewrite store_tree_of_slice. reflexivity.
Qed.

(** What [MarshalIndent] returns for a report is its layout. *)
Lemma MarshalIndent_report (o : DryRunOutput) data :
  json.MarshalIndent o "" "  " = Ok data -> data = pretty_report o.
Proof.
  unfold json.MarshalIndent, json.Marshal. intros H. injection H as <-.
  apply Indent_report.
Qed.

End report_facts.

(** ** Strings: trimming and escaping *)

Module text_facts.
Import Audit string_facts.

Lemma TrimRight_cons c s cutset :
  strings.TrimRight (String c s) cutset
  = match strings.TrimRight s cutset with
    | "" => if Bytes.mem c cutset then "" else String c ""
    | t => String c t
    end.
Proof. reflexivity. Qed.

(** What [TrimRight] removes is a run of bytes of the cutset. *)
Lemma TrimRight_split s cutset :
  exists t, s = strings.TrimRight s cutset ++ t /\ all_in cutset t = true.
Proof.
  induction s as [|c s (t & Hs & Ht)].
  - exists "". now split.
  - rewrite TrimRight_cons.
    destruct (strings.TrimRight s cutset) as [|d u] eqn:Hu.
    + destruct (Bytes.mem c cutset) eqn:Hc.
      * exists (String c s). split; [reflexivity|].
        cbn. rewrite Hc. cbn in Hs. now rewrite Hs.
      * exists t. split; [cbn in *; now rewrite <- Hs|exact Ht].
    + exists t. split; [|exact Ht]. cbn [append] in *. now rewrite <- Hs.
Qed.

(** What [TrimRight] returns does not end in a byte of the cutset. *)
Lemma TrimRight_last s cutset c :
  last_byte (strings.TrimRight s cutset) = Some c -> Bytes.mem c cutset = false.
Proof.
  induction s as [|d s IH]; [discriminate|].
  rewrite TrimRight_cons.
  destruct (strings.TrimRight s cutset) as [|e u] eqn:Hu.
  - destruct (Bytes.mem d cutset) eqn:Hd; [discriminate|].
    cbn. intros H. injection H as <-. exact Hd.
  - intros H. apply IH. exact H.
Qed.

Lemma TrimRight_empty s cutset :
  strings.TrimRight s cutset = "" <-> all_in cutset s = true.
Proof.
  induction s as [|c s IH]; [now split|].
  rewrite TrimRight_cons. cbn [all_in].
  destruct (strings.TrimRight s cutset) as [|e u] eqn:Hu.
  - destruct (Bytes.mem c cutset); cbn.
    + split; [intros _; now apply IH|reflexivity].
    + split; discriminate.
  - split; [discriminate|]. intros H. apply andb_prop in H.
    destruct H as [_ H]. apply IH in H. discriminate H.
Qed.

Lemma TrimRight_fixed s cutset :
  (forall c, last_byte s = Some c -> Bytes.mem c cutset = false) ->
  strings.TrimRight s cutset = s.
Proof.
  induction s as [|c s IH]; [reflexivity|]. intros H.
  rewrite TrimRight_cons. destruct s as [|d s].
  - cbn. now rewrite (H c eq_refl).
  - rewrite IH by (intros e He; apply H; exact He). reflexivity.
Qed.

(** *** [url.PathEscape] *)

Lemma escape_app a b : url.escape (a ++ b) = url.escape a ++ url.escape b.
Proof.
  induction a as [|c a IH]; [reflexivity|].
  cbn. rewrite IH. destruct (url.shouldEscape c); reflexivity.
Qed.

Lemma all_in_app cs a b : all_in cs (a ++ b) = all_in cs a && all_in cs b.
Proof.
  induction a as [|c a IH]; [reflexivity|].
  cbn. rewrite IH. now rewrite andb_assoc.
Qed.

Lemma escape_byte_segment c :
  all_in segment_bytes (url.escape (String c "")) = true.
Proof.
  revert c. apply (url_facts.all_bytes
    (fun c => all_in segment_bytes (url.escape (String c "")))).
  vm_compute. reflexivity.
Qed.

Lemma unreserved_kept c :
  Bytes.mem c unreserved = true -> url.shouldEscape c = false.
Proof.
  intros Hc.
  pose proof (url_facts.all_bytes
    (fun c => implb (Bytes.mem c unreserved) (negb (url.shouldEscape c)))
    ltac:(vm_compute; reflexivity) c) as H.
  cbv beta in H. rewrite Hc in H. cbn in H. now apply negb_true_iff in H.
Qed.

Lemma escape_unreserved s : all_in unreserved s = true -> url.escape s = s.
Proof.
  induction s as [|c s IH]; [reflexivity|].
  cbn [all_in]. intros H. apply andb_prop in H. destruct H as [Hc Hs].
  cbn [url.escape]. now rewrite (unreserved_kept c Hc), IH.
Qed.

Lemma escape_segment s : all_in segment_bytes (url.escape s) = true.
Proof.
  induction s as [|c s IH]; [reflexivity|].
  change (String c s) with (String c "" ++ s).
  now rewrite escape_app, all_in_app, escape_byte_segment, IH.
Qed.

Lemma escape_length s :
  (String.length s <= String.length (url.escape s) <= 3 * String.length s)%nat.
Proof.
  induction s as [|c s IH]; [cbn; lia|].
  cbn [url.escape]. destruct (url.shouldEscape c); cbn [String.length]; lia.
Qed.

End text_facts.

(** ** Lists of records through the encoder and the decoder *)

Module listing_facts.
Import bytes_facts View utf8_facts Checks string_facts parse_facts report_facts
  Audit.

Lemma value_valid_EnvVar (v : EnvVar) fuel d rest :
  valid_EnvVar v = true ->
  (8 <= fuel)%nat -> (d + 1 <= json.maxNestingDepth)%Z ->
  json.parse_value fuel d (json.encode v ++ rest) = json.Done (tree_of v) rest.
Proof.
  intros Hv Hf Hd. apply valid_EnvVar_fields in Hv. destruct Hv as (H1 & H2 & H3 & H4).
  destruct (value_EnvVar v) as (t & k & x & e & Hp & Ht & Hk & Hx & He).
  rewrite Hp by assumption.
  unfold tree_of. now rewrite (Ht H1), (Hk H2), (Hx H3), (He H4).
Qed.

Lemma elements_cons fuel d sv v tail l rest :
  (forall T, json.parse_value fuel d (sv ++ T) = json.Done v T) ->
  json.parse_elements fuel d tail = json.Done l rest ->
  json.parse_elements (S fuel) d (sv ++ "," ++ tail) = json.Done (v :: l) rest.
Proof.
  intros Hv Hl. cbn [json.parse_elements]. rewrite Hv.
  cbn [append]. rewrite skip_space_at by reflexivity.
  replace (Bytes.eqb "," ",") with true by reflexivity.
  rewrite Hl. reflexivity.
Qed.

Lemma elements_last fuel d sv v rest :
  (forall T, json.parse_value fuel d (sv ++ T) = json.Done v T) ->
  json.parse_elements (S fuel) d (sv ++ "]" ++ rest) = json.Done [v] rest.
Proof.
  intros Hv. cbn [json.parse_elements]. rewrite Hv.
  cbn [append]. rewrite skip_space_at by reflexivity.
  replace (Bytes.eqb "]" ",") with false by reflexivity.
  replace (Bytes.eqb "]" "]") with true by reflexivity.
  reflexivity.
Qed.

Lemma array_open fuel d tail l rest :
  (d + 1 <= json.maxNestingDepth)%Z ->
  json.parse_elements fuel (d + 1) ("{" ++ tail) = json.Done l rest ->
  json.parse_value (S fuel) d ("[" ++ "{" ++ tail) = json.Done (json.Array l) rest.
Proof.
  intros Hd H. cbn [append json.parse_value] in *.
  rewrite skip_space_at by reflexivity.
  replace (Bytes.eqb "[" "{") with false by reflexivity.
  replace (Bytes.eqb "[" "[") with true by reflexivity.
  destruct (Z.ltb_spec json.maxNestingDepth (d + 1)); [lia|].
  rewrite skip_space_at by reflexivity.
  replace (Bytes.eqb "{" "]") with false by reflexivity.
  rewrite H. reflexivity.
Qed.

Lemma encode_elems_open (x : EnvVar) l :
  exists tail, json.encode_elems (x :: l) = "{" ++ tail.
Proof.
  destruct l; cbn [json.encode_elems]; unfold json.encode, json.EnvVar_Encoder;
    rewrite ?string_app_assoc; eexists; reflexivity.
Qed.

Lemma elements_encoded d (x : EnvVar) l : forall fuel rest,
  forallb valid_EnvVar (x :: l) = true ->
  (9 + List.length l <= fuel)%nat -> (d + 1 <= json.maxNestingDepth)%Z ->
  json.parse_elements fuel d (json.encode_elems (x :: l) ++ "]" ++ rest)
  = json.Done (map tree_of (x :: l)) rest.
Proof.
  revert x. induction l as [|y l IH]; intros x fuel rest Hv Hf Hd.
  - destruct fuel as [|fuel]; [cbn in Hf; lia|].
    cbn [json.encode_elems map]. cbn in Hv. rewrite andb_true_r in Hv.
    apply elements_last. intros T.
    apply value_valid_EnvVar; [assumption| |assumption]. cbn in Hf. lia.
  - destruct fuel as [|fuel]; [cbn in Hf; lia|].
    change (json.encode_elems (x :: y :: l))
      with (json.encode x ++ "," ++ json.encode_elems (y :: l)).
    cbn [forallb] in Hv. apply andb_true_iff in Hv. destruct Hv as [Hx Hv].
    rewrite !string_app_assoc.
    change (map tree_of (x :: y :: l)) with (tree_of x :: map tree_of (y :: l)).
    apply elements_cons.
    + intros T. apply value_valid_EnvVar; [assumption| |assumption].
      cbn in Hf. lia.
    + apply IH; [exact Hv| cbn in Hf |- *; lia | assumption].
Qed.

Lemma value_encoded_slice d (vs : slice EnvVar) fuel rest :
  forallb valid_EnvVar (elems vs) = true ->
  (10 + List.length (elems vs) <= fuel)%nat -> (d + 2 <= json.maxNestingDepth)%Z ->
  json.parse_value fuel d (json.encode vs ++ rest) = json.Done (tree_of_slice vs) rest.
Proof.
  intros Hv Hf Hd. destruct fuel as [|fuel]; [lia|].
  destruct vs as [|[|x l]].
  - reflexivity.
  - cbn [json.encode json.slice_Encoder json.encode_elems tree_of_slice map append
         json.parse_value].
    rewrite skip_space_at by reflexivity.
    replace (Bytes.eqb "[" "{") with false by reflexivity.
    replace (Bytes.eqb "[" "[") with true by reflexivity.
    destruct (Z.ltb_spec json.maxNestingDepth (d + 1)); [lia|].
    reflexivity.
  - cbn [tree_of_slice elems] in *.
    change (json.encode (mk_slice (x :: l)))
      with ("[" ++ json.encode_elems (x :: l) ++ "]").
    rewrite !string_app_assoc.
    pose proof (elements_encoded (d + 1) x l fuel rest Hv) as He.
    destruct (encode_elems_open x l) as (tail & Ht).
    rewrite Ht in He |- *. rewrite !string_app_assoc in He |- *.
    apply array_open; [lia|]. apply He; [cbn in Hf; lia|lia].
Qed.

Lemma encode_slice_first (vs : slice EnvVar) :
  exists c s, json.encode vs = String c s /\ json.isSpace c = false.
Proof.
  destruct vs as [|l]; [exists "n"%char, "ull"; now split|].
  exists "["%char, (json.encode_elems l ++ "]"). now split.
Qed.

(** The decoder gives back every list that the encoder wrote. *)
Lemma Decode_encoded_slice (vs old : slice EnvVar) :
  forallb valid_EnvVar (elems vs) = true ->
  json.Decode (json.encode vs) old = (vs, None).
Proof.
  intros Hv. unfold json.Decode, json.readValue.
  destruct (encode_slice_first vs) as (c & s & Hc & Hsp).
  rewrite Hc at 1. rewrite skip_space_at by exact Hsp.
  pose proof (value_encoded_slice 0 vs (10 + List.length (elems vs)) "" Hv
                (Nat.le_refl _) ltac:(unfold json.maxNestingDepth; lia)) as Hp.
  rewrite string_app_nil_r in Hp. apply parse_with_fuel_for in Hp.
  rewrite Hp.
  change (json.store (tree_of_slice vs) old None)
    with (json.store_slice (tree_of_slice vs) old None).
  destruct vs as [|l]; [reflexivity|].
  cbn [tree_of_slice json.store_slice]. now rewrite store_trees.
Qed.

(** The members of a written report. *)
Lemma value_pretty_report_members (o : DryRunOutput) :
  forallb valid_EnvVar (elems (Variables o)) = true ->
  exists t s g,
    json.parse_value (json.fuel_for (pretty_report o)) 0 (pretty_report o)
    = json.Done
        (json.Object [("timestamp", json.Str t); ("source_project", json.Str s);
                      ("target_project", json.Str g);
                      ("variables", tree_of_slice (Variables o))]) ""
    /\ (utf8.ValidString (Timestamp o) = true -> t = Timestamp o)
    /\ (utf8.ValidString (SourceProject o) = true -> s = SourceProject o)
    /\ (utf8.ValidString (TargetProject o) = true -> g = TargetProject o).
Proof.
  intros Hv.
  destruct plain_variables as (P1 & P2 & P3 & P4).
  destruct (value_string (Timestamp o)) as (t & Pt & Ht).
  destruct (value_string (SourceProject o)) as (s & Ps & Hs).
  destruct (value_string (TargetProject o)) as (g & Pg & Hg).
  exists t, s, g. split; [|now repeat split].
  apply (parse_with_fuel_for (15 + List.length (elems (Variables o)))).
  unfold pretty_report. rewrite ?string_app_assoc.
  cbn [Nat.add].
  apply object_nl; [unfold json.maxNestingDepth; lia|].
  apply members_cons_nl; [assumption|intros T; apply Pt|].
  apply members_cons_nl; [assumption|intros T; apply Ps|].
  apply members_cons_nl; [assumption|intros T; apply Pg|].
  rewrite <- (string_app_nil_r "}").
  apply members_last_nl; [assumption|].
  intros T. apply value_pretty_slice;
    [assumption|lia|unfold json.maxNestingDepth; lia].
Qed.

Lemma report_pretty_valid (o : DryRunOutput) :
  forallb valid_EnvVar (elems (Variables o)) = true ->
  json.Valid (pretty_report o) = true
  /\ (exists t, report_string "timestamp" (pretty_report o) = Some t)
  /\ (utf8.ValidString (Timestamp o) = true ->
      report_string "timestamp" (pretty_report o) = Some (Timestamp o))
  /\ (utf8.ValidString (SourceProject o) = true ->
      report_string "source_project" (pretty_report o) = Some (SourceProject o))
  /\ (utf8.ValidString (TargetProject o) = true ->
      report_string "target_project" (pretty_report o) = Some (TargetProject o)).
Proof.
  intros Hv.
  destruct (value_pretty_report_members o Hv) as (t & s & g & Hp & Ht & Hs & Hg).
  unfold json.Valid, report_string. rewrite Hp.
  split; [reflexivity|]. split; [now exists t|].
  repeat split; intros H; cbn; f_equal; auto.
Qed.

End listing_facts.

(** ** Paths as net/url keeps and writes them *)

Module path_facts.
Import string_facts Audit text_facts.







End path_facts.

(** ** The histories of the operations and of [main] *)

Local Open Scope list_scope.

Module run_facts.
Import Shape.

Section WithEnv.

Context {E : Env}.

Lemma makeRequest_cases (c : GitLabClient) method p body :
  match makeRequest c method
          (fmt.Sprintf "projects/%s/variables" [fmt.s_ (url.PathEscape p)]) body with
  | Err e => NewRequest_check E method (endpoint c p) = Some e
  | Ok req =>
      NewRequest_check E method (endpoint c p) = None
      /\ http.Method req = method /\ http.URL req = endpoint c p
      /\ http.ReqBody req = body
  end.
Proof.
  unfold makeRequest, http_NewRequest. fold (endpoint c p).
  destruct (NewRequest_check E method (endpoint c p)); [reflexivity|].
  repeat split.
Qed.


Lemma GetVariables_listing c p (st : State E) :
  exists r w' evs,
    GetVariables c p st = (Returned r, mkState E w' (trace st ++ evs))
    /\ listing c p r evs.
Proof.
  unfold GetVariables, GetVariables_body, bind, emit, ret, httpClient_Do.
  pose proof (makeRequest_cases c "GET" p None) as Hm.
  destruct (makeRequest c "GET" _ None) as [req|e].
  - destruct Hm as (Hc & Hmeth & Hurl & _). cbn [world trace].
    destruct (Do E req (world st)) as [answer w'].
    assert (Hshape : forall r, (snd r <> None -> fst r = nil_slice) ->
      (snd r = None ->
       exists resp, answer = Ok resp /\ http.StatusCode resp = http.StatusOK
         /\ json.Decode (http.Body resp) nil_slice = (fst r, None)) ->
      listing c p r [Call_GetVariables p; Sent req answer; Ret_GetVariables (fst r) (snd r)]).
    { intros r Hr Hd. now apply listing_sent. }
    destruct answer as [resp|e].
    + destruct (http.StatusCode resp =? http.StatusNotFound).
      { eexists _, w', _. cbn [world trace fst snd]. split.
        - rewrite <- !app_assoc. reflexivity.
        - apply Hshape; [reflexivity|discriminate]. }
      destruct (negb (http.StatusCode resp =? http.StatusOK)) eqn:Hok.
      { eexists _, w', _. cbn [world trace fst snd]. split.
        - rewrite <- !app_assoc. reflexivity.
        - apply Hshape; [reflexivity|discriminate]. }
      apply negb_false_iff, Z.eqb_eq in Hok.
      destruct (json.Decode (http.Body resp) nil_slice) as [variables [e|]] eqn:Hdec.
      * eexists _, w', _. cbn [world trace fst snd]. split.
        -- rewrite <- !app_assoc. reflexivity.
        -- apply Hshape; [reflexivity|discriminate].
      * eexists _, w', _. cbn [world trace fst snd]. split.
        -- rewrite <- !app_assoc. reflexivity.
        -- apply Hshape; [cbn; congruence|]. intros _. exists resp. auto.
    + eexists _, w', _. cbn [world trace fst snd]. split.
      * rewrite <- !app_assoc. reflexivity.
      * apply Hshape; [reflexivity|discriminate].
  - eexists _, (world st), _. cbn [world trace fst snd]. split.
    + rewrite <- !app_assoc. reflexivity.
    + now apply listing_unsent.
Qed.

Lemma CreateVariable_creation c p v (st : State E) :
  exists err w' evs,
    CreateVariable c p v false st = (Returned err, mkState E w' (trace st ++ evs))
    /\ creation c p v err evs.
Proof.
  unfold CreateVariable, CreateVariable_body, bind, emit, ret, httpClient_Do.
  cbn [json.Marshal].
  pose proof (makeRequest_cases c "POST" p (Some (json.encode v))) as Hm.
  destruct (makeRequest c "POST" _ _) as [req|e].
  - destruct Hm as (Hc & Hmeth & Hurl & Hbody). cbn [world trace].
    destruct (Do E req (world st)) as [answer w'].
    assert (Hshape : forall err,
      creation c p v err [Call_CreateVariable p v false; Sent req answer; Ret_CreateVariable err]).
    { intros err. now apply creation_sent. }
    destruct answer as [resp|e].
    + destruct (negb (http.StatusCode resp =? http.StatusCreated)).
      * eexists _, w', _. cbn [world trace]. split; [|apply Hshape].
        rewrite <- !app_assoc. reflexivity.
      * eexists _, w', _. cbn [world trace]. split; [|apply Hshape].
        rewrite <- !app_assoc. reflexivity.
    + eexists _, w', _. cbn [world trace]. split; [|apply Hshape].
      rewrite <- !app_assoc. reflexivity.
  - eexists _, (world st), _. cbn [world trace]. split.
    + rewrite <- !app_assoc. reflexivity.
    + now apply creation_unsent.
Qed.

Lemma transfer_transferred c p vars : forall k (st : State E),
  exists errs w' evs,
    transfer c p vars k st
    = (Returned (Nat.iter (Obs.count_success errs) int.incr k),
       mkState E w' (trace st ++ evs))
    /\ transferred c p vars errs evs.
Proof.
  induction vars as [|v vars IH]; intros k st.
  - exists [], (world st), []. split; [|constructor].
    cbn. rewrite app_nil_r. destruct st; reflexivity.
  - cbn [transfer]. unfold bind at 1. unfold log_Printf at 1, emit at 1.
    unfold bind at 1.
    destruct (CreateVariable_creation c p v
                (mkState E (world st)
                   (trace st ++ [Logged "Transferring variable: %s" [log_s (Key v)]])))
      as (err & w1 & evs_v & Hcv & Hshape).
    rewrite Hcv. cbn [trace] in *.
    destruct err as [e|].
    + unfold bind at 1. unfold log_Printf at 1, emit at 1. cbn [world trace].
      destruct (IH k (mkState E w1
                 (((trace st ++ [Logged "Transferring variable: %s" [log_s (Key v)]]) ++ evs_v)
                  ++ [Logged "Error transferring variable %s: %v" [log_s (Key v); log_v e]])))
        as (errs & w2 & evs & Ht & Hshape').
      rewrite Ht.
      exists (Some e :: errs), w2,
        (Logged "Transferring variable: %s" [log_s (Key v)] :: evs_v
         ++ Logged "Error transferring variable %s: %v" [log_s (Key v); log_v e]
         :: evs).
      split.
      * cbn [Obs.count_success filter Obs.succeeded trace].
        rewrite <- !app_assoc. reflexivity.
      * apply transferred_failed; assumption.
    + destruct (IH (int.incr k) (mkState E w1
                 ((trace st ++ [Logged "Transferring variable: %s" [log_s (Key v)]]) ++ evs_v)))
        as (errs & w2 & evs & Ht & Hshape').
      rewrite Ht.
      exists (None :: errs), w2,
        (Logged "Transferring variable: %s" [log_s (Key v)] :: evs_v ++ evs).
      split.
      * cbn [Obs.count_success filter Obs.succeeded trace List.length].
        rewrite <- !app_assoc. cbn [app].
        rewrite <- Nat.iter_succ_r. reflexivity.
      * apply transferred_ok; assumption.
Qed.

Lemma writeDryRunOutput_run filename src tgt vars (st : State E) :
  exists now data werr w',
    json.MarshalIndent (mkDryRunOutput now src tgt vars) "" "  " = Ok data
    /\ writeDryRunOutput filename src tgt vars st
       = (Returned werr,
          mkState E w'
            (trace st ++ [Call_writeDryRunOutput filename src tgt vars;
                          Wrote filename data 420 werr;
                          Ret_writeDryRunOutput werr])).
Proof.
  unfold writeDryRunOutput, writeDryRunOutput_body, bind, emit, ret,
    time_Now_Format_RFC3339, os_WriteFile.
  cbn [world trace].
  destruct (Now_RFC3339 E (world st)) as [now w1].
  unfold json.MarshalIndent, json.Marshal. cbn [world trace].
  destruct (WriteFile E filename _ 420 w1) as [werr w2].
  exists now, (json.Indent (json.encode (mkDryRunOutput now src tgt vars)) "" "  "),
    werr, w2.
  split; [reflexivity|].
  cbn [world trace]. rewrite <- !app_assoc. reflexivity.
Qed.

Lemma bind_returned {A B} (m : M E A) (k : A -> M E B) st a st' :
  m st = (Returned a, st') -> bind m k st = k a st'.
Proof. intros H. unfold bind. now rewrite H. Qed.

Lemma bind_emit {B} ev (k : unit -> M E B) st :
  bind (emit ev) k st = k tt (mkState E (world st) (trace st ++ [ev])).
Proof. reflexivity. Qed.

Lemma bind_ret {A B} (a : A) (k : A -> M E B) st : bind (ret a) k st = k a st.
Proof. reflexivity. Qed.

(** Every run of the program has one of the four shapes. *)
Lemma run_ran (f : Flags) (w : World E) :
  ran f (fst (run f w)) (trace (snd (run f w))).
Proof.
  unfold run, main_after_Parse.
  fold (Obs.missing_flag f). fold (client_of f).
  destruct (Obs.missing_flag f) eqn:Hflags.
  { cbn. now apply ran_usage. }
  rewrite bind_ret. unfold log_Printf. rewrite bind_emit. cbn [world trace app].
  destruct (GetVariables_listing (client_of f) (sourceProject f)
              (mkState E w [fetching f])) as (r & w1 & evs & Hgv & Hl).
  rewrite (bind_returned _ _ _ _ _ Hgv). cbn [trace app] in *.
  destruct r as [vars [e|]].
  - cbn. now apply ran_listing_failed with (vars := vars).
  - rewrite bind_ret.
    destruct (dryRun f) eqn:Hdry.
    + rewrite bind_emit. cbn [world trace].
      destruct (writeDryRunOutput_run (outputFile f) (sourceProject f)
                  (targetProject f) vars
                  (mkState E w1 ((fetching f :: evs)
                     ++ [Logged "Performing dry run, writing output to %s"
                           [log_s (outputFile f)]])))
        as (now & data & werr & w2 & Hdata & Hw).
      rewrite (bind_returned _ _ _ _ _ Hw). cbn [trace].
      pose proof (ran_dry f vars evs now data werr Hflags Hdry Hl Hdata) as R.
      destruct werr as [e|]; cbn; cbn in R;
        rewrite <- ?app_assoc; cbn [app]; rewrite <- ?app_assoc; exact R.
    + rewrite bind_emit. cbn [world trace].
      destruct (transfer_transferred (client_of f) (targetProject f) (elems vars) 0
                  (mkState E w1 ((fetching f :: evs)
                     ++ [Logged "Starting transfer of %d variables from %s to %s"
                           [log_d (len vars); log_s (sourceProject f);
                            log_s (targetProject f)]])))
        as (errs & w2 & evs_t & Ht & Hshape).
      rewrite (bind_returned _ _ _ _ _ Ht). cbn.
      pose proof (ran_live f vars evs errs evs_t Hflags Hdry Hl Hshape) as R.
      rewrite <- ?app_assoc; cbn [app]; rewrite <- ?app_assoc. exact R.
Qed.

End WithEnv.
End run_facts.

(** ** The process from its command line *)

Module exec_facts.
Import Shape Obs.
Section WithEnv.
Context {E : Env}.

(** When [flag.Parse] returns, the process goes on as [run] says. *)
Lemma exec_Parsed args f (w : World E) :
  flag_parse args defaults = Parsed f -> exec args w = run f w.
Proof.
  intros H. unfold exec, run, main, flag_Parse, bind. rewrite H. reflexivity.
Qed.

Lemma exec_Help args (w : World E) :
  flag_parse args defaults = Help ->
  exec args w = (0, mkState E w [Usage]).
Proof.
  intros H. unfold exec, main, flag_Parse, bind. rewrite H. reflexivity.
Qed.

Lemma exec_Failed args e (w : World E) :
  flag_parse args defaults = Failed e ->
  exec args w = (2, mkState E w [Complained e; Usage]).
Proof.
  intros H. unfold exec, main, flag_Parse, bind. rewrite H. reflexivity.
Qed.

(** Every value of the flags is read from a command line, so what is
    proved of [run f w] for all [f] is proved of runs of the process. *)
Lemma Flags_Parsed f :
  flag_parse
    [("-gitlab-url=" ++ gitlabURL f)%string; ("-token=" ++ token_flag f)%string;
     ("-source=" ++ sourceProject f)%string; ("-target=" ++ targetProject f)%string;
     if dryRun f then "-dry-run=true"%string else "-dry-run=false"%string;
     ("-output=" ++ outputFile f)%string]
    defaults
  = Parsed f.
Proof. destruct f as [u t s g [|] o]; reflexivity. Qed.

Lemma run_is_exec f (w : World E) :
  exists args, flag_parse args defaults = Parsed f /\ exec args w = run f w.
Proof.
  eexists. split; [apply Flags_Parsed|]. apply exec_Parsed, Flags_Parsed.
Qed.

End WithEnv.
End exec_facts.

Module obs_facts.
Import Shape Obs run_facts View decode_facts.

Create Rewrite HintDb obs.

Lemma creation_calls_app a b : creation_calls (a ++ b) = creation_calls a ++ creation_calls b.
Proof. apply flat_map_app. Qed.
Lemma creation_results_app a b :
  creation_results (a ++ b) = creation_results a ++ creation_results b.
Proof. apply flat_map_app. Qed.
Lemma listing_results_app a b :
  listing_results (a ++ b) = listing_results a ++ listing_results b.
Proof. apply flat_map_app. Qed.
Lemma requests_app a b : requests (a ++ b) = requests a ++ requests b.
Proof. apply flat_map_app. Qed.
Lemma posted_app a b : posted (a ++ b) = posted a ++ posted b.
Proof. unfold posted. rewrite requests_app. apply flat_map_app. Qed.
Lemma files_written_app a b : files_written (a ++ b) = files_written a ++ files_written b.
Proof. apply flat_map_app. Qed.
Lemma failure_logs_app a b : failure_logs (a ++ b) = failure_logs a ++ failure_logs b.
Proof. apply flat_map_app. Qed.
Lemma summaries_app a b : summaries (a ++ b) = summaries a ++ summaries b.
Proof. apply flat_map_app. Qed.

#[export] Hint Rewrite creation_calls_app creation_results_app listing_results_app
  requests_app posted_app files_written_app failure_logs_app summaries_app : obs.

Section WithEnv.

Context {E : Env}.

(** What a call of [GetVariables] leaves in the history. *)
Lemma listing_obs c p r evs :
  listing c p r evs ->
  creation_calls evs = [] /\ creation_results evs = [] /\ listing_results evs = [r]
  /\ posted evs = [] /\ files_written evs = [] /\ failure_logs evs = []
  /\ summaries evs = [].
Proof.
  intros H. destruct H as [e He | req answer r Hc Hm Hu Hr Hd].
  - repeat split.
  - destruct r as [vs err]. unfold posted. cbn. rewrite Hm. repeat split.
Qed.

Lemma creation_obs c p v err evs :
  creation c p v err evs ->
  creation_calls evs = [(p, v, false)] /\ creation_results evs = [err]
  /\ listing_results evs = []
  /\ posted evs = match NewRequest_check E "POST" (endpoint c p) with
                  | None => [Some (json.encode v)]
                  | Some _ => []
                  end
  /\ files_written evs = [] /\ failure_logs evs = [] /\ summaries evs = [].
Proof.
  intros H. destruct H as [e He | req answer err Hc Hm Hu Hb].
  - rewrite He. repeat split.
  - rewrite Hc. unfold posted. cbn. rewrite Hm, Hb. repeat split.
Qed.

Lemma transferred_obs c p vars errs evs :
  transferred c p vars errs evs ->
  creation_calls evs = map (fun v => (p, v, false)) vars
  /\ creation_results evs = errs
  /\ List.length errs = List.length vars
  /\ listing_results evs = []
  /\ posted evs = match NewRequest_check E "POST" (endpoint c p) with
                  | None => map (fun v => Some (json.encode v)) vars
                  | Some _ => []
                  end
  /\ files_written evs = [] /\ failure_logs evs = failures vars errs
  /\ summaries evs = [].
Proof.
  induction 1 as [| v vars errs evs_v evs Hv Ht IH | v e vars errs evs_v evs Hv Ht IH].
  - cbn. destruct (NewRequest_check _ _ _); repeat split.
  - destruct IH as (I1 & I2 & I3 & I4 & I5 & I6 & I7 & I8).
    destruct (creation_obs _ _ _ _ _ Hv) as (C1 & C2 & C3 & C4 & C5 & C6 & C7).
    change (?x :: evs_v ++ evs) with ([x] ++ evs_v ++ evs).
    autorewrite with obs.
    rewrite I1, I2, I4, I5, I6, I7, I8, C1, C2, C3, C4, C5, C6, C7.
    cbn. rewrite I3. destruct (NewRequest_check _ _ _); repeat split.
  - destruct IH as (I1 & I2 & I3 & I4 & I5 & I6 & I7 & I8).
    destruct (creation_obs _ _ _ _ _ Hv) as (C1 & C2 & C3 & C4 & C5 & C6 & C7).
    change (?x :: evs_v ++ ?y :: evs) with ([x] ++ evs_v ++ [y] ++ evs).
    autorewrite with obs.
    rewrite I1, I2, I4, I5, I6, I7, I8, C1, C2, C3, C4, C5, C6, C7.
    cbn. rewrite I3. destruct (NewRequest_check _ _ _); repeat split.
Qed.

(** What [GetVariables] returns without error came out of the decoder. *)
Lemma listing_valid c p vars evs :
  listing (E := E) c p (vars, None) evs ->
  forallb valid_EnvVar (elems vars) = true.
Proof.
  intros H. inversion H as [| req answer r Hc Hm Hu Hr Hd Heq]; subst.
  destruct (Hd eq_refl) as (resp & _ & _ & Hdec).
  eapply Decode_valid. exact Hdec.
Qed.

End WithEnv.
End obs_facts.

(** ** Properties of the tool *)

Module claims.
Import Shape Obs run_facts exec_facts obs_facts View report_facts.

Ltac obs_norm :=
  repeat match goal with
  | |- context [?x :: ?a ++ ?b] => change (x :: a ++ b) with ([x] ++ a ++ b)
  end;
  autorewrite with obs.

Lemma iter_incr n k :
  0 <= k -> k + Z.of_nat n < 2 ^ 63 ->
  Nat.iter n int.incr k = k + Z.of_nat n.
Proof.
  revert k. induction n as [|n IH]; intros k Hk Hn.
  - cbn. lia.
  - rewrite Nat.iter_succ_r, IH.
    + unfold int.incr, int.wrap. rewrite Z.mod_small; lia.
    + unfold int.incr, int.wrap. rewrite Z.mod_small; lia.
    + unfold int.incr, int.wrap. rewrite Z.mod_small; lia.
Qed.

Lemma count_success_le errs : (count_success errs <= List.length errs)%nat.
Proof. unfold count_success. apply filter_length_le. Qed.

Lemma count_success_failed errs :
  (count_success errs + List.length (filter failed errs) = List.length errs)%nat.
Proof.
  unfold count_success, failed. induction errs as [|[e|] errs IH]; cbn; lia.
Qed.

(** With exactly one failed call, one variable accounts for the only
    failure message. *)
Lemma one_failure vars : forall errs,
  List.length errs = List.length vars ->
  List.length (filter failed errs) = 1%nat ->
  exists i v e,
    nth_error vars i = Some v /\ nth_error errs i = Some (Some e)
    /\ failures vars errs = [(Key v, e)]
    /\ forall j, j <> i -> (j < List.length vars)%nat -> nth_error errs j = Some None.
Proof.
  induction vars as [|v vars IH]; intros [|[e|] errs] Hlen Hone;
    try discriminate.
  - cbn in Hone. injection Hlen as Hlen. injection Hone as Hone.
    exists 0%nat, v, e. repeat split.
    + cbn. f_equal.
      clear IH. revert errs Hlen Hone.
      induction vars as [|v' vars IH]; intros [|[e'|] errs] Hlen Hone;
        try discriminate; try reflexivity.
      cbn in *. apply IH; [now injection Hlen | assumption].
    + intros [|j] Hj Hlt; [congruence|]. cbn in *.
      assert (Hall : forall x, In x errs -> x = None).
      { intros [x|] Hin; [|reflexivity].
        assert (Hf : In (Some x) (filter failed errs))
          by (apply filter_In; split; [assumption|reflexivity]).
        destruct (filter failed errs); [contradiction|discriminate]. }
      destruct (nth_error errs j) as [x|] eqn:Hn.
      * apply nth_error_In in Hn. now rewrite (Hall _ Hn).
      * apply nth_error_None in Hn. lia.
  - cbn in Hone. injection Hlen as Hlen.
    destruct (IH errs Hlen Hone) as (i & v' & e & Hv & He & Hf & Hothers).
    exists (S i), v', e. repeat split; try assumption.
    intros [|j] Hj Hlt; [reflexivity|]. cbn in *. apply Hothers; lia.
Qed.

Ltac run_cases f w :=
  let R := fresh "R" in
  let code := fresh "code" in
  let tr := fresh "tr" in
  pose proof (run_ran f w) as R;
  remember (fst (run f w)) as code eqn:Hcode;
  remember (trace (snd (run f w))) as tr eqn:Htr;
  destruct R as [Hflags
                | vars0 e0 evs Hflags Hl
                | vars0 evs now data werr Hflags Hdry Hl Hdata
                | vars0 evs errs evs_t Hflags Hdry Hl Ht].

Section WithEnv.

Context {E : Env}.

(** The observations of a live run that fetched [vars]. *)
Lemma live_obs f vars evs errs evs_t :
  listing (client_of f) (sourceProject f) (vars, None) evs ->
  transferred (client_of f) (targetProject f) (elems vars) errs evs_t ->
  let tr :=
    fetching f :: evs
    ++ Logged "Starting transfer of %d variables from %s to %s"
         [log_d (len vars); log_s (sourceProject f); log_s (targetProject f)]
    :: evs_t
    ++ [Logged "Transfer completed. Successfully transferred %d/%d variables"
          [log_d (Nat.iter (count_success errs) int.incr 0); log_d (len vars)]] in
  creation_calls tr = map (fun v => (targetProject f, v, false)) (elems vars)
  /\ creation_results tr = errs
  /\ List.length errs = List.length (elems vars)
  /\ listing_results tr = [(vars, None)]
  /\ posted tr = match NewRequest_check E "POST"
                        (endpoint (client_of f) (targetProject f)) with
                 | None => map (fun v => Some (json.encode v)) (elems vars)
                 | Some _ => []
                 end
  /\ files_written tr = []
  /\ failure_logs tr = failures (elems vars) errs
  /\ summaries tr = [(Nat.iter (count_success errs) int.incr 0, len vars)].
Proof.
  intros Hl Ht tr. subst tr.
  destruct (listing_obs _ _ _ _ Hl) as (L1 & L2 & L3 & L4 & L5 & L6 & L7).
  destruct (transferred_obs _ _ _ _ _ Ht) as (T1 & T2 & T3 & T4 & T5 & T6 & T7 & T8).
  change (fetching f :: evs ++ ?x :: evs_t ++ ?y)
    with ([fetching f] ++ evs ++ [x] ++ evs_t ++ y).
  autorewrite with obs.
  rewrite L1, L2, L3, L4, L5, L6, L7, T1, T2, T4, T5, T6, T7, T8.
  cbn. rewrite !app_nil_r. repeat split; assumption.
Qed.

Lemma dry_obs f vars evs data werr last :
  listing (client_of f) (sourceProject f) (vars, None) evs ->
  (creation_calls [last] = [] /\ creation_results [last] = [] /\ listing_results [last] = []
   /\ posted [last] = [] /\ files_written [last] = [] /\ summaries [last] = []) ->
  let tr :=
    fetching f :: evs
    ++ [Logged "Performing dry run, writing output to %s" [log_s (outputFile f)];
        Call_writeDryRunOutput (outputFile f) (sourceProject f) (targetProject f) vars;
        Wrote (outputFile f) data 420 werr;
        Ret_writeDryRunOutput werr;
        last] in
  creation_calls tr = [] /\ creation_results tr = []
  /\ listing_results tr = [(vars, None)] /\ posted tr = []
  /\ files_written tr = [(outputFile f, data)] /\ summaries tr = [].
Proof.
  intros Hl (A1 & A2 & A3 & A4 & A5 & A6) tr. subst tr.
  destruct (listing_obs _ _ _ _ Hl) as (L1 & L2 & L3 & L4 & L5 & L6 & L7).
  change (fetching f :: evs ++ [?a; ?b; ?c; ?d; last])
    with ([fetching f] ++ evs ++ [a; b; c; d] ++ [last]).
  autorewrite with obs.
  rewrite L1, L2, L3, L4, L5, L7, A1, A2, A3, A4, A5, A6.
  repeat split.
Qed.

Lemma failed_obs f vars e evs :
  listing (client_of f) (sourceProject f) (vars, Some e) evs ->
  let tr :=
    fetching f :: evs
    ++ [Logged "Error getting variables from source project: %v" [log_v e]] in
  creation_calls tr = [] /\ creation_results tr = []
  /\ listing_results tr = [(vars, Some e)] /\ posted tr = []
  /\ files_written tr = [] /\ summaries tr = [].
Proof.
  intros Hl tr. subst tr.
  destruct (listing_obs _ _ _ _ Hl) as (L1 & L2 & L3 & L4 & L5 & L6 & L7).
  change (fetching f :: evs ++ ?y) with ([fetching f] ++ evs ++ y).
  autorewrite with obs.
  rewrite L1, L2, L3, L4, L5, L7. repeat split.
Qed.

Lemma missing_flag_iff f :
  missing_flag f = true <->
  gitlabURL f = "" \/ token_flag f = "" \/ sourceProject f = "" \/ targetProject f = "".
Proof.
  unfold missing_flag, is_empty. rewrite !orb_true_iff, !String.eqb_eq. tauto.
Qed.

Lemma last_dry_obs werr (vars : slice EnvVar) :
  let last := match werr with
              | None => Logged "Dry run completed. Found %d variables to transfer"
                          [log_d (len vars)]
              | Some e => Logged "Error writing dry run output: %v" [log_v e]
              end in
  creation_calls [last] = [] /\ creation_results [last] = [] /\ listing_results [last] = []
  /\ posted [last] = [] /\ files_written [last] = [] /\ summaries [last] = [].
Proof. destruct werr; repeat split. Qed.

Lemma run_usage f (w : World E) :
  missing_flag f = true ->
  fst (run f w) = 1 /\ trace (snd (run f w)) = usage_and_example.
Proof.
  intros H. unfold run, main_after_Parse. fold (missing_flag f). rewrite H.
  split; reflexivity.
Qed.

(** C6 (amended): an invocation is a command line.  When [flag.Parse]
    accepts it and leaves one of the four required flags empty, the
    program prints the usage text and the example invocation, exits with
    status 1, and sends no request over the network.  When the command
    line asks for help, [flag.Parse] itself prints the usage text, without
    the example, and ends the process with status 0; when the command line
    is in error, [flag.Parse] prints the error and the usage text, without
    the example, and ends the process with status 2.  In both cases the
    flags are never looked at, and nothing is sent. *)
Theorem missing_flag_prints_usage_and_exits (args : list string) (w : World E) :
  (forall f,
     flag_parse args defaults = Parsed f ->
     gitlabURL f = "" \/ token_flag f = "" \/ sourceProject f = ""
     \/ targetProject f = "" ->
     fst (exec args w) = 1
     /\ trace (snd (exec args w)) = usage_and_example
     /\ requests (trace (snd (exec args w))) = [])
  /\ (flag_parse args defaults = Help ->
      fst (exec args w) = 0
      /\ trace (snd (exec args w)) = [Usage])
  /\ (forall e,
        flag_parse args defaults = Failed e ->
        fst (exec args w) = 2
        /\ trace (snd (exec args w)) = [Complained e; Usage]).
Proof.
  split; [|split].
  - intros f Hp Hm. rewrite (exec_Parsed _ _ _ Hp).
    apply missing_flag_iff in Hm. destruct (run_usage f w Hm) as [H1 H2].
    rewrite H1, H2. repeat split.
  - intros Hp. rewrite (exec_Help _ _ Hp). split; reflexivity.
  - intros e Hp. rewrite (exec_Failed _ _ _ Hp). split; reflexivity.
Qed.

(** C3: when [GetVariables] on the source path returns an error, the
    process exits with status 1, no file is written and [CreateVariable]
    is never called (so no POST request is sent either). *)
Theorem listing_failure_is_fatal (f : Flags) (w : World E) vars e :
  In (vars, Some e) (listing_results (trace (snd (run f w)))) ->
  fst (run f w) = 1
  /\ files_written (trace (snd (run f w))) = []
  /\ creation_calls (trace (snd (run f w))) = []
  /\ posted (trace (snd (run f w))) = [].
Proof.
  run_cases f w; intros Hin.
  - cbn in Hin. contradiction.
  - destruct (failed_obs _ _ _ _ Hl) as (O1 & O2 & O3 & O4 & O5 & O6).
    repeat split; assumption.
  - destruct (dry_obs f _ _ data werr _ Hl (last_dry_obs werr vars0))
      as (O1 & O2 & O3 & O4 & O5 & O6).
    rewrite O3 in Hin. destruct Hin as [Hin|[]]. discriminate Hin.
  - destruct (live_obs _ _ _ _ _ Hl Ht) as (O1 & O2 & O3 & O4 & O5 & O6 & O7 & O8).
    rewrite O4 in Hin. destruct Hin as [Hin|[]]. discriminate Hin.
Qed.

(** C1: in a run with the dry-run flag set, [CreateVariable] is never
    called and no POST request is sent.  Whatever is written to a file is
    written to the output path and is the indented JSON encoding of the
    report whose [variables] are the slice that [GetVariables] returned;
    read back as JSON, the member [variables] of the written document is
    that slice, record for record and in the same order.  And when
    [GetVariables] returned a slice, the report is written, once. *)
Theorem dry_run_only_reports (f : Flags) (w : World E) :
  dryRun f = true ->
  creation_calls (trace (snd (run f w))) = []
  /\ posted (trace (snd (run f w))) = []
  /\ (forall name data,
        In (name, data) (files_written (trace (snd (run f w)))) ->
        name = outputFile f
        /\ exists vars now,
             listing_results (trace (snd (run f w))) = [(vars, None)]
             /\ json.MarshalIndent
                  (mkDryRunOutput now (sourceProject f) (targetProject f) vars)
                  "" "  " = Ok data
             /\ report_variables data = Some vars)
  /\ (forall vars,
        listing_results (trace (snd (run f w))) = [(vars, None)] ->
        exists data,
          files_written (trace (snd (run f w))) = [(outputFile f, data)]).
Proof.
  intros Hd. run_cases f w; try congruence.
  - split; [reflexivity|]. split; [reflexivity|].
    split; [intros name data []|]. intros vars Hv. discriminate Hv.
  - destruct (failed_obs _ _ _ _ Hl) as (O1 & O2 & O3 & O4 & O5 & O6).
    split; [assumption|]. split; [assumption|].
    split; [rewrite O5; intros name data0 []|].
    intros vars Hv. rewrite O3 in Hv. discriminate Hv.
  - destruct (dry_obs f _ _ data werr _ Hl (last_dry_obs werr vars0))
      as (O1 & O2 & O3 & O4 & O5 & O6).
    split; [assumption|]. split; [assumption|].
    rewrite O5, O3. split.
    + intros name data0 [H|[]]. injection H as <- <-.
      split; [reflexivity|]. exists vars0, now.
      split; [reflexivity|]. split; [assumption|].
      apply MarshalIndent_report in Hdata. subst data.
      apply report_variables_pretty. exact (listing_valid _ _ _ _ Hl).
    + intros vars _. exists data. reflexivity.
Qed.

(** C2: in a live run that fetched [vars], the count reported in the
    final summary is the number of [CreateVariable] calls that returned
    nil, it is at most the number of fetched variables, which is the
    second number of the summary. *)
Theorem summary_counts_successes (f : Flags) (w : World E) vars :
  dryRun f = false ->
  listing_results (trace (snd (run f w))) = [(vars, None)] ->
  len vars < 2 ^ 63 ->
  summaries (trace (snd (run f w)))
  = [(Z.of_nat (count_success (creation_results (trace (snd (run f w))))),
      len vars)]
  /\ Z.of_nat (count_success (creation_results (trace (snd (run f w)))))
     <= len vars.
Proof.
  intros Hd Hlist Hlen. run_cases f w; try congruence.
  - discriminate Hlist.
  - destruct (failed_obs _ _ _ _ Hl) as (O1 & O2 & O3 & O4 & O5 & O6).
    rewrite O3 in Hlist. discriminate Hlist.
  - destruct (live_obs _ _ _ _ _ Hl Ht) as (O1 & O2 & O3 & O4 & O5 & O6 & O7 & O8).
    rewrite O4 in Hlist. injection Hlist as ->.
    rewrite O2, O8. pose proof (count_success_le errs) as Hle.
    unfold len in *. rewrite iter_incr by lia. split; [reflexivity | lia].
Qed.

(** C4: in a live run in which exactly one [CreateVariable] call fails,
    the loop still calls [CreateVariable] for every fetched variable, in
    order; the only failure message carries the key of the variable whose
    call failed and the error of that call; every other call succeeded;
    the summary reports N-1 of N; and the exit status is 0. *)
Theorem one_failure_is_logged_and_skipped (f : Flags) (w : World E) vars :
  listing_results (trace (snd (run f w))) = [(vars, None)] ->
  len vars < 2 ^ 63 ->
  List.length (filter failed (creation_results (trace (snd (run f w))))) = 1%nat ->
  fst (run f w) = 0
  /\ creation_calls (trace (snd (run f w)))
     = map (fun v => (targetProject f, v, false)) (elems vars)
  /\ (exists i v e,
        nth_error (elems vars) i = Some v
        /\ nth_error (creation_results (trace (snd (run f w)))) i = Some (Some e)
        /\ failure_logs (trace (snd (run f w))) = [(Key v, e)]
        /\ forall j, j <> i -> (j < List.length (elems vars))%nat ->
             nth_error (creation_results (trace (snd (run f w)))) j = Some None)
  /\ summaries (trace (snd (run f w))) = [(len vars - 1, len vars)].
Proof.
  intros Hlist Hlen Hone. run_cases f w.
  - discriminate Hlist.
  - destruct (failed_obs _ _ _ _ Hl) as (O1 & O2 & O3 & O4 & O5 & O6).
    rewrite O3 in Hlist. discriminate Hlist.
  - destruct (dry_obs f _ _ data werr _ Hl (last_dry_obs werr vars0))
      as (O1 & O2 & O3 & O4 & O5 & O6).
    rewrite O2 in Hone. discriminate Hone.
  - destruct (live_obs _ _ _ _ _ Hl Ht) as (O1 & O2 & O3 & O4 & O5 & O6 & O7 & O8).
    rewrite O4 in Hlist. injection Hlist as ->.
    rewrite O1, O2, O7, O8 in *.
    split; [reflexivity|]. split; [reflexivity|]. split.
    + apply one_failure; assumption.
    + pose proof (count_success_failed errs) as Hc.
      unfold len in *. rewrite iter_incr by lia.
      do 2 f_equal. lia.
Qed.

(** C10: [GetVariables] always returns, and whenever the error it
    returns is not nil, the slice it returns is nil. *)
Theorem GetVariables_error_returns_nil (c : GitLabClient) (p : string)
    (st : State E) :
  exists r st',
    GetVariables c p st = (Returned r, st')
    /\ (snd r <> None -> fst r = nil_slice).
Proof.
  destruct (GetVariables_listing c p st) as (r & w' & evs & Hgv & Hl).
  exists r, (mkState E w' (trace st ++ evs)). split; [exact Hgv|].
  destruct Hl; [reflexivity | assumption].
Qed.

End WithEnv.

(** C6 as stated fails: with [-h] on the command line all four required
    flags are the empty string, yet the program prints the usage text
    without the example and exits with status 0; with a flag that lacks
    its value the example is not printed either, and the status is 2. *)
Lemma help_is_no_missing_flag_exit :
  flag_parse ["-h"%string] defaults = Help
  /\ gitlabURL defaults = ""%string /\ token_flag defaults = ""%string
  /\ sourceProject defaults = ""%string /\ targetProject defaults = ""%string
  /\ fst (exec (E := Examples.scripted) ["-h"%string] []) = 0
  /\ trace (snd (exec (E := Examples.scripted) ["-h"%string] [])) = [Usage]
  /\ fst (exec (E := Examples.scripted) ["-token"%string] []) = 2
  /\ trace (snd (exec (E := Examples.scripted) ["-token"%string] []))
     = [Complained (flag_needs_argument "token"); Usage].
Proof. repeat split. Qed.

End claims.

Module claims_url.
Import Shape Obs Audit run_facts obs_facts string_facts path_facts.


Lemma mem_app c (a b : string) :
  Bytes.mem c (a ++ b)%string = Bytes.mem c a || Bytes.mem c b.
Proof.
  induction a as [|d a IH]; [reflexivity|].
  cbn. rewrite IH. now rewrite orb_assoc.
Qed.



Lemma endpoint_eq c p :
  endpoint c p
  = (baseURL c ++ "/api/v4/projects/" ++ url.PathEscape p ++ "/variables")%string.
Proof.
  unfold endpoint. cbn [fmt.Sprintf fmt.render Bytes.eqb Ascii.eqb Bool.eqb append].
  rewrite !string_app_nil_r. reflexivity.
Qed.


Section WithEnv.

Context {E : Env}.

Lemma makeRequest_NewRequest (c : GitLabClient) method p body :
  makeRequest c method
    (fmt.Sprintf "projects/%s/variables" [fmt.s_ (url.PathEscape p)]) body
  = match http_NewRequest E method
            (baseURL c ++ "/api/v4/projects/" ++ url.PathEscape p ++ "/variables")%string
            body with
    | Err e => Err e
    | Ok r =>
        Ok (http.Header_Set "Content-Type" "application/json"
              (http.Header_Set "PRIVATE-TOKEN" (token c) r))
    end.
Proof.
  unfold makeRequest.
  cbn [fmt.Sprintf fmt.render Bytes.eqb Ascii.eqb Bool.eqb append].
  rewrite !string_app_nil_r. reflexivity.
Qed.


End WithEnv.



End claims_url.

Module claims_codec.
Import Shape Obs run_facts obs_facts claims View string_facts parse_facts decode_facts store_facts.

Lemma Decode_encode (v old : EnvVar) :
  valid_EnvVar v = true -> json.Decode (json.encode v) old = (v, None).
Proof.
  intros Hv. apply valid_EnvVar_fields in Hv. destruct Hv as (H1 & H2 & H3 & H4).
  destruct (value_EnvVar v) as (t & k & x & e & Hp & Ht & Hk & Hx & He).
  unfold json.Decode, json.readValue.
  pose proof (encode_EnvVar_length v) as Hlen.
  specialize (Hp (json.fuel_for (json.encode v)) 0 ""%string).
  rewrite string_app_nil_r in Hp.
  assert (Hs : json.skip_space (json.encode v) = json.encode v) by reflexivity.
  rewrite Hs.
  destruct (json.encode v) as [|c enc] eqn:Henc; [cbn in Hlen; lia|].
  rewrite Hp by (unfold json.fuel_for, json.maxNestingDepth; lia).
  rewrite store_tree.
  rewrite (Ht H1), (Hk H2), (Hx H3), (He H4). destruct v; reflexivity.
Qed.

(** C5 (amended): for every [EnvVar] whose four string fields are valid
    UTF-8 (every record that [GetVariables] returns is one), encoding
    with [json.Marshal] and decoding the result, with [json.Unmarshal] or
    with a [Decoder], into any [EnvVar] variable yields the original
    record in all six fields, without error. *)
Theorem EnvVar_json_round_trip (v old : EnvVar) (data : string) :
  valid_EnvVar v = true ->
  json.Marshal v = Ok data ->
  json.Unmarshal data old = (v, None) /\ json.Decode data old = (v, None).
Proof.
  intros Hv Hm. injection Hm as <-. split.
  - apply valid_EnvVar_fields in Hv. destruct Hv as (H1 & H2 & H3 & H4).
    now apply Unmarshal_encode.
  - now apply Decode_encode.
Qed.

Lemma EnvVar_json_round_trip_witness :
  valid_EnvVar Examples.var_b = true
  /\ json.Marshal Examples.var_b = Ok (json.encode Examples.var_b)
  /\ json.Unmarshal (json.encode Examples.var_b) EnvVar_zero = (Examples.var_b, None)
  /\ json.Decode (json.encode Examples.var_b) EnvVar_zero = (Examples.var_b, None).
Proof.
  split; [reflexivity|]. split; [reflexivity|].
  apply (EnvVar_json_round_trip Examples.var_b EnvVar_zero); reflexivity.
Defined.

(** C5 as stated fails: a record whose value is the byte 0xFF is encoded
    with the replacement character U+FFFD in its place, and decoding
    gives a record with another value. *)
Lemma invalid_utf8_does_not_round_trip :
  json.Marshal Examples.var_invalid
  = Ok (json.encode Examples.var_invalid)
  /\ Value (fst (json.Unmarshal (json.encode Examples.var_invalid) EnvVar_zero))
     = String "239" (String "191" (String "189" ""))
  /\ fst (json.Unmarshal (json.encode Examples.var_invalid) EnvVar_zero)
     <> Examples.var_invalid.
Proof.
  split; [reflexivity|]. split; [vm_compute; reflexivity|].
  vm_compute. discriminate.
Qed.

Section WithEnv.

Context {E : Env}.

Lemma GetVariables_classify c p (st : State E) req :
  makeRequest c "GET"
    (fmt.Sprintf "projects/%s/variables" [fmt.s_ (url.PathEscape p)]) None = Ok req ->
  fst (GetVariables c p st)
  = Returned (Spec.returned (Spec.classify p (fst (Do E req (world st))))).
Proof.
  intros Hreq.
  unfold GetVariables, GetVariables_body, bind, emit, ret, httpClient_Do.
  rewrite Hreq. cbn [world trace].
  destruct (Do E req (world st)) as [[resp|e] w']; cbn [fst Spec.classify];
    [|reflexivity].
  change http.StatusNotFound with 404. change http.StatusOK with 200.
  destruct (http.StatusCode resp =? 404).
  { cbn [fst Spec.returned]. unfold fmt.Errorf.
    cbn [fmt.Sprintf fmt.render Bytes.eqb Ascii.eqb Bool.eqb].
    rewrite string_app_nil_r. reflexivity. }
  destruct (negb (http.StatusCode resp =? 200)).
  { cbn [fst Spec.returned]. unfold fmt.Errorf.
    cbn [fmt.Sprintf fmt.render Bytes.eqb Ascii.eqb Bool.eqb].
    rewrite string_app_nil_r. reflexivity. }
  destruct (json.Decode (http.Body resp) nil_slice) as [vars [e|]]; reflexivity.
Qed.

(** C8 (amended): when the request can be built, what [GetVariables]
    returns is decided by the answer as the specification says, with one
    difference in the last case: on status 200 the call succeeds exactly
    when the first JSON value of the body can be read and fits a
    [[]EnvVar]; what follows that value in the body is not examined. *)
Theorem GetVariables_outcomes (c : GitLabClient) (p : string) (st : State E)
    (req : http.Request) :
  makeRequest c "GET"
    (fmt.Sprintf "projects/%s/variables" [fmt.s_ (url.PathEscape p)]) None = Ok req ->
  let answer := fst (Do E req (world st)) in
  fst (GetVariables c p st) = Returned (Spec.returned (Spec.classify p answer))
  /\ (snd (Spec.returned (Spec.classify p answer)) = None <->
      exists resp v rest,
        answer = Ok resp /\ http.StatusCode resp = 200
        /\ json.readValue (http.Body resp) = json.Done v rest
        /\ Spec.fits_slice v = true).
Proof.
  intros Hreq answer. split; [now apply GetVariables_classify|].
  subst answer. destruct (fst (Do E req (world st))) as [resp|e]; cbn [Spec.classify].
  - destruct (http.StatusCode resp =? 404) eqn:H404.
    { cbn. split; [discriminate|]. intros (resp' & v & rest & Heq & H200 & _).
      injection Heq as <-. lia. }
    destruct (negb (http.StatusCode resp =? 200)) eqn:H200.
    { cbn. split; [discriminate|]. intros (resp' & v & rest & Heq & H200' & _).
      injection Heq as <-. lia. }
    pose proof (Decode_fits (http.Body resp) nil_slice) as Hd.
    destruct (json.Decode (http.Body resp) nil_slice) as [vars [e|]];
      cbn [snd Spec.returned] in *.
    + split; [discriminate|]. intros (resp' & v & rest & Heq & _ & Hr & Hf).
      injection Heq as <-. apply Hd. eauto.
    + split; [|reflexivity]. intros _.
      destruct (proj1 Hd eq_refl) as (v & rest & Hr & Hf).
      exists resp, v, rest. repeat split; try assumption. lia.
  - cbn. split; [discriminate|]. intros (resp & v & rest & Heq & _). discriminate.
Qed.

End WithEnv.

Lemma GetVariables_outcomes_witness :
  let st := mkState Examples.scripted [Examples.ok 200 Examples.listing] [] in
  let req := http.mkRequest "GET"
               "https://gitlab.example.com/api/v4/projects/group%2Fapp/variables"
               [("PRIVATE-TOKEN", "secret"); ("Content-Type", "application/json")]
               None in
  makeRequest (E := Examples.scripted) Examples.client "GET"
    (fmt.Sprintf "projects/%s/variables" [fmt.s_ (url.PathEscape "group/app")]) None
  = Ok req
  /\ fst (GetVariables (E := Examples.scripted) Examples.client "group/app" st)
     = Returned (mk_slice [Examples.var_a; Examples.var_b], None).
Proof.
  split; [reflexivity|].
  pose proof (GetVariables_outcomes (E := Examples.scripted) Examples.client
                "group/app"
                (mkState Examples.scripted [Examples.ok 200 Examples.listing] [])
                _ eq_refl) as H.
  destruct H as [H _]. rewrite H. vm_compute. reflexivity.
Defined.

(** C8 as stated fails: on status 200 with the body [[]x], which is not a
    JSON document, [GetVariables] succeeds with an empty list. *)
Lemma trailing_bytes_are_accepted :
  json.Valid Examples.trailing_body = false
  /\ fst (GetVariables (E := Examples.scripted) Examples.client "group/app"
            (mkState Examples.scripted [Examples.ok 200 Examples.trailing_body] []))
     = Returned (mk_slice [], None).
Proof. split; vm_compute; reflexivity. Qed.

End claims_codec.

Module claims_transfer.
Import Shape Obs run_facts obs_facts claims View string_facts parse_facts
  decode_facts store_facts claims_codec.

Section WithEnv.

Context {E : Env}.

(** When [http.NewRequest] rejects the URL of the target, every call of
    the loop returns its error. *)
Lemma transferred_rejected c p vars errs evs e :
  transferred (E := E) c p vars errs evs ->
  NewRequest_check E "POST" (endpoint c p) = Some e ->
  errs = map (fun _ => Some e) vars.
Proof.
  intros H Hc.
  induction H as [| v vars errs evs_v evs Hv Ht IH | v e' vars errs evs_v evs Hv Ht IH].
  - reflexivity.
  - inversion Hv as [e0 He0 | req answer err He0]; congruence.
  - cbn [map]. rewrite <- IH. f_equal.
    inversion Hv as [e0 He0 | req answer err He0]; congruence.
Qed.

(** C9: in a live run that fetched [vars], [CreateVariable] is called
    once per fetched record, in order, with that very record, the target
    path and [dryRun = false].  The bodies of the POST requests are, in
    order, [json.Marshal] of these records, one per record; only when
    [http.NewRequest] rejects the URL of the target is no request made,
    and then every call returns that error.  Each body decodes to the
    fetched record, equal in all six fields. *)
Theorem records_are_transferred_verbatim (f : Flags) (w : World E) vars :
  dryRun f = false ->
  listing_results (trace (snd (run f w))) = [(vars, None)] ->
  creation_calls (trace (snd (run f w)))
  = map (fun v => (targetProject f, v, false)) (elems vars)
  /\ posted (trace (snd (run f w)))
     = match NewRequest_check E "POST"
               (endpoint (client_of f) (targetProject f)) with
       | None => map (fun v => Some (json.encode v)) (elems vars)
       | Some _ => []
       end
  /\ (forall e,
        NewRequest_check E "POST" (endpoint (client_of f) (targetProject f)) = Some e ->
        creation_results (trace (snd (run f w)))
        = map (fun _ => Some e) (elems vars))
  /\ Forall (fun v => forall data old,
               json.Marshal v = Ok data -> json.Unmarshal data old = (v, None))
       (elems vars).
Proof.
  intros Hd Hlist. run_cases f w; try congruence.
  - discriminate Hlist.
  - destruct (failed_obs _ _ _ _ Hl) as (O1 & O2 & O3 & O4 & O5 & O6).
    rewrite O3 in Hlist. discriminate Hlist.
  - destruct (live_obs _ _ _ _ _ Hl Ht) as (O1 & O2 & O3 & O4 & O5 & O6 & O7 & O8).
    rewrite O4 in Hlist. injection Hlist as ->.
    split; [exact O1|]. split; [exact O5|]. split.
    + intros e He. rewrite O2. exact (transferred_rejected _ _ _ _ _ _ Ht He).
    + pose proof (listing_valid _ _ _ _ Hl) as Hv.
      rewrite forallb_forall in Hv. apply Forall_forall.
      intros v Hin data old Hm. injection Hm as <-.
      destruct (valid_EnvVar_fields v (Hv v Hin)) as (H1 & H2 & H3 & H4).
      now apply Unmarshal_encode.
Qed.

End WithEnv.
End claims_transfer.

(** ** The properties at concrete runs *)

Module witnesses.
Import Obs claims claims_transfer.

Lemma missing_flag_prints_usage_and_exits_witness :
  let args := ["--token"; "secret"; "--source=group/app"; "-target"; "group/copy"]%string in
  let f := mkFlags "" "secret" "group/app" "group/copy" false "env-sync-dry-run.json" in
  flag_parse args defaults = Parsed f
  /\ gitlabURL f = ""%string
  /\ fst (exec (E := Examples.scripted) args []) = 1
  /\ trace (snd (exec (E := Examples.scripted) args [])) = usage_and_example
  /\ requests (trace (snd (exec (E := Examples.scripted) args []))) = [].
Proof.
  split; [reflexivity|]. split; [reflexivity|].
  apply (proj1 (missing_flag_prints_usage_and_exits (E := Examples.scripted)
                  ["--token"; "secret"; "--source=group/app"; "-target";
                   "group/copy"]%string [])
           (mkFlags "" "secret" "group/app" "group/copy" false
              "env-sync-dry-run.json") eq_refl).
  left. reflexivity.
Defined.

Lemma listing_failure_is_fatal_witness :
  let w := [Examples.ok 404 "{}"] in
  let e := errorString "project not found: group/app" in
  In (nil_slice, Some e)
    (listing_results (trace (snd (run (E := Examples.scripted) Examples.flags_live w))))
  /\ fst (run (E := Examples.scripted) Examples.flags_live w) = 1
  /\ files_written (trace (snd (run (E := Examples.scripted) Examples.flags_live w))) = []
  /\ creation_calls (trace (snd (run (E := Examples.scripted) Examples.flags_live w))) = []
  /\ posted (trace (snd (run (E := Examples.scripted) Examples.flags_live w))) = [].
Proof.
  split; [left; vm_compute; reflexivity|].
  apply (listing_failure_is_fatal (E := Examples.scripted) Examples.flags_live
           [Examples.ok 404 "{}"] nil_slice
           (errorString "project not found: group/app")).
  left; vm_compute; reflexivity.
Defined.

Lemma dry_run_only_reports_witness :
  let w := [Examples.ok 200 Examples.listing] in
  let tr := trace (snd (run (E := Examples.scripted) Examples.flags_dry w)) in
  dryRun Examples.flags_dry = true
  /\ creation_calls tr = []
  /\ posted tr = []
  /\ (forall name data, In (name, data) (files_written tr) ->
        View.report_variables data
        = Some (mk_slice [Examples.var_a; Examples.var_b]))
  /\ exists data, files_written tr = [(outputFile Examples.flags_dry, data)].
Proof.
  split; [reflexivity|].
  destruct (dry_run_only_reports (E := Examples.scripted) Examples.flags_dry
              [Examples.ok 200 Examples.listing] eq_refl) as (H1 & H2 & H3 & H4).
  split; [assumption|]. split; [assumption|]. split.
  - intros name data Hin.
    destruct (H3 name data Hin) as (_ & vars & now & Hl & _ & Hr).
    rewrite Hr. f_equal.
    assert (Hl' : listing_results
                    (trace (snd (run (E := Examples.scripted) Examples.flags_dry
                                   [Examples.ok 200 Examples.listing])))
                  = [(mk_slice [Examples.var_a; Examples.var_b], None)])
      by (vm_compute; reflexivity).
    rewrite Hl' in Hl. injection Hl as <-. reflexivity.
  - apply (H4 (mk_slice [Examples.var_a; Examples.var_b])).
    vm_compute. reflexivity.
Defined.

(** A live run in which the first creation succeeds and the second is
    refused. *)
Lemma summary_counts_successes_witness :
  let w := [Examples.ok 200 Examples.listing; Examples.ok 201 "{}";
            Examples.ok 400 "bad"] in
  let vars := mk_slice [Examples.var_a; Examples.var_b] in
  dryRun Examples.flags_live = false
  /\ listing_results (trace (snd (run (E := Examples.scripted) Examples.flags_live w)))
     = [(vars, None)]
  /\ len vars < 2 ^ 63
  /\ summaries (trace (snd (run (E := Examples.scripted) Examples.flags_live w)))
     = [(1, 2)].
Proof.
  split; [reflexivity|]. split; [vm_compute; reflexivity|]. split; [reflexivity|].
  destruct (summary_counts_successes (E := Examples.scripted) Examples.flags_live
              [Examples.ok 200 Examples.listing; Examples.ok 201 "{}";
               Examples.ok 400 "bad"]
              (mk_slice [Examples.var_a; Examples.var_b]) eq_refl)
    as [H _]; [vm_compute; reflexivity | reflexivity |].
  rewrite H. vm_compute. reflexivity.
Defined.

Lemma one_failure_is_logged_and_skipped_witness :
  let w := [Examples.ok 200 Examples.listing; Examples.ok 201 "{}";
            Examples.ok 400 "bad"] in
  let vars := mk_slice [Examples.var_a; Examples.var_b] in
  listing_results (trace (snd (run (E := Examples.scripted) Examples.flags_live w)))
  = [(vars, None)]
  /\ len vars < 2 ^ 63
  /\ List.length
       (filter failed
          (creation_results
             (trace (snd (run (E := Examples.scripted) Examples.flags_live w)))))
     = 1%nat
  /\ fst (run (E := Examples.scripted) Examples.flags_live w) = 0
  /\ summaries (trace (snd (run (E := Examples.scripted) Examples.flags_live w)))
     = [(1, 2)].
Proof.
  split; [vm_compute; reflexivity|]. split; [reflexivity|].
  split; [vm_compute; reflexivity|].
  destruct (one_failure_is_logged_and_skipped (E := Examples.scripted)
              Examples.flags_live
              [Examples.ok 200 Examples.listing; Examples.ok 201 "{}";
               Examples.ok 400 "bad"]
              (mk_slice [Examples.var_a; Examples.var_b]))
    as (H1 & _ & _ & H4);
    [vm_compute; reflexivity | reflexivity | vm_compute; reflexivity |].
  split; [exact H1 | exact H4].
Defined.

Lemma records_are_transferred_verbatim_witness :
  let f := Examples.flags_live in
  let w := [Examples.ok 200 Examples.listing; Examples.ok 201 "{}"%string;
            Examples.ok 201 "{}"%string] in
  let vars := mk_slice [Examples.var_a; Examples.var_b] in
  dryRun f = false
  /\ listing_results (trace (snd (run (E := Examples.scripted) f w))) = [(vars, None)]
  /\ creation_calls (trace (snd (run (E := Examples.scripted) f w)))
     = [("group/copy"%string, Examples.var_a, false);
        ("group/copy"%string, Examples.var_b, false)]
  /\ posted (trace (snd (run (E := Examples.scripted) f w)))
     = [Some (json.encode Examples.var_a); Some (json.encode Examples.var_b)]
  /\ json.Unmarshal (json.encode Examples.var_b) EnvVar_zero = (Examples.var_b, None).
Proof.
  split; [reflexivity|].
  assert (Hl : listing_results
                 (trace (snd (run (E := Examples.scripted) Examples.flags_live
                                [Examples.ok 200 Examples.listing;
                                 Examples.ok 201 "{}"%string;
                                 Examples.ok 201 "{}"%string])))
               = [(mk_slice [Examples.var_a; Examples.var_b], None)])
    by (vm_compute; reflexivity).
  split; [exact Hl|].
  destruct (records_are_transferred_verbatim (E := Examples.scripted)
              Examples.flags_live
              [Examples.ok 200 Examples.listing; Examples.ok 201 "{}"%string;
               Examples.ok 201 "{}"%string]
              (mk_slice [Examples.var_a; Examples.var_b]) eq_refl Hl)
    as (H1 & H2 & _ & H4).
  split; [exact H1|]. split; [exact H2|].
  apply (Forall_inv (Forall_inv_tail H4)). reflexivity.
Defined.

End witnesses.

(** ** What the operations add to the history *)

Module hoare_facts.
Import Hoare Shape Obs Audit string_facts.
Section WithEnv.
Context {E : Env}.

Lemma appends_ret {A} P (a : A) : appends (E := E) P (ret a).
Proof. intros st. exists []. cbn. now rewrite app_nil_r. Qed.

Lemma appends_exit {A} P code : appends (E := E) (A := A) P (os_Exit code).
Proof. intros st. exists []. cbn. now rewrite app_nil_r. Qed.

Lemma appends_emit P ev : P ev -> appends (E := E) P (emit ev).
Proof. intros H st. exists [ev]. cbn. split; [reflexivity|]. now constructor. Qed.

Lemma appends_bind {A B} P (m : M E A) (k : A -> M E B) :
  appends P m -> (forall a, appends P (k a)) -> appends P (bind m k).
Proof.
  intros Hm Hk st. unfold bind.
  destruct (Hm st) as (evs & He & Hp).
  destruct (m st) as [[a|code] st1]; cbn [snd] in *.
  - destruct (Hk a st1) as (evs' & He' & Hp').
    exists (evs ++ evs'). rewrite He', He, app_assoc. split; [reflexivity|].
    apply Forall_app. now split.
  - exists evs. now split.
Qed.

Lemma appends_Do P req :
  (forall answer, P (Sent req answer)) -> appends P (httpClient_Do E req).
Proof.
  intros H st. unfold httpClient_Do.
  destruct (Do E req (world st)) as [answer w'].
  exists [Sent req answer]. cbn. split; [reflexivity|]. constructor; [apply H|constructor].
Qed.

Lemma appends_WriteFile P name data perm :
  (forall err, P (Wrote name data perm err)) ->
  appends P (os_WriteFile E name data perm).
Proof.
  intros H st. unfold os_WriteFile.
  destruct (WriteFile E name data perm (world st)) as [err w'].
  exists [Wrote name data perm err]. cbn. split; [reflexivity|].
  constructor; [apply H|constructor].
Qed.

Lemma appends_Now P : appends P (time_Now_Format_RFC3339 E).
Proof.
  intros st. unfold time_Now_Format_RFC3339.
  destruct (Now_RFC3339 E (world st)) as [t w'].
  exists []. cbn. now rewrite app_nil_r.
Qed.

Lemma appends_Fatalf {A} P format args :
  P (Logged format args) -> appends (E := E) (A := A) P (log_Fatalf format args).
Proof.
  intros H. unfold log_Fatalf. apply appends_bind; [now apply appends_emit|].
  intros _. apply appends_exit.
Qed.

Lemma appends_run P f (w : World E) :
  appends P (main_after_Parse f) -> Forall P (trace (snd (run f w))).
Proof.
  intros H. destruct (H (mkState E w [])) as (evs & He & Hp).
  unfold run. destruct (main_after_Parse f (mkState E w [])) as [[u|code] st]; cbn in *;
    rewrite He; exact Hp.
Qed.

Lemma returns_ret {A} (a : A) : returns (E := E) (ret a).
Proof. intros st. now exists a. Qed.

Lemma returns_emit ev : returns (E := E) (emit ev).
Proof. intros st. now exists tt. Qed.

Lemma returns_bind {A B} (m : M E A) (k : A -> M E B) :
  returns m -> (forall a, returns (k a)) -> returns (bind m k).
Proof.
  intros Hm Hk st. unfold bind. destruct (Hm st) as (a & Ha).
  destruct (m st) as [[a'|code] st1]; cbn in Ha; [|discriminate].
  apply Hk.
Qed.

Lemma returns_Do req : returns (httpClient_Do E req).
Proof.
  intros st. unfold httpClient_Do. destruct (Do E req (world st)) as [answer w'].
  now exists answer.
Qed.

Lemma returns_WriteFile name data perm : returns (os_WriteFile E name data perm).
Proof.
  intros st. unfold os_WriteFile.
  destruct (WriteFile E name data perm (world st)) as [err w']. now exists err.
Qed.

Lemma returns_Now : returns (time_Now_Format_RFC3339 E).
Proof.
  intros st. unfold time_Now_Format_RFC3339.
  destruct (Now_RFC3339 E (world st)) as [t w']. now exists t.
Qed.

(** *** The three operations *)

Lemma GetVariables_expected c p tgt out :
  appends (expected c p tgt out) (GetVariables c p).
Proof.
  unfold GetVariables, GetVariables_body.
  apply appends_bind; [now apply appends_emit|]. intros _.
  apply appends_bind.
  - 
    destruct (makeRequest c "GET" _ None) as [req|e] eqn:Hreq;
      [|apply appends_ret].
    apply appends_bind.
    + apply appends_Do. intros answer. left. exact Hreq.
    + intros [resp|e]; [|apply appends_ret].
      destruct (_ =? _); [apply appends_ret|].
      destruct (negb _); [apply appends_ret|].
      destruct (json.Decode _ _) as [vs [e|]]; apply appends_ret.
  - intros r. apply appends_bind; [now apply appends_emit|]. intros _.
    apply appends_ret.
Qed.

Lemma CreateVariable_expected c src p out v :
  appends (expected c src p out) (CreateVariable c p v false).
Proof.
  unfold CreateVariable, CreateVariable_body.
  apply appends_bind; [now apply appends_emit|]. intros _.
  apply appends_bind.
  - cbn [json.Marshal]. 
    destruct (makeRequest c "POST" _ _) as [req|e] eqn:Hreq;
      [|apply appends_ret].
    apply appends_bind.
    + apply appends_Do. intros answer. right. exists v. exact Hreq.
    + intros [resp|e]; [|apply appends_ret].
      destruct (negb _); apply appends_ret.
  - intros r. apply appends_bind; [now apply appends_emit|]. intros _.
    apply appends_ret.
Qed.

Lemma transfer_expected c src p out vars : forall k,
  appends (expected c src p out) (transfer c p vars k).
Proof.
  induction vars as [|v vars IH]; intros k; cbn [transfer].
  - apply appends_ret.
  - apply appends_bind; [now apply appends_emit|]. intros _.
    apply appends_bind; [apply CreateVariable_expected|].
    intros [e|]; [|apply IH].
    apply appends_bind; [now apply appends_emit|]. intros _. apply IH.
Qed.

Lemma writeDryRunOutput_expected c name src tgt vars :
  appends (E := E) (expected c src tgt name) (writeDryRunOutput name src tgt vars).
Proof.
  unfold writeDryRunOutput, writeDryRunOutput_body.
  apply appends_bind; [now apply appends_emit|]. intros _.
  apply appends_bind.
  - apply appends_bind; [apply appends_Now|]. intros now.
    cbn [json.MarshalIndent json.Marshal].
    apply appends_WriteFile. intros err. now split.
  - intros r. apply appends_bind; [now apply appends_emit|]. intros _.
    apply appends_ret.
Qed.

Lemma main_expected f :
  appends (expected (client_of f) (sourceProject f) (targetProject f) (outputFile f))
    (main_after_Parse f).
Proof.
  unfold main_after_Parse. fold (client_of f).
  apply appends_bind.
  { destruct (_ || _); [|apply appends_ret].
    repeat (apply appends_bind; [now apply appends_emit|]; intros _).
    apply appends_exit. }
  intros _. apply appends_bind; [now apply appends_emit|]. intros _.
  apply appends_bind; [apply GetVariables_expected|].
  intros [vars err]. apply appends_bind.
  { destruct err; [now apply appends_Fatalf|apply appends_ret]. }
  intros _. destruct (dryRun f).
  - apply appends_bind; [now apply appends_emit|]. intros _.
    apply appends_bind; [apply writeDryRunOutput_expected|].
    intros err'. apply appends_bind.
    { destruct err'; [now apply appends_Fatalf|apply appends_ret]. }
    intros _. now apply appends_emit.
  - apply appends_bind; [now apply appends_emit|]. intros _.
    apply appends_bind; [apply transfer_expected|].
    intros n. now apply appends_emit.
Qed.

(** The operations themselves write no line; the first two write no
    file and the third sends nothing. *)
Lemma GetVariables_silent c p : appends silent (GetVariables c p).
Proof.
  unfold GetVariables, GetVariables_body.
  apply appends_bind; [now apply appends_emit|]. intros _.
  apply appends_bind.
  - destruct (makeRequest c "GET" _ None) as [req|e]; [|apply appends_ret].
    apply appends_bind.
    + apply appends_Do. intros answer. exact I.
    + intros [resp|e]; [|apply appends_ret].
      destruct (_ =? _); [apply appends_ret|].
      destruct (negb _); [apply appends_ret|].
      destruct (json.Decode _ _) as [vs [e|]]; apply appends_ret.
  - intros r. apply appends_bind; [now apply appends_emit|]. intros _.
    apply appends_ret.
Qed.

Lemma CreateVariable_silent c p v d : appends silent (CreateVariable c p v d).
Proof.
  unfold CreateVariable, CreateVariable_body.
  apply appends_bind; [now apply appends_emit|]. intros _.
  apply appends_bind.
  - destruct d; [apply appends_ret|]. cbn [json.Marshal].
    destruct (makeRequest c "POST" _ _) as [req|e]; [|apply appends_ret].
    apply appends_bind.
    + apply appends_Do. intros answer. exact I.
    + intros [resp|e]; [|apply appends_ret].
      destruct (negb _); apply appends_ret.
  - intros r. apply appends_bind; [now apply appends_emit|]. intros _.
    apply appends_ret.
Qed.

Lemma writeDryRunOutput_offline name src tgt vars :
  appends (E := E) offline (writeDryRunOutput name src tgt vars).
Proof.
  unfold writeDryRunOutput, writeDryRunOutput_body.
  apply appends_bind; [now apply appends_emit|]. intros _.
  apply appends_bind.
  - apply appends_bind; [apply appends_Now|]. intros now.
    cbn [json.MarshalIndent json.Marshal].
    apply appends_WriteFile. intros err. exact I.
  - intros r. apply appends_bind; [now apply appends_emit|]. intros _.
    apply appends_ret.
Qed.

(** The three operations hand every failure back to their caller. *)
Lemma GetVariables_returns c p : returns (GetVariables c p).
Proof.
  unfold GetVariables, GetVariables_body.
  apply returns_bind; [apply returns_emit|]. intros _.
  apply returns_bind.
  - destruct (makeRequest c "GET" _ None) as [req|e]; [|apply returns_ret].
    apply returns_bind; [apply returns_Do|].
    intros [resp|e]; [|apply returns_ret].
    destruct (_ =? _); [apply returns_ret|].
    destruct (negb _); [apply returns_ret|].
    destruct (json.Decode _ _) as [vs [e|]]; apply returns_ret.
  - intros r. apply returns_bind; [apply returns_emit|]. intros _.
    apply returns_ret.
Qed.

Lemma CreateVariable_returns c p v d : returns (CreateVariable c p v d).
Proof.
  unfold CreateVariable, CreateVariable_body.
  apply returns_bind; [apply returns_emit|]. intros _.
  apply returns_bind.
  - destruct d; [apply returns_ret|]. cbn [json.Marshal].
    destruct (makeRequest c "POST" _ _) as [req|e]; [|apply returns_ret].
    apply returns_bind; [apply returns_Do|].
    intros [resp|e]; [|apply returns_ret].
    destruct (negb _); apply returns_ret.
  - intros r. apply returns_bind; [apply returns_emit|]. intros _.
    apply returns_ret.
Qed.

Lemma writeDryRunOutput_returns name src tgt vars :
  returns (E := E) (writeDryRunOutput name src tgt vars).
Proof.
  unfold writeDryRunOutput, writeDryRunOutput_body.
  apply returns_bind; [apply returns_emit|]. intros _.
  apply returns_bind.
  - apply returns_bind; [apply returns_Now|]. intros now.
    cbn [json.MarshalIndent json.Marshal]. apply returns_WriteFile.
  - intros r. apply returns_bind; [apply returns_emit|]. intros _.
    apply returns_ret.
Qed.

(** *** Requests *)

Lemma Sprintf_url b p :
  fmt.Sprintf "%s/api/v4/%s" [fmt.s_ b; fmt.s_ p] = (b ++ "/api/v4/" ++ p)%string.
Proof.
  cbn [fmt.Sprintf fmt.render Bytes.eqb Ascii.eqb Bool.eqb append].
  now rewrite string_app_nil_r.
Qed.

Lemma Sprintf_path p :
  fmt.Sprintf "projects/%s/variables" [fmt.s_ (url.PathEscape p)]
  = ("projects/" ++ url.PathEscape p ++ "/variables")%string.
Proof.
  cbn [fmt.Sprintf fmt.render Bytes.eqb Ascii.eqb Bool.eqb append]. reflexivity.
Qed.

(** What [makeRequest] returns: the error of [http.NewRequest], or a
    request with the method, URL and body asked for and the two headers. *)
Lemma makeRequest_built (c : GitLabClient) method path body req :
  makeRequest c method path body = Ok req ->
  http.Method req = method
  /\ http.URL req = (baseURL c ++ "/api/v4/" ++ path)%string
  /\ http.ReqBody req = body
  /\ http.Header req
     = [("PRIVATE-TOKEN"%string, token c);
        ("Content-Type"%string, "application/json"%string)].
Proof.
  unfold makeRequest, http_NewRequest. rewrite Sprintf_url.
  destruct (NewRequest_check E method _); [discriminate|].
  intros H. injection H as <-. repeat split.
Qed.

Lemma requests_Forall (P : http.Request -> Prop) tr :
  Forall (fun ev => match ev with Sent req _ => P req | _ => True end) tr ->
  Forall P (requests tr).
Proof.
  induction 1 as [|ev tr Hev _ IH]; [constructor|].
  destruct ev; cbn; try exact IH. constructor; assumption.
Qed.

Lemma run_requests f (w : World E) :
  Forall (request_for (client_of f) (sourceProject f) (targetProject f))
    (requests (trace (snd (run f w)))).
Proof.
  apply requests_Forall.
  eapply Forall_impl; [|apply appends_run, main_expected].
  intros [] H; try exact I. exact H.
Qed.

End WithEnv.
End hoare_facts.

(** ** The history of a run, line by line *)

Module audit_facts.
Import Hoare Shape Obs Audit hoare_facts string_facts run_facts obs_facts claims.

Lemma exchanges_app a b : exchanges (a ++ b) = exchanges a ++ exchanges b.
Proof. apply flat_map_app. Qed.
Lemma write_attempts_app a b :
  write_attempts (a ++ b) = write_attempts a ++ write_attempts b.
Proof. apply flat_map_app. Qed.
Lemma log_lines_app a b : log_lines (a ++ b) = log_lines a ++ log_lines b.
Proof. apply flat_map_app. Qed.
Lemma log_strings_app a b : log_strings (a ++ b) = log_strings a ++ log_strings b.
Proof. unfold log_strings. now rewrite log_lines_app, flat_map_app. Qed.
Lemma log_errors_app a b : log_errors (a ++ b) = log_errors a ++ log_errors b.
Proof. unfold log_errors. now rewrite log_lines_app, flat_map_app. Qed.

#[export] Hint Rewrite exchanges_app write_attempts_app log_lines_app
  log_strings_app log_errors_app map_app : obs.

(** Every history is cut into single events and the unknown parts. *)
Ltac audit_norm :=
  repeat match goal with
  | |- context [@cons Event ?x ?l] =>
      lazymatch l with
      | [] => fail
      | _ => change (x :: l) with ([x] ++ l)
      end
  end;
  autorewrite with obs.

Section WithEnv.
Context {E : Env}.

(** One call of [GetVariables]: at most one request, a GET; nothing is
    written and nothing is logged. *)
Lemma listing_audit c p r evs :
  listing (E := E) c p r evs ->
  write_attempts evs = [] /\ log_lines evs = []
  /\ listing_results evs = [r] /\ creation_results evs = []
  /\ (map http.Method (requests evs) = ["GET"%string]
      \/ map http.Method (requests evs) = [] /\ snd r <> None).
Proof.
  intros H. destruct H as [e He | req answer r Hc Hm Hu Hr Hd].
  - repeat split. right. split; [reflexivity|discriminate].
  - destruct r. repeat split. left. cbn. now rewrite Hm.
Qed.

Lemma creation_audit c p v err evs :
  creation (E := E) c p v err evs ->
  write_attempts evs = [] /\ log_lines evs = []
  /\ map http.Method (requests evs)
     = match NewRequest_check E "POST" (endpoint c p) with
       | None => ["POST"%string]
       | Some _ => []
       end.
Proof.
  intros H. destruct H as [e He | req answer err Hc Hm Hu Hb].
  - rewrite He. repeat split.
  - rewrite Hc. cbn. rewrite Hm. repeat split.
Qed.

Lemma transferred_audit c p vars errs evs :
  transferred (E := E) c p vars errs evs ->
  write_attempts evs = []
  /\ log_lines evs = transfer_lines vars errs
  /\ map http.Method (requests evs)
     = match NewRequest_check E "POST" (endpoint c p) with
       | None => repeat "POST"%string (List.length vars)
       | Some _ => []
       end.
Proof.
  induction 1 as [| v vars errs evs_v evs Hv Ht IH | v e vars errs evs_v evs Hv Ht IH].
  - cbn. destruct (NewRequest_check _ _ _); repeat split.
  - destruct IH as (I1 & I2 & I3).
    destruct (creation_audit _ _ _ _ _ Hv) as (C1 & C2 & C3).
    audit_norm. rewrite I1, I2, I3, C1, C2, C3.
    cbn. destruct (NewRequest_check _ _ _); repeat split.
  - destruct IH as (I1 & I2 & I3).
    destruct (creation_audit _ _ _ _ _ Hv) as (C1 & C2 & C3).
    audit_norm. rewrite I1, I2, I3, C1, C2, C3.
    cbn. destruct (NewRequest_check _ _ _); repeat split.
Qed.

(** The four shapes of a run, observed. *)
Lemma failed_audit f vars e evs :
  listing (E := E) (client_of f) (sourceProject f) (vars, Some e) evs ->
  forall tr,
  tr = fetching f :: evs
       ++ [Logged "Error getting variables from source project: %v" [log_v e]] ->
  write_attempts tr = []
  /\ log_lines tr
     = [("Fetching variables from source project: %s"%string,
         [log_s (sourceProject f)]);
        ("Error getting variables from source project: %v"%string, [log_v e])]
  /\ listing_results tr = [(vars, Some e)] /\ creation_results tr = []
  /\ (map http.Method (requests tr) = ["GET"%string]
      \/ map http.Method (requests tr) = []).
Proof.
  intros Hl tr ->.
  destruct (listing_audit _ _ _ _ Hl) as (L1 & L2 & L3 & L4 & L5).
  audit_norm. rewrite L1, L2, L3, L4. cbn.
  repeat split. rewrite app_nil_r. destruct L5 as [L5|[L5 _]]; rewrite L5; auto.
Qed.

Lemma dry_audit f vars evs data werr :
  listing (E := E) (client_of f) (sourceProject f) (vars, None) evs ->
  forall tr,
  tr = fetching f :: evs
       ++ [Logged "Performing dry run, writing output to %s" [log_s (outputFile f)];
           Call_writeDryRunOutput (outputFile f) (sourceProject f) (targetProject f) vars;
           Wrote (outputFile f) data 420 werr;
           Ret_writeDryRunOutput werr;
           match werr with
           | None =>
               Logged "Dry run completed. Found %d variables to transfer"
                 [log_d (len vars)]
           | Some e => Logged "Error writing dry run output: %v" [log_v e]
           end] ->
  write_attempts tr = [(outputFile f, 420, werr)]
  /\ log_lines tr
     = [("Fetching variables from source project: %s"%string,
         [log_s (sourceProject f)]);
        ("Performing dry run, writing output to %s"%string, [log_s (outputFile f)]);
        match werr with
        | None => ("Dry run completed. Found %d variables to transfer"%string,
                   [log_d (len vars)])
        | Some e => ("Error writing dry run output: %v"%string, [log_v e])
        end]
  /\ listing_results tr = [(vars, None)] /\ creation_results tr = []
  /\ map http.Method (requests tr) = ["GET"%string].
Proof.
  intros Hl tr ->.
  destruct (listing_audit _ _ _ _ Hl) as (L1 & L2 & L3 & L4 & L5).
  destruct L5 as [L5|[_ L5]]; [|now destruct L5].
  destruct werr; audit_norm; rewrite L1, L2, L3, L4, L5; cbn; repeat split.
Qed.

Lemma live_audit f vars evs errs evs_t n :
  listing (E := E) (client_of f) (sourceProject f) (vars, None) evs ->
  transferred (client_of f) (targetProject f) (elems vars) errs evs_t ->
  forall tr,
  tr = fetching f :: evs
       ++ Logged "Starting transfer of %d variables from %s to %s"
            [log_d (len vars); log_s (sourceProject f); log_s (targetProject f)]
       :: evs_t
       ++ [Logged "Transfer completed. Successfully transferred %d/%d variables"
             [log_d n; log_d (len vars)]] ->
  write_attempts tr = []
  /\ log_lines tr
     = ("Fetching variables from source project: %s"%string,
        [log_s (sourceProject f)])
       :: ("Starting transfer of %d variables from %s to %s"%string,
           [log_d (len vars); log_s (sourceProject f); log_s (targetProject f)])
       :: transfer_lines (elems vars) errs
       ++ [("Transfer completed. Successfully transferred %d/%d variables"%string,
            [log_d n; log_d (len vars)])]
  /\ listing_results tr = [(vars, None)] /\ creation_results tr = errs
  /\ List.length errs = List.length (elems vars)
  /\ map http.Method (requests tr)
     = "GET"%string
       :: match NewRequest_check E "POST"
                  (endpoint (client_of f) (targetProject f)) with
          | None => repeat "POST"%string (List.length (elems vars))
          | Some _ => []
          end.
Proof.
  intros Hl Ht tr ->.
  destruct (listing_audit _ _ _ _ Hl) as (L1 & L2 & L3 & L4 & L5).
  destruct L5 as [L5|[_ L5]]; [|now destruct L5].
  destruct (transferred_audit _ _ _ _ _ Ht) as (T1 & T2 & T3).
  destruct (transferred_obs _ _ _ _ _ Ht) as (_ & O2 & O3 & O4 & _).
  audit_norm. rewrite L1, L2, L3, L4, L5, T1, T2, T3, O2, O4. cbn.
  rewrite !app_nil_r. repeat split. exact O3.
Qed.

End WithEnv.
End audit_facts.

(** ** More properties of the tool *)

Module run_properties.
Import Hoare Shape Obs Audit hoare_facts audit_facts string_facts run_facts
  exec_facts obs_facts claims.

Section WithEnv.
Context {E : Env}.

(** X1: every request sent in a run has exactly two headers set by
    the program: [PRIVATE-TOKEN] with the access token given on the
    command line, and [Content-Type] with [application/json]. *)
Theorem every_request_carries_the_token (f : Flags) (w : World E) :
  Forall (fun req =>
            http.Header req
            = [("PRIVATE-TOKEN"%string, token_flag f);
               ("Content-Type"%string, "application/json"%string)])
    (requests (trace (snd (run f w)))).
Proof.
  eapply Forall_impl; [|apply run_requests].
  intros req [H|[v H]]; apply makeRequest_built in H; tauto.
Qed.

(** X2: the network traffic of a run is at most one GET without a
    body, followed by POST requests only, each with the encoding of a
    record as its body.  A dry run sends no POST; and when POSTs are sent,
    [GetVariables] had succeeded and there is exactly one POST per
    fetched variable: nothing is retried and nothing is skipped. *)
Theorem network_footprint (f : Flags) (w : World E) :
  Forall (fun req =>
            (http.Method req = "GET"%string /\ http.ReqBody req = None)
            \/ (http.Method req = "POST"%string
                /\ exists v : EnvVar, http.ReqBody req = Some (json.encode v)))
    (requests (trace (snd (run f w))))
  /\ exists n,
       (map http.Method (requests (trace (snd (run f w)))) = []
        \/ map http.Method (requests (trace (snd (run f w))))
           = "GET"%string :: repeat "POST"%string n)
       /\ (dryRun f = true -> n = 0%nat)
       /\ (n <> 0%nat ->
           exists vars,
             listing_results (trace (snd (run f w))) = [(vars, None)]
             /\ n = List.length (elems vars)).
Proof.
  split.
  { eapply Forall_impl; [|apply run_requests].
    intros req [H|[v H]]; apply makeRequest_built in H.
    - left. tauto.
    - right. split; [tauto|]. exists v. tauto. }
  run_cases f w.
  - exists 0%nat. split; [now left|]. split; [reflexivity|]. intros H; now destruct H.
  - destruct (failed_audit _ _ _ _ Hl _ eq_refl) as (_ & _ & _ & _ & A).
    exists 0%nat. split; [destruct A as [A|A]; rewrite A; auto|].
    split; [reflexivity|]. intros H; now destruct H.
  - assert (A := dry_audit f vars0 evs data werr Hl _ eq_refl).
    destruct A as (_ & _ & _ & _ & A).
    exists 0%nat. split; [right; exact A|].
    split; [reflexivity|]. intros H; now destruct H.
  - destruct (live_audit _ _ _ _ _ (Nat.iter (count_success errs) int.incr 0) Hl Ht _ eq_refl) as (_ & _ & A3 & _ & _ & A).
    destruct (NewRequest_check E "POST" _).
    + exists 0%nat. split; [right; exact A|].
      split; [reflexivity|]. intros H; now destruct H.
    + exists (List.length (elems vars0)). split; [right; exact A|].
      split; [congruence|]. intros _. exists vars0. now split.
Qed.

(** The exit status of the part of [main] that follows [flag.Parse]. *)
Lemma run_status (f : Flags) (w : World E) :
  (fst (run f w) = 0 \/ fst (run f w) = 1)
  /\ (fst (run f w) = 0 <->
      missing_flag f = false
      /\ (exists vars, listing_results (trace (snd (run f w))) = [(vars, None)])
      /\ Forall (fun a => snd a = None) (write_attempts (trace (snd (run f w)))))
  /\ (dryRun f = false ->
      (exists vars, listing_results (trace (snd (run f w))) = [(vars, None)]) ->
      fst (run f w) = 0).
Proof.
  run_cases f w.
  - split; [now right|]. split; [|intros _ [vars Hv]; discriminate Hv].
    split; [discriminate|]. intros (H & _). congruence.
  - destruct (failed_audit _ _ _ _ Hl _ eq_refl) as (_ & _ & A & _).
    split; [now right|]. rewrite A.
    split; [|intros _ [vars Hv]; discriminate Hv].
    split; [discriminate|]. intros (_ & [vars Hv] & _). discriminate Hv.
  - assert (A := dry_audit f vars0 evs data werr Hl _ eq_refl).
    destruct A as (A1 & _ & A3 & _).
    rewrite A1, A3. split; [destruct werr; auto|].
    split; [|congruence].
    destruct werr as [e|].
    + split; [discriminate|]. intros (_ & _ & H). inversion H as [|? ? H1 _].
      discriminate H1.
    + split; [|reflexivity]. intros _. split; [assumption|].
      split; [now exists vars0|]. constructor; [reflexivity|constructor].
  - destruct (live_audit _ _ _ _ _ (Nat.iter (count_success errs) int.incr 0) Hl Ht _ eq_refl) as (A1 & _ & A3 & _).
    rewrite A1, A3. split; [now left|]. split; [|reflexivity].
    split; [|reflexivity]. intros _. split; [assumption|].
    split; [now exists vars0|constructor].
Qed.

(** X3: the exit status of the process is 0, 1 or 2.  It is 2 exactly
    when [flag.Parse] finds an error on the command line.  It is 0 exactly
    when help was asked for on the command line, or the flags were read,
    none of the four required ones is empty, [GetVariables] returned
    without error and no file write failed; so a live run that fetched the
    list exits with 0 whatever the calls of [CreateVariable] return. *)
Theorem exit_status (args : list string) (w : World E) :
  (fst (exec args w) = 0 \/ fst (exec args w) = 1 \/ fst (exec args w) = 2)
  /\ (fst (exec args w) = 2 <-> exists e, flag_parse args defaults = Failed e)
  /\ (fst (exec args w) = 0 <->
      flag_parse args defaults = Help
      \/ exists f,
           flag_parse args defaults = Parsed f
           /\ missing_flag f = false
           /\ (exists vars,
                 listing_results (trace (snd (exec args w))) = [(vars, None)])
           /\ Forall (fun a => snd a = None)
                (write_attempts (trace (snd (exec args w)))))
  /\ (forall f,
        flag_parse args defaults = Parsed f ->
        dryRun f = false ->
        (exists vars, listing_results (trace (snd (exec args w))) = [(vars, None)]) ->
        fst (exec args w) = 0).
Proof.
  destruct (flag_parse args defaults) as [f| |e] eqn:Hp.
  - rewrite (exec_Parsed _ _ _ Hp).
    destruct (run_status f w) as (H1 & H2 & H3).
    split; [tauto|]. split.
    { split; [|intros [e He]; discriminate He].
      intros H. destruct H1 as [H1|H1]; rewrite H1 in H; discriminate H. }
    split.
    + rewrite H2. split.
      * intros H. right. exists f. tauto.
      * intros [H|(f' & Hf & H)]; [discriminate H|]. injection Hf as <-. exact H.
    + intros f' Hf. injection Hf as <-. exact H3.
  - rewrite (exec_Help _ _ Hp). cbn [fst snd trace].
    split; [now left|]. split.
    { split; [discriminate|]. intros [e He]. discriminate He. }
    split; [split; [now left|reflexivity]|]. intros f Hf. discriminate Hf.
  - rewrite (exec_Failed _ _ _ Hp). cbn [fst snd trace].
    split; [now right; right|]. split.
    { split; [eauto|reflexivity]. }
    split.
    + split; [discriminate|]. intros [H|(f & Hf & _)]; discriminate.
    + intros f Hf. discriminate Hf.
Qed.

(** X4: the whole of a dry run that fetched [vars]: exactly one file
    write is attempted, to the output path with mode 0644; the log is
    the line that announces the fetch, the line that announces the dry
    run, and then either the completion line with the number of
    variables and exit status 0, or, when the write failed, the line with
    its error and exit status 1. *)
Theorem dry_run_history (f : Flags) (w : World E) vars :
  dryRun f = true ->
  listing_results (trace (snd (run f w))) = [(vars, None)] ->
  exists werr,
    write_attempts (trace (snd (run f w))) = [(outputFile f, 420, werr)]
    /\ fst (run f w) = match werr with None => 0 | Some _ => 1 end
    /\ log_lines (trace (snd (run f w)))
       = [("Fetching variables from source project: %s"%string,
           [log_s (sourceProject f)]);
          ("Performing dry run, writing output to %s"%string, [log_s (outputFile f)]);
          match werr with
          | None => ("Dry run completed. Found %d variables to transfer"%string,
                     [log_d (len vars)])
          | Some e => ("Error writing dry run output: %v"%string, [log_v e])
          end].
Proof.
  intros Hd Hlist. run_cases f w; try congruence.
  - discriminate Hlist.
  - destruct (failed_audit _ _ _ _ Hl _ eq_refl) as (_ & _ & A & _).
    rewrite A in Hlist. discriminate Hlist.
  - assert (A := dry_audit f vars0 evs data werr Hl _ eq_refl).
    destruct A as (A1 & A2 & A3 & _).
    rewrite A3 in Hlist. injection Hlist as ->.
    exists werr. rewrite A1, A2. repeat split.
Qed.

(** X5: the whole log of a live run that fetched [vars]: the line that
    announces the fetch, the line that announces the transfer, then for
    every fetched variable, in order, the line with its key, followed,
    when its creation failed, by the line with its key and the error, and
    last the summary.  Every variable is attempted, however many
    creations failed before it, and the exit status is 0. *)
Theorem live_run_log (f : Flags) (w : World E) vars :
  dryRun f = false ->
  listing_results (trace (snd (run f w))) = [(vars, None)] ->
  len vars < 2 ^ 63 ->
  List.length (creation_results (trace (snd (run f w)))) = List.length (elems vars)
  /\ fst (run f w) = 0
  /\ log_lines (trace (snd (run f w)))
     = ("Fetching variables from source project: %s"%string,
        [log_s (sourceProject f)])
       :: ("Starting transfer of %d variables from %s to %s"%string,
           [log_d (len vars); log_s (sourceProject f); log_s (targetProject f)])
       :: transfer_lines (elems vars) (creation_results (trace (snd (run f w))))
       ++ [("Transfer completed. Successfully transferred %d/%d variables"%string,
            [log_d (len vars
                    - Z.of_nat (List.length
                        (filter failed (creation_results (trace (snd (run f w)))))));
             log_d (len vars)])].
Proof.
  intros Hd Hlist Hlen. run_cases f w; try congruence.
  - discriminate Hlist.
  - destruct (failed_audit _ _ _ _ Hl _ eq_refl) as (_ & _ & A & _).
    rewrite A in Hlist. discriminate Hlist.
  - destruct (live_audit _ _ _ _ _ (Nat.iter (count_success errs) int.incr 0) Hl Ht _ eq_refl) as (A1 & A2 & A3 & A4 & A5 & _).
    rewrite A3 in Hlist. injection Hlist as ->.
    rewrite A2, A4. split; [exact A5|]. split; [reflexivity|].
    pose proof (count_success_failed errs) as Hc.
    unfold len in *. rewrite iter_incr by lia.
    replace (0 + Z.of_nat (count_success errs))
      with (Z.of_nat (List.length (elems vars))
            - Z.of_nat (List.length (filter failed errs))) by lia.
    reflexivity.
Qed.

End WithEnv.
End run_properties.

Module url_properties.
Import Hoare Shape Obs Audit hoare_facts audit_facts text_facts string_facts
  run_facts obs_facts claims.

(** X6: the segment that [url.PathEscape] makes of a project path holds
    only letters, digits and the bytes [-_.~$&+=:@%]; it is at least as
    long as the path and at most three times as long; a path of letters,
    digits and [-_.~] is its own segment; and every path separator
    becomes [%2F], the parts on both sides being escaped on their own. *)
Theorem path_segment_is_url_safe (p a b : string) :
  all_in segment_bytes (url.PathEscape p) = true
  /\ (String.length p <= String.length (url.PathEscape p) <= 3 * String.length p)%nat
  /\ (all_in unreserved p = true -> url.PathEscape p = p)
  /\ url.PathEscape (a ++ "/" ++ b)%string
     = (url.PathEscape a ++ "%2F" ++ url.PathEscape b)%string.
Proof.
  unfold url.PathEscape. split; [apply escape_segment|].
  split; [apply escape_length|]. split; [apply escape_unreserved|].
  now rewrite !escape_app.
Qed.

Section WithEnv.
Context {E : Env}.

Lemma request_url c src tgt req :
  request_for (E := E) c src tgt req ->
  exists p, (p = src \/ p = tgt)
    /\ http.URL req
       = (baseURL c ++ "/api/v4/projects/" ++ url.PathEscape p ++ "/variables")%string.
Proof.
  intros [H|[v H]]; apply makeRequest_built in H;
    destruct H as (_ & H & _); rewrite Sprintf_path in H.
  - exists src. split; [now left|exact H].
  - exists tgt. split; [now right|exact H].
Qed.

(** The URL string from which a request of a run was made. *)
Lemma request_handed c src tgt req :
  request_for (E := E) c src tgt req ->
  exists p method body,
    (p = src \/ p = tgt)
    /\ handed method
         (baseURL c ++ "/api/v4/projects/" ++ url.PathEscape p ++ "/variables")%string
         body (token c) req.
Proof.
  intros [H|[v H]]; rewrite claims_url.makeRequest_NewRequest in H;
    destruct (http_NewRequest E _ _ _) as [r|e] eqn:Hr; try discriminate H;
    injection H as <-.
  - exists src, "GET"%string, None. split; [now left|]. exists r. now split.
  - exists tgt, "POST"%string, (Some (json.encode v)). split; [now right|].
    exists r. now split.
Qed.

(** X7: the base of the URL string of every request of a run is the
    value of [--gitlab-url] without its trailing slashes, and nothing else
    is removed from it: the flag is the base followed by slashes only, and
    the base does not end in a slash.  Every request is made by
    [http.NewRequest] from the string
    [base/api/v4/projects/SEGMENT/variables], the segment standing for the
    source or the target project, and gets the two headers of the
    program. *)
Theorem base_url_is_trimmed (f : Flags) (w : World E) :
  (exists t, gitlabURL f = (strings.TrimRight (gitlabURL f) "/" ++ t)%string
             /\ all_in "/" t = true)
  /\ last_byte (strings.TrimRight (gitlabURL f) "/") <> Some "/"%char
  /\ Forall (fun req =>
       exists p method body,
         (p = sourceProject f \/ p = targetProject f)
         /\ handed method
              (strings.TrimRight (gitlabURL f) "/" ++ "/api/v4/projects/"
               ++ url.PathEscape p ++ "/variables")%string
              body (token_flag f) req)
      (requests (trace (snd (run f w)))).
Proof.
  split; [apply TrimRight_split|]. split.
  - intros H. apply TrimRight_last in H. discriminate H.
  - eapply Forall_impl; [|apply run_requests].
    intros req H. apply request_handed in H. exact H.
Qed.

(** X8: the flags are checked before the URL is trimmed.  A
    [--gitlab-url] made of slashes only is not empty, so with the three
    other flags given the run goes on to call [GetVariables]; and its
    requests go to a URL that starts with [/api/v4/projects/], with no
    scheme and no host. *)
Theorem url_of_slashes_passes_the_check (f : Flags) (w : World E) :
  gitlabURL f <> ""%string ->
  all_in "/" (gitlabURL f) = true ->
  token_flag f <> ""%string ->
  sourceProject f <> ""%string ->
  targetProject f <> ""%string ->
  (exists r, listing_results (trace (snd (run f w))) = [r])
  /\ Forall (fun req =>
       exists p, (p = sourceProject f \/ p = targetProject f)
         /\ http.URL req
            = ("/api/v4/projects/" ++ url.PathEscape p ++ "/variables")%string)
      (requests (trace (snd (run f w)))).
Proof.
  intros Hu Hs Htok Hsrc Htgt. split.
  - assert (Hm : missing_flag f = false).
    { destruct (missing_flag f) eqn:Hm; [|reflexivity].
      apply missing_flag_iff in Hm. tauto. }
    run_cases f w; try congruence.
    + destruct (failed_audit _ _ _ _ Hl _ eq_refl) as (_ & _ & A & _). eauto.
    + destruct (dry_audit f vars0 evs data werr Hl _ eq_refl) as (_ & _ & A & _).
      eauto.
    + destruct (live_audit _ _ _ _ _ (Nat.iter (count_success errs) int.incr 0)
                  Hl Ht _ eq_refl) as (_ & _ & A & _). eauto.
  - eapply Forall_impl; [|apply run_requests].
    intros req H. apply request_url in H. destruct H as (p & Hp & H).
    exists p. split; [exact Hp|]. rewrite H.
    change (baseURL (client_of f)) with (strings.TrimRight (gitlabURL f) "/").
    now rewrite (proj2 (TrimRight_empty _ _) Hs).
Qed.

End WithEnv.
End url_properties.

Module call_properties.
Import Hoare Shape Obs Audit hoare_facts audit_facts text_facts string_facts
  run_facts obs_facts claims.

Section WithEnv.
Context {E : Env}.

(** X9: what one call of [CreateVariable] with [dryRun = false] does.
    When [http.NewRequest] rejects the URL, its error is returned, nothing
    is sent and the world is as before.  Otherwise exactly one request is
    sent; a transport failure is returned as it is; an answer with status
    201 gives nil, and an answer with any other status, 200 included,
    gives the error whose message holds the key of the variable, the
    status code and the body of the answer. *)
Theorem CreateVariable_outcomes (c : GitLabClient) (p : string) (v : EnvVar)
    (st : State E) :
  match makeRequest c "POST"
          (fmt.Sprintf "projects/%s/variables" [fmt.s_ (url.PathEscape p)])
          (Some (json.encode v)) with
  | Err e =>
      fst (CreateVariable c p v false st) = Returned (Some e)
      /\ exchanges (trace (snd (CreateVariable c p v false st)))
         = exchanges (trace st)
      /\ world (snd (CreateVariable c p v false st)) = world st
  | Ok req =>
      fst (CreateVariable c p v false st)
      = Returned
          match fst (Do E req (world st)) with
          | Err e => Some e
          | Ok resp =>
              if http.StatusCode resp =? 201 then None
              else Some (errorString
                     ("failed to create variable " ++ Key v ++ ": status code "
                      ++ NilZero.string_of_int (Z.to_int (http.StatusCode resp))
                      ++ ", response: " ++ http.Body resp))
          end
      /\ exchanges (trace (snd (CreateVariable c p v false st)))
         = exchanges (trace st) ++ [(req, fst (Do E req (world st)))]
      /\ world (snd (CreateVariable c p v false st)) = snd (Do E req (world st))
  end.
Proof.
  unfold CreateVariable, CreateVariable_body, bind, emit, ret, httpClient_Do.
  cbn [json.Marshal].
  destruct (makeRequest c "POST" _ _) as [req|e].
  - cbn [world trace]. destruct (Do E req (world st)) as [[resp|e] w'];
      cbn [fst snd].
    + change http.StatusCreated with 201.
      destruct (http.StatusCode resp =? 201); cbn [negb fst snd world trace];
        autorewrite with obs; cbn; rewrite ?app_nil_r; repeat split.
      unfold fmt.Errorf.
      cbn [fmt.Sprintf fmt.render Bytes.eqb Ascii.eqb Bool.eqb].
      rewrite string_app_nil_r. reflexivity.
    + cbn [fst snd world trace]. autorewrite with obs. cbn.
      rewrite ?app_nil_r. repeat split.
  - cbn [fst snd world trace]. autorewrite with obs. cbn.
    rewrite ?app_nil_r. repeat split.
Qed.

Lemma creation_calls_Forall (P : string -> EnvVar -> bool -> Prop) tr :
  Forall (fun ev => match ev with
                    | Call_CreateVariable p v d => P p v d
                    | _ => True
                    end) tr ->
  Forall (fun call => P (fst (fst call)) (snd (fst call)) (snd call))
    (creation_calls tr).
Proof.
  induction 1 as [|ev tr Hev _ IH]; [constructor|].
  destruct ev; cbn; try exact IH. constructor; assumption.
Qed.

(** X10: with [dryRun = true], [CreateVariable] returns nil at once:
    no request is built or sent and the world is as before.  No run of
    [main] takes that branch: every call it makes is for the target
    project with [dryRun = false]. *)
Theorem dry_run_parameter_is_never_set (c : GitLabClient) (p : string)
    (v : EnvVar) (st : State E) (f : Flags) (w : World E) :
  CreateVariable c p v true st
  = (Returned None,
     mkState E (world st)
       (trace st ++ [Call_CreateVariable p v true; Ret_CreateVariable None]))
  /\ Forall (fun call => fst (fst call) = targetProject f /\ snd call = false)
       (creation_calls (trace (snd (run f w)))).
Proof.
  split.
  - unfold CreateVariable, CreateVariable_body, bind, emit, ret.
    cbn [world trace]. now rewrite <- app_assoc.
  - apply (creation_calls_Forall (fun p _ d => p = targetProject f /\ d = false)).
    eapply Forall_impl; [|apply appends_run, main_expected].
    intros [] H; try exact I. exact H.
Qed.

(** The strings and the errors of the lines that the loop logs. *)
Lemma transfer_lines_strings vars : forall errs s,
  In s (flat_map (fun line : string * list log_operand =>
          flat_map (fun a => match a with log_s s => [s] | _ => [] end) (snd line))
        (transfer_lines vars errs)) ->
  exists v, In v vars /\ s = Key v.
Proof.
  induction vars as [|v vars IH]; intros [|[e|] errs] s H; cbn in H;
    try contradiction.
  - destruct H as [H|[H|H]]; [exists v; split; [now left|now symmetry]..|].
    destruct (IH errs s H) as (v' & Hin & Hs). exists v'. split; [now right|exact Hs].
  - destruct H as [H|H]; [exists v; split; [now left|now symmetry]|].
    destruct (IH errs s H) as (v' & Hin & Hs). exists v'. split; [now right|exact Hs].
Qed.

Lemma transfer_lines_errors vars : forall errs e,
  In e (flat_map (fun line : string * list log_operand =>
          flat_map (fun a => match a with log_v e => [e] | _ => [] end) (snd line))
        (transfer_lines vars errs)) ->
  In (Some e) errs.
Proof.
  induction vars as [|v vars IH]; intros [|[e'|] errs] e H; cbn in H;
    try contradiction.
  - destruct H as [H|H]; [left; now f_equal|]. right. now apply IH.
  - right. now apply IH.
Qed.

(** X11: what a run passes to the log.  Every string operand is the
    source path, the target path, the output path or the key of a fetched
    variable; the access token and the values of the variables are no
    operands of their own.  Every error operand is one that
    [GetVariables], [CreateVariable] or the file write returned. *)
Theorem only_names_and_keys_are_logged (f : Flags) (w : World E) :
  (forall s, In s (log_strings (trace (snd (run f w)))) ->
     s = sourceProject f \/ s = targetProject f \/ s = outputFile f
     \/ exists vars v,
          listing_results (trace (snd (run f w))) = [(vars, None)]
          /\ In v (elems vars) /\ s = Key v)
  /\ (forall e, In e (log_errors (trace (snd (run f w)))) ->
        In (Some e) (map snd (listing_results (trace (snd (run f w)))))
        \/ In (Some e) (creation_results (trace (snd (run f w))))
        \/ In (Some e) (map snd (write_attempts (trace (snd (run f w)))))).
Proof.
  unfold log_strings, log_errors. run_cases f w.
  - split; intros s [].
  - destruct (failed_audit _ _ _ _ Hl _ eq_refl) as (A1 & A2 & A3 & A4 & _).
    rewrite A1, A2, A3, A4. cbn. split.
    + intros s [H|[]]. now left.
    + intros e [H|[]]. left. left. now f_equal.
  - destruct (dry_audit f vars0 evs data werr Hl _ eq_refl) as (A1 & A2 & A3 & A4 & _).
    rewrite A1, A2, A3, A4. destruct werr as [e0|]; cbn; split.
    + intros s [H|[H|[]]]; auto.
    + intros e [H|[]]. right. right. left. now f_equal.
    + intros s [H|[H|[]]]; auto.
    + intros e [].
  - destruct (live_audit _ _ _ _ _ (Nat.iter (count_success errs) int.incr 0)
                Hl Ht _ eq_refl) as (A1 & A2 & A3 & A4 & _).
    rewrite A1, A2, A3, A4. cbn [flat_map snd app]. split.
    + intros s [H|[H|[H|H]]]; auto.
      rewrite flat_map_app in H. apply in_app_or in H. destruct H as [H|H].
      * apply transfer_lines_strings in H. destruct H as (v & Hin & Hs).
        right. right. right. exists vars0, v. auto.
      * cbn in H. contradiction.
    + intros e H. rewrite flat_map_app in H. apply in_app_or in H.
      destruct H as [H|H]; [|cbn in H; contradiction].
      apply transfer_lines_errors in H. auto.
Qed.

Lemma silent_obs evs :
  Forall silent evs -> write_attempts evs = [] /\ log_lines evs = [].
Proof.
  induction 1 as [|ev evs Hev _ IH]; [now split|].
  destruct ev; cbn in Hev |- *; try contradiction; exact IH.
Qed.

Lemma offline_obs evs :
  Forall offline evs -> exchanges evs = [] /\ log_lines evs = [].
Proof.
  induction 1 as [|ev evs Hev _ IH]; [now split|].
  destruct ev; cbn in Hev |- *; try contradiction; exact IH.
Qed.

(** X19: the three operations leave all output to [main].  Each of
    them returns to its caller, whatever happens: none ends the process.
    [GetVariables] and [CreateVariable] write no file and no line of the
    log; [writeDryRunOutput] sends no request and writes no line of the
    log. *)
Theorem operations_leave_output_to_main (c : GitLabClient) (p : string)
    (v : EnvVar) (d : bool) (name src tgt : string) (vars : slice EnvVar)
    (st : State E) :
  ((exists r, fst (GetVariables c p st) = Returned r)
   /\ write_attempts (trace (snd (GetVariables c p st))) = write_attempts (trace st)
   /\ log_lines (trace (snd (GetVariables c p st))) = log_lines (trace st))
  /\ ((exists err, fst (CreateVariable c p v d st) = Returned err)
      /\ write_attempts (trace (snd (CreateVariable c p v d st)))
         = write_attempts (trace st)
      /\ log_lines (trace (snd (CreateVariable c p v d st))) = log_lines (trace st))
  /\ ((exists err, fst (writeDryRunOutput name src tgt vars st) = Returned err)
      /\ exchanges (trace (snd (writeDryRunOutput name src tgt vars st)))
         = exchanges (trace st)
      /\ log_lines (trace (snd (writeDryRunOutput name src tgt vars st)))
         = log_lines (trace st)).
Proof.
  split; [|split].
  - split; [apply GetVariables_returns|].
    destruct (GetVariables_silent c p st) as (evs & -> & H).
    apply silent_obs in H. destruct H as [H1 H2].
    autorewrite with obs. rewrite H1, H2, !app_nil_r. now split.
  - split; [apply CreateVariable_returns|].
    destruct (CreateVariable_silent c p v d st) as (evs & -> & H).
    apply silent_obs in H. destruct H as [H1 H2].
    autorewrite with obs. rewrite H1, H2, !app_nil_r. now split.
  - split; [apply writeDryRunOutput_returns|].
    destruct (writeDryRunOutput_offline name src tgt vars st) as (evs & -> & H).
    apply offline_obs in H. destruct H as [H1 H2].
    autorewrite with obs. rewrite H1, H2, !app_nil_r. now split.
Qed.

End WithEnv.
End call_properties.

Module codec_properties.
Import Hoare Shape Obs Audit View hoare_facts audit_facts text_facts string_facts
  run_facts obs_facts claims report_facts listing_facts.

Section WithEnv.
Context {E : Env}.

(** X12: [GetVariables] reads what [json.Marshal] writes: when the
    answer to its request has status 200 and the body is the encoding of
    a list of records whose strings are valid UTF-8, it returns that
    list, record for record and in order (the nil list for [null], the
    empty list for [[]]), and no error. *)
Theorem GetVariables_reads_what_Marshal_writes (c : GitLabClient) (p : string)
    (st : State E) (req : http.Request) (vs : slice EnvVar) (data : string) :
  forallb valid_EnvVar (elems vs) = true ->
  json.Marshal vs = Ok data ->
  makeRequest c "GET"
    (fmt.Sprintf "projects/%s/variables" [fmt.s_ (url.PathEscape p)]) None = Ok req ->
  fst (Do E req (world st)) = Ok (http.mkResponse 200 data) ->
  fst (GetVariables c p st) = Returned (vs, None).
Proof.
  intros Hv Hm Hreq Hdo. injection Hm as <-.
  unfold GetVariables, GetVariables_body, bind, emit, ret, httpClient_Do.
  rewrite Hreq. cbn [world trace].
  destruct (Do E req (world st)) as [answer w']. cbn [fst] in Hdo. subst answer.
  cbn [http.StatusCode http.Body].
  change (200 =? http.StatusNotFound) with false.
  change (negb (200 =? http.StatusOK)) with false. cbv iota.
  rewrite (Decode_encoded_slice vs nil_slice Hv). reflexivity.
Qed.

(** Helper forms of the dry-run and live-run observations. *)
Lemma files_of_a_run f (w : World E) name text :
  In (name, text) (files_written (trace (snd (run f w)))) ->
  exists vars stamp,
    listing_results (trace (snd (run f w))) = [(vars, None)]
    /\ forallb valid_EnvVar (elems vars) = true
    /\ text = pretty_report
                (mkDryRunOutput stamp (sourceProject f) (targetProject f) vars).
Proof.
  run_cases f w.
  - intros [].
  - destruct (failed_obs _ _ _ _ Hl) as (O1 & O2 & O3 & O4 & O5 & O6).
    rewrite O5. intros [].
  - destruct (dry_obs f _ _ data werr _ Hl (last_dry_obs werr vars0))
      as (O1 & O2 & O3 & O4 & O5 & O6).
    rewrite O5, O3. intros [H|[]]. injection H as <- <-.
    exists vars0, now. split; [reflexivity|].
    split; [exact (listing_valid _ _ _ _ Hl)|].
    now apply MarshalIndent_report.
  - destruct (live_obs _ _ _ _ _ Hl Ht) as (O1 & O2 & O3 & O4 & O5 & O6 & O7 & O8).
    rewrite O6. intros [].
Qed.

(** X13: every file that a run writes is a JSON document
    ([json.Valid]): an object whose member [timestamp] is a string and
    whose members [source_project] and [target_project] read back as the
    values of [--source] and [--target], when these are valid UTF-8. *)
Theorem written_report_is_valid_json (f : Flags) (w : World E) name data :
  In (name, data) (files_written (trace (snd (run f w)))) ->
  json.Valid data = true
  /\ (exists t, report_string "timestamp" data = Some t)
  /\ (utf8.ValidString (sourceProject f) = true ->
      report_string "source_project" data = Some (sourceProject f))
  /\ (utf8.ValidString (targetProject f) = true ->
      report_string "target_project" data = Some (targetProject f)).
Proof.
  intros Hin. destruct (files_of_a_run f w name data Hin)
    as (vars & now & _ & Hv & ->).
  destruct (report_pretty_valid
              (mkDryRunOutput now (sourceProject f) (targetProject f) vars) Hv)
    as (V & T & _ & S & G).
  repeat split; assumption.
Qed.


End WithEnv.
End codec_properties.

Module preview_properties.
Import Hoare Shape Obs Audit View hoare_facts audit_facts text_facts string_facts
  run_facts obs_facts claims report_facts listing_facts.

Section WithEnv.
Context {E : Env}.

(** What a run records as the result of the listing is what
    [GetVariables] returns on the world the run starts in. *)
Lemma run_listing f (w : World E) :
  missing_flag f = false ->
  exists r st1,
    GetVariables (client_of f) (sourceProject f) (mkState E w [fetching f])
    = (Returned r, st1)
    /\ listing_results (trace (snd (run f w))) = [r].
Proof.
  intros Hflags. unfold run, main_after_Parse.
  fold (missing_flag f). fold (client_of f). rewrite Hflags.
  rewrite bind_ret. unfold log_Printf. rewrite bind_emit. cbn [world trace app].
  destruct (GetVariables_listing (client_of f) (sourceProject f)
              (mkState E w [fetching f])) as (r & w1 & evs & Hgv & Hl).
  exists r, (mkState E w1 (trace (mkState E w [fetching f]) ++ evs)).
  split; [exact Hgv|].
  rewrite (bind_returned _ _ _ _ _ Hgv). cbn [trace app] in *.
  destruct (listing_audit _ _ _ _ Hl) as (_ & _ & L & _).
  destruct r as [vars [e|]].
  - cbn. audit_norm. rewrite L. reflexivity.
  - rewrite bind_ret.
    destruct (dryRun f) eqn:Hdry.
    + rewrite bind_emit. cbn [world trace].
      destruct (writeDryRunOutput_run (outputFile f) (sourceProject f)
                  (targetProject f) vars
                  (mkState E w1 ((fetching f :: evs)
                     ++ [Logged "Performing dry run, writing output to %s"
                           [log_s (outputFile f)]])))
        as (now & data & werr & w2 & Hdata & Hw).
      rewrite (bind_returned _ _ _ _ _ Hw). cbn [trace].
      destruct werr as [e|]; cbn; audit_norm; rewrite L; reflexivity.
    + rewrite bind_emit. cbn [world trace].
      destruct (transfer_transferred (client_of f) (targetProject f) (elems vars) 0
                  (mkState E w1 ((fetching f :: evs)
                     ++ [Logged "Starting transfer of %d variables from %s to %s"
                           [log_d (len vars); log_s (sourceProject f);
                            log_s (targetProject f)]])))
        as (errs & w2 & evs_t & Ht & Hshape).
      rewrite (bind_returned _ _ _ _ _ Ht). cbn.
      destruct (transferred_obs _ _ _ _ _ Hshape) as (_ & _ & _ & T & _).
      audit_norm. rewrite L, T. reflexivity.
Qed.

Lemma run_listing_usage f (w : World E) :
  missing_flag f = true -> listing_results (trace (snd (run f w))) = [].
Proof.
  intros Hflags. unfold run, main_after_Parse. fold (missing_flag f). rewrite Hflags.
  reflexivity.
Qed.

Lemma calls_of_a_live_run f (w : World E) vars :
  dryRun f = false ->
  listing_results (trace (snd (run f w))) = [(vars, None)] ->
  creation_calls (trace (snd (run f w)))
  = map (fun v => (targetProject f, v, false)) (elems vars).
Proof.
  intros Hd Hlist. run_cases f w; try congruence.
  - discriminate Hlist.
  - destruct (failed_obs _ _ _ _ Hl) as (O1 & O2 & O3 & O4 & O5 & O6).
    rewrite O3 in Hlist. discriminate Hlist.
  - destruct (live_obs _ _ _ _ _ Hl Ht) as (O1 & O2 & O3 & O4 & O5 & O6 & O7 & O8).
    rewrite O4 in Hlist. injection Hlist as ->. exact O1.
Qed.

(** X14: a dry run is a preview of the live run.  Started in the same
    world with the same flags but for [--dry-run], both runs get the same
    result from [GetVariables]; and when that is a list, the records that
    the live run passes to [CreateVariable] are, one by one and in order,
    those that the member [variables] of the dry-run report reads back
    as. *)
Theorem dry_run_previews_the_live_run (f : Flags) (w : World E) :
  listing_results (trace (snd (run (with_dryRun true f) w)))
  = listing_results (trace (snd (run (with_dryRun false f) w)))
  /\ forall vars,
       listing_results (trace (snd (run (with_dryRun true f) w))) = [(vars, None)] ->
       creation_calls (trace (snd (run (with_dryRun false f) w)))
       = map (fun v => (targetProject f, v, false)) (elems vars)
       /\ exists data,
            files_written (trace (snd (run (with_dryRun true f) w)))
            = [(outputFile f, data)]
            /\ report_variables data = Some vars.
Proof.
  assert (Heq : listing_results (trace (snd (run (with_dryRun true f) w)))
                = listing_results (trace (snd (run (with_dryRun false f) w)))).
  { destruct (missing_flag f) eqn:Hm.
    - rewrite !run_listing_usage by exact Hm. reflexivity.
    - destruct (run_listing (with_dryRun true f) w Hm) as (r & st1 & Hg & Hr).
      destruct (run_listing (with_dryRun false f) w Hm) as (r' & st1' & Hg' & Hr').
      change (client_of (with_dryRun false f)) with (client_of (with_dryRun true f)) in Hg'.
      change (sourceProject (with_dryRun false f))
        with (sourceProject (with_dryRun true f)) in Hg'.
      change (fetching (with_dryRun false f)) with (fetching (with_dryRun true f)) in Hg'.
      rewrite Hg in Hg'. injection Hg' as <- _. now rewrite Hr, Hr'. }
  split; [exact Heq|]. intros vars Hlist. split.
  - apply (calls_of_a_live_run (with_dryRun false f) w vars eq_refl).
    now rewrite <- Heq.
  - clear Heq. revert Hlist.
    assert (Hd : dryRun (with_dryRun true f) = true) by reflexivity.
    change (outputFile f) with (outputFile (with_dryRun true f)).
    generalize dependent (with_dryRun true f). clear f. intros f Hd.
    run_cases f w; try congruence; intros Hlist.
    + discriminate Hlist.
    + destruct (failed_obs _ _ _ _ Hl) as (O1 & O2 & O3 & O4 & O5 & O6).
      rewrite O3 in Hlist. discriminate Hlist.
    + destruct (dry_obs f _ _ data werr _ Hl (last_dry_obs werr vars0))
        as (O1 & O2 & O3 & O4 & O5 & O6).
      rewrite O3 in Hlist. injection Hlist as ->.
      exists data. split; [exact O5|].
      apply MarshalIndent_report in Hdata. subst data.
      apply report_variables_pretty. exact (listing_valid _ _ _ _ Hl).
Qed.

End WithEnv.
End preview_properties.

Module decode_properties.
Import Hoare Shape Obs Audit View hoare_facts audit_facts text_facts string_facts
  parse_facts decode_facts run_facts obs_facts claims report_facts listing_facts.

Lemma store_members_known ms : forall x saved,
  json.store_members (filter known_member ms) x saved = json.store_members ms x saved.
Proof.
  induction ms as [|[key v] ms IH]; intros x saved; [reflexivity|].
  cbn [filter json.store_members]. unfold known_member at 1. cbn [fst].
  destruct (json.find_field key) as [fld|] eqn:Hf.
  - cbn [json.store_members]. rewrite Hf.
    destruct (json.store_field fld v x saved) as [x' saved']. apply IH.
  - apply IH.
Qed.

Lemma store_EnvVar_known v x saved :
  json.store_EnvVar (known_of_EnvVar v) x saved = json.store_EnvVar v x saved.
Proof. destruct v; try reflexivity. cbn. apply store_members_known. Qed.

Lemma store_elements_known l : forall saved,
  json.store_elements (map known_of_EnvVar l) saved = json.store_elements l saved.
Proof.
  induction l as [|v l IH]; intros saved; [reflexivity|].
  cbn [map json.store_elements]. rewrite store_EnvVar_known.
  destruct (json.store_EnvVar v EnvVar_zero saved) as [x saved'].
  now rewrite IH.
Qed.

Lemma store_slice_known v old saved :
  json.store_slice (known_of_slice v) old saved = json.store_slice v old saved.
Proof.
  destruct v; try reflexivity. cbn. now rewrite store_elements_known.
Qed.

Lemma TrimRight_app s t cutset :
  all_in cutset t = true ->
  strings.TrimRight (s ++ t)%string cutset = strings.TrimRight s cutset.
Proof.
  intros Ht. induction s as [|c s IH].
  - cbn [append]. now apply TrimRight_empty.
  - cbn [append]. now rewrite !TrimRight_cons, IH.
Qed.

Section WithEnv.
Context {E : Env}.

Lemma GetVariables_on_200 c p (st : State E) req resp :
  makeRequest c "GET"
    (fmt.Sprintf "projects/%s/variables" [fmt.s_ (url.PathEscape p)]) None = Ok req ->
  fst (Do E req (world st)) = Ok resp ->
  http.StatusCode resp = 200 ->
  fst (GetVariables c p st)
  = Returned (match json.Decode (http.Body resp) nil_slice with
              | (vars, None) => (vars, None)
              | (_, Some e) => (nil_slice, Some e)
              end).
Proof.
  intros Hreq Hdo H200.
  unfold GetVariables, GetVariables_body, bind, emit, ret, httpClient_Do.
  rewrite Hreq. cbn [world trace].
  destruct (Do E req (world st)) as [answer w']. cbn [fst] in Hdo. subst answer.
  rewrite H200.
  change (200 =? http.StatusNotFound) with false.
  change (negb (200 =? http.StatusOK)) with false. cbv iota.
  destruct (json.Decode (http.Body resp) nil_slice) as [vars [e|]]; reflexivity.
Qed.

(** X15: members that name none of the six fields do not count.  Two
    answers with status 200 whose bodies start with values that agree
    once such members are left out make [GetVariables] return the same
    list and the same error: what GitLab sends besides the six fields is
    dropped and cannot reach the target. *)
Theorem unknown_members_are_dropped (c : GitLabClient) (p : string)
    (st st' : State E) (req req' : http.Request) (resp resp' : http.Response)
    v rest v' rest' :
  makeRequest c "GET"
    (fmt.Sprintf "projects/%s/variables" [fmt.s_ (url.PathEscape p)]) None = Ok req ->
  fst (Do E req (world st)) = Ok resp ->
  http.StatusCode resp = 200 ->
  json.readValue (http.Body resp) = json.Done v rest ->
  makeRequest c "GET"
    (fmt.Sprintf "projects/%s/variables" [fmt.s_ (url.PathEscape p)]) None = Ok req' ->
  fst (Do E req' (world st')) = Ok resp' ->
  http.StatusCode resp' = 200 ->
  json.readValue (http.Body resp') = json.Done v' rest' ->
  known_of_slice v = known_of_slice v' ->
  fst (GetVariables c p st) = fst (GetVariables c p st').
Proof.
  intros Hreq Hdo H200 Hr Hreq' Hdo' H200' Hr' Hk.
  rewrite (GetVariables_on_200 c p st req resp Hreq Hdo H200).
  rewrite (GetVariables_on_200 c p st' req' resp' Hreq' Hdo' H200').
  unfold json.Decode. rewrite Hr, Hr'.
  change (json.store v nil_slice None) with (json.store_slice v nil_slice None).
  change (json.store v' nil_slice None) with (json.store_slice v' nil_slice None).
  rewrite <- (store_slice_known v), <- (store_slice_known v'), Hk. reflexivity.
Qed.

(** X16: an answer with status 200 and a body that is empty or holds
    white space only is an error, [io.EOF], not an empty list. *)
Theorem blank_body_is_an_error (c : GitLabClient) (p : string) (st : State E)
    (req : http.Request) (resp : http.Response) :
  makeRequest c "GET"
    (fmt.Sprintf "projects/%s/variables" [fmt.s_ (url.PathEscape p)]) None = Ok req ->
  fst (Do E req (world st)) = Ok resp ->
  http.StatusCode resp = 200 ->
  json.all_space (http.Body resp) = true ->
  fst (GetVariables c p st) = Returned (nil_slice, Some io_EOF).
Proof.
  intros Hreq Hdo H200 Hb.
  rewrite (GetVariables_on_200 c p st req resp Hreq Hdo H200).
  unfold json.Decode, json.readValue. unfold json.all_space in Hb.
  destruct (json.skip_space (http.Body resp)); [reflexivity|discriminate].
Qed.

(** X17: trailing slashes of [--gitlab-url] make no difference: with
    more of them at the end of a URL that is not empty, the run has the
    same exit status and the same history, request by request. *)
Theorem trailing_slashes_make_no_difference (f : Flags) (w : World E) (t : string) :
  gitlabURL f <> ""%string ->
  all_in "/" t = true ->
  run (with_gitlabURL (gitlabURL f ++ t) f) w = run f w.
Proof.
  intros Hu Ht. unfold run, main_after_Parse, with_gitlabURL.
  cbn [gitlabURL token_flag sourceProject targetProject dryRun outputFile].
  rewrite (TrimRight_app _ _ _ Ht).
  replace (is_empty (gitlabURL f ++ t)) with (is_empty (gitlabURL f)); [reflexivity|].
  destruct (gitlabURL f); [now elim Hu|reflexivity].
Qed.

End WithEnv.

(** X18: the fields of a record go through [json.Marshal] and
    [json.Unmarshal] one by one.  The encoding of any record is a JSON
    document; decoding it gives, without error, a record with the same
    two booleans, with every string field that is valid UTF-8 unchanged,
    and with valid UTF-8 in all four strings. *)
Theorem fields_round_trip_one_by_one (v old : EnvVar) :
  json.Valid (json.encode v) = true
  /\ exists v',
       json.Unmarshal (json.encode v) old = (v', None)
       /\ valid_EnvVar v' = true
       /\ Protected v' = Protected v /\ Masked v' = Masked v
       /\ (utf8.ValidString (VariableType v) = true -> VariableType v' = VariableType v)
       /\ (utf8.ValidString (Key v) = true -> Key v' = Key v)
       /\ (utf8.ValidString (Value v) = true -> Value v' = Value v)
       /\ (utf8.ValidString (EnvironmentScope v) = true ->
           EnvironmentScope v' = EnvironmentScope v).
Proof.
  destruct (value_EnvVar v) as (t & k & x & e & Hp & Ht & Hk & Hx & He).
  pose proof (encode_EnvVar_length v) as Hlen.
  specialize (Hp (json.fuel_for (json.encode v)) 0%Z ""%string).
  rewrite string_app_nil_r in Hp.
  specialize (Hp ltac:(unfold json.fuel_for; lia)
                 ltac:(unfold json.maxNestingDepth; lia)).
  pose proof (proj1 (parse_valid _) _ _ _ _ Hp) as Hvalid.
  unfold json.Valid, json.Unmarshal. rewrite Hp.
  split; [reflexivity|].
  exists (mkEnvVar t k x (Protected v) (Masked v) e).
  cbn [json.all_space json.skip_space]. rewrite store_tree.
  split; [reflexivity|].
  cbn in Hvalid. rewrite !andb_true_r in Hvalid.
  split.
  { unfold valid_EnvVar. cbn.
    repeat (apply andb_prop in Hvalid; destruct Hvalid as [? Hvalid]).
    repeat (apply andb_true_intro; split); assumption. }
  repeat split; assumption.
Qed.

End decode_properties.

Module paging_properties.
Import Hoare Shape Obs Audit hoare_facts audit_facts text_facts string_facts
  run_facts obs_facts claims url_properties.

Lemma mem_all_in c cs s :
  all_in cs s = true -> Bytes.mem c cs = false -> Bytes.mem c s = false.
Proof.
  intros Hs Hc. induction s as [|d s IH]; [reflexivity|].
  cbn in Hs |- *. apply andb_prop in Hs. destruct Hs as [Hd Hs].
  rewrite (IH Hs), orb_false_r.
  destruct (Bytes.eqb c d) eqn:Heq; [|reflexivity].
  apply Ascii.eqb_eq in Heq. subst d. congruence.
Qed.

Section WithEnv.
Context {E : Env}.

Lemma run_methods f (w : World E) :
  exists n,
    map http.Method (requests (trace (snd (run f w)))) = []
    \/ map http.Method (requests (trace (snd (run f w))))
       = "GET"%string :: repeat "POST"%string n.
Proof.
  run_cases f w.
  - exists 0%nat. now left.
  - destruct (failed_audit _ _ _ _ Hl _ eq_refl) as (_ & _ & _ & _ & A).
    exists 0%nat. destruct A as [A|A]; rewrite A; auto.
  - destruct (dry_audit f vars0 evs data werr Hl _ eq_refl) as (_ & _ & _ & _ & A).
    exists 0%nat. right. exact A.
  - destruct (live_audit _ _ _ _ _ (Nat.iter (count_success errs) int.incr 0)
                Hl Ht _ eq_refl) as (_ & _ & _ & _ & _ & A).
    rewrite A. destruct (NewRequest_check E "POST" _); eauto.
    exists 0%nat. now right.
Qed.

Lemma filter_POST n :
  filter (fun m => String.eqb m "GET") (repeat "POST"%string n) = [].
Proof. induction n; [reflexivity|exact IHn]. Qed.

(** X21: the listing is not paged.  A run sends at most one GET, and
    the program adds no query to a URL: the string from which
    [http.NewRequest] makes a request is the trimmed value of
    [--gitlab-url] followed by [/api/v4/projects/], a segment without [/],
    [?] or [#], and [/variables].  So when the value of [--gitlab-url]
    holds no [?], the URL string of no request holds one, and no [page] or
    [per_page] parameter is asked for; the same holds of [#]. *)
Theorem listing_is_not_paged (f : Flags) (w : World E) :
  (List.length (filter (fun m => String.eqb m "GET")
                  (map http.Method (requests (trace (snd (run f w))))))
   <= 1)%nat
  /\ Forall (fun req =>
       exists method seg body,
         let u := (strings.TrimRight (gitlabURL f) "/" ++ "/api/v4/projects/"
                   ++ seg ++ "/variables")%string in
         handed method u body (token_flag f) req
         /\ Bytes.mem "/" seg = false /\ Bytes.mem "?" seg = false
         /\ Bytes.mem "#" seg = false
         /\ (Bytes.mem "?" (gitlabURL f) = false -> Bytes.mem "?" u = false)
         /\ (Bytes.mem "#" (gitlabURL f) = false -> Bytes.mem "#" u = false))
      (requests (trace (snd (run f w)))).
Proof.
  split.
  - destruct (run_methods f w) as (n & [H|H]); rewrite H; [cbn; lia|].
    cbn [filter String.eqb Ascii.eqb Bool.eqb]. rewrite filter_POST. cbn. lia.
  - destruct (TrimRight_split (gitlabURL f) "/") as (t & Hsplit & _).
    eapply Forall_impl; [|apply run_requests].
    intros req H. apply request_handed in H.
    destruct H as (p & method & body & _ & H).
    exists method, (url.PathEscape p), body. cbv zeta.
    split; [exact H|].
    pose proof (escape_segment p) as Hs.
    assert (Hq : Bytes.mem "?" (url.PathEscape p) = false)
      by (apply (mem_all_in _ _ _ Hs); reflexivity).
    assert (Hh : Bytes.mem "#" (url.PathEscape p) = false)
      by (apply (mem_all_in _ _ _ Hs); reflexivity).
    split; [apply (mem_all_in _ _ _ Hs); reflexivity|].
    split; [exact Hq|]. split; [exact Hh|].
    split; intros Hu; rewrite Hsplit, claims_url.mem_app in Hu;
      apply orb_false_elim in Hu; destruct Hu as [Hu _];
      rewrite !claims_url.mem_app, Hu, ?Hq, ?Hh; reflexivity.
Qed.

End WithEnv.
End paging_properties.

(** ** The further properties at concrete runs *)

Module more_witnesses.
Import Obs Audit View run_properties url_properties call_properties
  codec_properties preview_properties decode_properties.

(** A dry run on a file system that refuses the write. *)
Lemma dry_run_history_witness :
  let f := Examples.flags_dry in
  let w := [Examples.ok 200 Examples.listing] in
  let vars := mk_slice [Examples.var_a; Examples.var_b] in
  dryRun f = true
  /\ listing_results (trace (snd (run (E := Scenarios.read_only) f w)))
     = [(vars, None)]
  /\ fst (run (E := Scenarios.read_only) f w) = 1
  /\ List.length (log_lines (trace (snd (run (E := Scenarios.read_only) f w))))
     = 3%nat.
Proof.
  split; [reflexivity|].
  assert (Hl : listing_results
                 (trace (snd (run (E := Scenarios.read_only) Examples.flags_dry
                                [Examples.ok 200 Examples.listing])))
               = [(mk_slice [Examples.var_a; Examples.var_b], None)])
    by (vm_compute; reflexivity).
  split; [exact Hl|].
  destruct (dry_run_history (E := Scenarios.read_only) Examples.flags_dry
              [Examples.ok 200 Examples.listing]
              (mk_slice [Examples.var_a; Examples.var_b]) eq_refl Hl)
    as (werr & Hw & Hc & Hlog).
  rewrite Hlog. split; [|reflexivity].
  rewrite Hc.
  assert (Hw' : write_attempts
                  (trace (snd (run (E := Scenarios.read_only) Examples.flags_dry
                                 [Examples.ok 200 Examples.listing])))
                = [("env-sync-dry-run.json"%string, 420,
                    Some (fs_PathError
                      "open env-sync-dry-run.json: read-only file system"))])
    by (vm_compute; reflexivity).
  rewrite Hw' in Hw. injection Hw as <-. reflexivity.
Defined.

(** A live run in which the first creation succeeds and the second is
    refused. *)
Lemma live_run_log_witness :
  let f := Examples.flags_live in
  let w := [Examples.ok 200 Examples.listing; Examples.ok 201 "{}"%string;
            Examples.ok 400 "bad"%string] in
  let vars := mk_slice [Examples.var_a; Examples.var_b] in
  dryRun f = false
  /\ listing_results (trace (snd (run (E := Examples.scripted) f w))) = [(vars, None)]
  /\ len vars < 2 ^ 63
  /\ fst (run (E := Examples.scripted) f w) = 0
  /\ List.length (log_lines (trace (snd (run (E := Examples.scripted) f w))))
     = 6%nat.
Proof.
  split; [reflexivity|]. split; [vm_compute; reflexivity|]. split; [reflexivity|].
  destruct (live_run_log (E := Examples.scripted) Examples.flags_live
              [Examples.ok 200 Examples.listing; Examples.ok 201 "{}"%string;
               Examples.ok 400 "bad"%string]
              (mk_slice [Examples.var_a; Examples.var_b]) eq_refl
              ltac:(vm_compute; reflexivity) ltac:(reflexivity))
    as (Hn & Hc & Hlog).
  split; [exact Hc|]. rewrite Hlog. vm_compute. reflexivity.
Defined.

(** A URL that is one slash. *)
Lemma url_of_slashes_passes_the_check_witness :
  let f := Scenarios.flags_slash in
  let w := [Examples.ok 200 "[]"%string] in
  gitlabURL f <> ""%string /\ all_in "/" (gitlabURL f) = true
  /\ token_flag f <> ""%string /\ sourceProject f <> ""%string
  /\ targetProject f <> ""%string
  /\ map http.URL (requests (trace (snd (run (E := Examples.scripted) f w))))
     = ["/api/v4/projects/group%2Fapp/variables"%string]
  /\ exists r, listing_results (trace (snd (run (E := Examples.scripted) f w))) = [r].
Proof.
  split; [discriminate|]. split; [reflexivity|]. split; [discriminate|].
  split; [discriminate|]. split; [discriminate|].
  split; [vm_compute; reflexivity|].
  apply (url_of_slashes_passes_the_check (E := Examples.scripted)
           Scenarios.flags_slash [Examples.ok 200 "[]"%string]);
    [discriminate|reflexivity|discriminate|discriminate|discriminate].
Defined.

Lemma GetVariables_reads_what_Marshal_writes_witness :
  let vs := mk_slice [Examples.var_a; Examples.var_b] in
  let st := mkState Examples.scripted [Examples.ok 200 (json.encode vs)] [] in
  let req := Scenarios.get_request
               "https://gitlab.example.com/api/v4/projects/group%2Fapp/variables" in
  forallb valid_EnvVar (elems vs) = true
  /\ json.Marshal vs = Ok (json.encode vs)
  /\ makeRequest (E := Examples.scripted) Examples.client "GET"
       (fmt.Sprintf "projects/%s/variables" [fmt.s_ (url.PathEscape "group/app")]) None
     = Ok req
  /\ fst (Do Examples.scripted req (world st))
     = Ok (http.mkResponse 200 (json.encode vs))
  /\ fst (GetVariables (E := Examples.scripted) Examples.client "group/app" st)
     = Returned (vs, None).
Proof.
  split; [vm_compute; reflexivity|]. split; [reflexivity|].
  split; [reflexivity|]. split; [reflexivity|].
  apply (GetVariables_reads_what_Marshal_writes (E := Examples.scripted)
           Examples.client "group/app"
           (mkState Examples.scripted
              [Examples.ok 200 (json.encode (mk_slice [Examples.var_a; Examples.var_b]))] [])
           (Scenarios.get_request
              "https://gitlab.example.com/api/v4/projects/group%2Fapp/variables")
           (mk_slice [Examples.var_a; Examples.var_b])
           (json.encode (mk_slice [Examples.var_a; Examples.var_b])));
    [vm_compute; reflexivity|reflexivity|reflexivity|reflexivity].
Defined.

Lemma written_report_is_valid_json_witness :
  let f := Examples.flags_dry in
  let w := [Examples.ok 200 Examples.listing] in
  let data := pretty_report
                (mkDryRunOutput "2024-05-01T12:00:00Z" "group/app" "group/copy"
                   (mk_slice [Examples.var_a; Examples.var_b])) in
  In ("env-sync-dry-run.json"%string, data)
    (files_written (trace (snd (run (E := Examples.scripted) f w))))
  /\ json.Valid data = true
  /\ report_string "source_project" data = Some "group/app"%string
  /\ report_string "target_project" data = Some "group/copy"%string.
Proof.
  assert (Hin : In ("env-sync-dry-run.json"%string,
                    pretty_report
                      (mkDryRunOutput "2024-05-01T12:00:00Z" "group/app" "group/copy"
                         (mk_slice [Examples.var_a; Examples.var_b])))
                  (files_written
                     (trace (snd (run (E := Examples.scripted) Examples.flags_dry
                                    [Examples.ok 200 Examples.listing])))))
    by (left; vm_compute; reflexivity).
  split; [exact Hin|].
  destruct (written_report_is_valid_json (E := Examples.scripted) Examples.flags_dry
              [Examples.ok 200 Examples.listing] _ _ Hin) as (V & _ & S & G).
  split; [exact V|]. split; [apply S; reflexivity|apply G; reflexivity].
Defined.


(** Two listings that differ in a member [raw]. *)
Lemma unknown_members_are_dropped_witness :
  let st := mkState Examples.scripted [Examples.ok 200 Scenarios.listing_with_raw] [] in
  let st' := mkState Examples.scripted [Examples.ok 200 Scenarios.listing_plain] [] in
  Scenarios.listing_with_raw <> Scenarios.listing_plain
  /\ fst (GetVariables (E := Examples.scripted) Examples.client "group/app" st)
     = fst (GetVariables (E := Examples.scripted) Examples.client "group/app" st')
  /\ fst (GetVariables (E := Examples.scripted) Examples.client "group/app" st')
     = Returned (mk_slice [Examples.var_a], None).
Proof.
  split; [vm_compute; discriminate|]. split; [|vm_compute; reflexivity].
  eapply (unknown_members_are_dropped (E := Examples.scripted) Examples.client
            "group/app"
            (mkState Examples.scripted [Examples.ok 200 Scenarios.listing_with_raw] [])
            (mkState Examples.scripted [Examples.ok 200 Scenarios.listing_plain] [])
            (Scenarios.get_request
               "https://gitlab.example.com/api/v4/projects/group%2Fapp/variables")
            (Scenarios.get_request
               "https://gitlab.example.com/api/v4/projects/group%2Fapp/variables")
            (http.mkResponse 200 Scenarios.listing_with_raw)
            (http.mkResponse 200 Scenarios.listing_plain));
    [reflexivity|reflexivity|reflexivity|vm_compute; reflexivity
    |reflexivity|reflexivity|reflexivity|vm_compute; reflexivity
    |vm_compute; reflexivity].
Defined.

Lemma blank_body_is_an_error_witness :
  let body := String " " (String "010" "") in
  let st := mkState Examples.scripted [Examples.ok 200 body] [] in
  json.all_space body = true
  /\ fst (GetVariables (E := Examples.scripted) Examples.client "group/app" st)
     = Returned (nil_slice, Some io_EOF).
Proof.
  split; [reflexivity|].
  apply (blank_body_is_an_error (E := Examples.scripted) Examples.client "group/app"
           (mkState Examples.scripted
              [Examples.ok 200 (String " " (String "010" ""))] [])
           (Scenarios.get_request
              "https://gitlab.example.com/api/v4/projects/group%2Fapp/variables")
           (http.mkResponse 200 (String " " (String "010" ""))));
    reflexivity.
Defined.

Lemma trailing_slashes_make_no_difference_witness :
  let f := Examples.flags_live in
  let w := [Examples.ok 200 Examples.listing; Examples.ok 201 "{}"%string] in
  gitlabURL f <> ""%string /\ all_in "/" "//" = true
  /\ run (E := Examples.scripted) (with_gitlabURL (gitlabURL f ++ "//") f) w
     = run (E := Examples.scripted) f w.
Proof.
  split; [discriminate|]. split; [reflexivity|].
  apply (trailing_slashes_make_no_difference (E := Examples.scripted)
           Examples.flags_live
           [Examples.ok 200 Examples.listing; Examples.ok 201 "{}"%string] "//");
    [discriminate|reflexivity].
Defined.

Lemma listing_is_not_paged_witness :
  let f := Examples.flags_live in
  let w := [Examples.ok 200 Examples.listing; Examples.ok 201 "{}"%string;
            Examples.ok 201 "{}"%string] in
  map http.Method (requests (trace (snd (run (E := Examples.scripted) f w))))
  = ["GET"; "POST"; "POST"]%string
  /\ Forall (fun req =>
       exists method seg body,
         let u := (strings.TrimRight (gitlabURL f) "/" ++ "/api/v4/projects/"
                   ++ seg ++ "/variables")%string in
         handed (E := Examples.scripted) method u body "secret" req
         /\ Bytes.mem "/" seg = false /\ Bytes.mem "?" seg = false
         /\ Bytes.mem "#" seg = false
         /\ (Bytes.mem "?" (gitlabURL f) = false -> Bytes.mem "?" u = false)
         /\ (Bytes.mem "#" (gitlabURL f) = false -> Bytes.mem "#" u = false))
       (requests (trace (snd (run (E := Examples.scripted) f w)))).
Proof.
  split; [vm_compute; reflexivity|].
  apply (proj2 (paging_properties.listing_is_not_paged (E := Examples.scripted) Examples.flags_live
                  [Examples.ok 200 Examples.listing; Examples.ok 201 "{}"%string;
                   Examples.ok 201 "{}"%string])).
Defined.

End more_witnesses.

